(** * paper_daily: the crawl, extract, deduplicate and persist pipeline

    A shallow embedding of [paper_daily.py].  Python strings are sequences
    of Unicode code points, the parsed pages are BeautifulSoup trees, the
    archive is the dictionary [all_papers_global] from date keys to lists of
    paper dictionaries, and the program's effects (logging, the JSON file,
    HTTP requests, the LLM call, the process exit) are threaded through an
    explicit world in a state-and-exception monad. *)

From Stdlib Require Import ZArith NArith List Bool Ascii String Lia.
From stdpp Require Import base option list gmap fin_maps.

#[local] Set Warnings "-register-all".
Local Open Scope N_scope.

(** ** Python [str]: sequences of code points *)

Module Str.

Abbreviation str := (list N).

(** Code points of a source literal, whose bytes are UTF-8. *)
Fixpoint utf8 (bs : list N) : str :=
  match bs with
  | [] => []
  | b :: r =>
      if b <? 128 then b :: utf8 r
      else if b <? 224 then
        match r with
        | c :: r' => ((b - 192) * 64 + (c - 128)) :: utf8 r'
        | _ => []
        end
      else if b <? 240 then
        match r with
        | c :: d :: r' =>
            ((b - 224) * 4096 + (c - 128) * 64 + (d - 128)) :: utf8 r'
        | _ => []
        end
      else
        match r with
        | c :: d :: e :: r' =>
            ((b - 240) * 262144 + (c - 128) * 4096 + (d - 128) * 64
             + (e - 128)) :: utf8 r'
        | _ => []
        end
  end.

Definition lit (s : string) : str :=
  utf8 (map N_of_ascii (list_ascii_of_string s)).

Definition eqb (a b : str) : bool := bool_decide (a = b).

(** [s.startswith(p)] *)
Fixpoint startswith (s p : str) : bool :=
  match p, s with
  | [], _ => true
  | _ :: _, [] => false
  | a :: p', b :: s' => (a =? b) && startswith s' p'
  end.

(** [p in s] *)
Fixpoint contains (s p : str) : bool :=
  startswith s p ||
  match s with
  | [] => false
  | _ :: s' => contains s' p
  end.

(** [str.isspace] on one code point: the characters Python's [strip()]
    removes. *)
Definition isspace (c : N) : bool :=
  ((9 <=? c) && (c <=? 13)) || ((28 <=? c) && (c <=? 32))
  || (c =? 133) || (c =? 160) || (c =? 5760)
  || ((8192 <=? c) && (c <=? 8202))
  || (c =? 8232) || (c =? 8233) || (c =? 8239) || (c =? 8287)
  || (c =? 12288).

Fixpoint take_while (p : N -> bool) (s : str) : str :=
  match s with
  | [] => []
  | c :: r => if p c then c :: take_while p r else []
  end.

Fixpoint drop_while (p : N -> bool) (s : str) : str :=
  match s with
  | [] => []
  | c :: r => if p c then drop_while p r else s
  end.

Definition lstrip (s : str) : str := drop_while isspace s.

Definition rstrip (s : str) : str := rev (lstrip (rev s)).

(** [s.strip()] *)
Definition strip (s : str) : str := rstrip (lstrip s).

(** [s.split()]: the maximal runs of non-space characters. *)
Fixpoint split_ws_go (cur : str) (s : str) : list str :=
  match s with
  | [] => match cur with [] => [] | _ => [rev cur] end
  | c :: r =>
      if isspace c
      then match cur with
           | [] => split_ws_go [] r
           | _ => rev cur :: split_ws_go [] r
           end
      else split_ws_go (c :: cur) r
  end.

Definition split_ws (s : str) : list str := split_ws_go [] s.

(** [sep.join(parts)] *)
Fixpoint join (sep : str) (parts : list str) : str :=
  match parts with
  | [] => []
  | [p] => p
  | p :: rest => p ++ sep ++ join sep rest
  end.

(** [s.replace(old, new)] for a non-empty [old] (every call site passes a
    non-empty literal): occurrences are replaced from the left and do not
    overlap. [skip] counts the characters of a replaced occurrence still to
    be passed over. *)
Fixpoint replace_go (old new : str) (skip : nat) (s : str) : str :=
  match s with
  | [] => []
  | c :: r =>
      match skip with
      | S k => replace_go old new k r
      | O =>
          if startswith s old
          then new ++ replace_go old new (Nat.pred (length old)) r
          else c :: replace_go old new O r
      end
  end.

Definition replace (s old new : str) : str := replace_go old new O s.

(** The lower case of an ASCII letter. *)
Definition lower_ascii (c : N) : N :=
  if (65 <=? c) && (c <=? 90) then c + 32 else c.

(** [s] starts with the scheme [http://] or [https://], in either
    case: the addresses the HTTP library accepts. *)
Definition is_http_url (s : str) : bool :=
  let l := map lower_ascii s in
  startswith l (lit "http://") || startswith l (lit "https://").

(** [str(n)] for a non-negative integer, most significant digit first. *)
Fixpoint digits_go (fuel : nat) (n : N) (acc : str) : str :=
  match fuel with
  | O => acc
  | S f =>
      let acc' := (48 + n mod 10) :: acc in
      if n <? 10 then acc' else digits_go f (n / 10) acc'
  end.

Definition of_N (n : N) : str := digits_go (S (N.to_nat (N.log2 n))) n [].

End Str.

Import Str.

(** ** BeautifulSoup trees *)

Module Bs4.

(** A parsed page: text nodes and tags.  The attributes of a tag are kept
    as the parser leaves them, one value per name; [class] is held as
    written and split on white space where it is matched. *)
Inductive node : Type :=
| NavigableString (s : str)
| Tag (name : str) (attrs : list (str * str)) (contents : list node).

Fixpoint assoc (k : str) (l : list (str * str)) : option str :=
  match l with
  | [] => None
  | (k', v) :: r => if Str.eqb k k' then Some v else assoc k r
  end.

(** [tag.attrs.get(k)]; [k in tag.attrs] is [is_Some] of it. *)
Definition attr (k : str) (n : node) : option str :=
  match n with
  | Tag _ at_ _ => assoc k at_
  | NavigableString _ => None
  end.

(** All nodes below [n], in document order. *)
Fixpoint descendants (n : node) : list node :=
  match n with
  | NavigableString _ => []
  | Tag _ _ cs => flat_map (fun c => c :: descendants c) cs
  end.

(** [tag.find_all(...)] and [tag.find(...)] for a search criterion given
    as a predicate on nodes. *)
Definition find_all (p : node -> bool) (n : node) : list node :=
  List.filter p (descendants n).

Definition find (p : node -> bool) (n : node) : option node :=
  head (find_all p n).

Definition named (nm : str) (n : node) : bool :=
  match n with
  | Tag nm' _ _ => Str.eqb nm' nm
  | NavigableString _ => false
  end.

(** The [class_=c] criterion: one of the tag's classes is [c], or the
    classes joined by one space are [c]. *)
Definition class_is (c : str) (n : node) : bool :=
  match attr (lit "class") n with
  | None => false
  | Some v =>
      let cs := split_ws v in
      existsb (fun x => Str.eqb x c) cs || Str.eqb (join (lit " ") cs) c
  end.

(** The [class_=[c1, c2, ...]] criterion. *)
Definition class_in (cs : list str) (n : node) : bool :=
  existsb (fun c => class_is c n) cs.

(** An attribute criterion with a string value, such as [id="S1"]. *)
Definition attr_is (k v : str) (n : node) : bool :=
  match attr k n with
  | Some v' => Str.eqb v' v
  | None => false
  end.

(** An attribute criterion [k=True]. *)
Definition has_attr (k : str) (n : node) : bool :=
  match attr k n with Some _ => true | None => false end.

(** [tag.find(nm, class_=c)] and [tag.find_all(nm, class_=c)] *)
Definition find_class (nm c : str) (n : node) : option node :=
  find (fun x => named nm x && class_is c x) n.

Definition find_all_class (nm c : str) (n : node) : list node :=
  find_all (fun x => named nm x && class_is c x) n.

(** The text nodes below [n], in document order. *)
Fixpoint strings (n : node) : list str :=
  match n with
  | NavigableString s => [s]
  | Tag _ _ cs => flat_map strings cs
  end.

(** [tag.get_text(strip=False)] *)
Definition get_text (n : node) : str := concat (strings n).

(** [tag.get_text(strip=True)]: every text node is stripped and the empty
    ones are left out. *)
Definition get_text_strip (n : node) : str :=
  concat (List.filter (fun s => negb (Str.eqb s []))
                      (map strip (strings n))).

(** [tag.string]: the text of a tag that has one child, followed down. *)
Fixpoint string_of (n : node) : option str :=
  match n with
  | NavigableString s => Some s
  | Tag _ _ cs =>
      match cs with
      | c :: [] => string_of c
      | _ => None
      end
  end.

(** The tree after [decompose()] was called on every node below [n] that
    satisfies [p]. *)
Fixpoint decompose_all (p : node -> bool) (n : node) : node :=
  match n with
  | NavigableString s => NavigableString s
  | Tag nm at_ cs =>
      Tag nm at_
          ((fix kept (l : list node) : list node :=
              match l with
              | [] => []
              | c :: r =>
                  if p c then kept r else decompose_all p c :: kept r
              end) cs)
  end.

End Bs4.

Import Bs4.

(** ** The data model *)

(** The values a paper dictionary holds. *)
Inductive value : Type :=
| VNone
| VBool (b : bool)
| VInt (z : Z)
| VStr (s : str).

#[global] Instance value_eq_dec : EqDecision value.
Proof. solve_decision. Defined.

(** An Entry is a dictionary from field names to values; the Archive
    [all_papers_global] maps a date key to the papers harvested that day, in
    crawl order. *)
Abbreviation paper := (gmap str value).
Abbreviation archive := (gmap str (list paper)).

(** ** Exceptions, log records and the world *)

Inductive exn_class : Type :=
| FileNotFoundError
| AttributeError
| KeyError
| IndexError
| OtherException.

(** [SystemExit] is not a subclass of [Exception]: [except Exception] lets
    it through. *)
Inductive exn : Type :=
| Exn (cls : exn_class) (msg : str)
| SystemExit (code : Z).

Inductive level : Type := LvInfo | LvWarning | LvError.

(** One constructor per logging call of the modelled functions, with the
    values its message interpolates. *)
Inductive log_msg : Type :=
| InterruptDetected
| InterruptSaved (dates : nat)
| InterruptNothing
| InterruptSaveFailed (e : str)
| RequestFailed (url e : str)
| AbstractMissing
| IntroMissing
| NoLinksInDt
| NoPdfLink
| LlmFailed (e : str)
| HistoryLoaded (dates : nat)
| NoHistory
| HistoryLoadFailed (e : str)
| MaxPagesReached (max_pages : Z)
| PageStart (page : Z) (url : str)
| ListFetchFailed (page : Z)
| NoArticles (page : Z)
| Mismatch (page : Z) (min_len : nat)
| ItemStart (page : Z) (idx total : nat)
| NoHtmlLink
| Duplicate (url : str)
| DetailFailed (url : str)
| NoMeta (url : str)
| ItemDone (page : Z) (idx : nat) (title : str)
| PageSaved (page : Z)
| PageSaveFailed (page : Z) (e : str)
| NoNextPage.

(** What [open(JSON_SAVE_PATH)] followed by [json.load] finds: no file, a
    file whose read or parse raises an error with the given text, or a file
    that holds an archive. *)
Inductive file_state : Type :=
| Absent
| Unreadable (msg : str)
| Holds (a : archive).

(** What the program does to the outside, in the order it does it. *)
Inductive event : Type :=
| Log (lv : level) (m : log_msg)
| HttpGet (url : str)
| LlmRequest (user_prompt : str)
| JsonDump (a : archive)
| Render (source : file_state).

Record world : Type := World {
  all_papers_global : archive;
  json_file : file_state;
  (** when set, opening the JSON file for writing raises this error *)
  write_fault : option (exn_class * str);
  (** how many times the clock was read *)
  ticks : nat;
  trace : list event
}.

(** ** The collaborators outside the source file *)

Inductive response : Type :=
| RequestError (msg : str)
| Page (soup : node).

Inductive body_read : Type :=
| ReadError (msg : str)
| Body (text : str).

Inductive llm_reply : Type :=
| ConnError (msg : str)
| Reply (status : Z) (body : body_read).

Record environment : Type := Environment {
  (** [requests.get(url, ...)], [raise_for_status()] and the parse of the
      response text: the page, or the text of the exception raised *)
  requests_get : str -> response;
  (** the HTTPS request of [call_llm_for_summary], by its user prompt *)
  llm_post : str -> llm_reply;
  (** [json.loads(body)["choices"][0]["message"]["content"]]: the content
      when the body parses and holds one that is a string, or else the text
      of the exception raised on the way to the summary *)
  completion_content : str -> str + str;
  (** the successive readings of [datetime.now()] and its two formats *)
  clock : nat -> N;
  strftime_date : N -> str;
  strftime_datetime : N -> str;
  (** the value of a Unicode decimal digit, as [\d] and [int] use it *)
  digit_value : N -> option Z;
  (** [str.lower] *)
  lower : str -> str;
  (** the order in which a set of strings is iterated *)
  set_order : gset str -> list str;
  (** [json_to_markdown], the report renderer: the error it raises, if any *)
  renderer_fault : file_state -> option (exn_class * str)
}.

(** ** The monad of the program: state, exceptions *)

Inductive outcome (A : Type) : Type :=
| Ret (a : A)
| Raise (e : exn).
Arguments Ret {A} a.
Arguments Raise {A} e.

Definition M (A : Type) : Type := world -> outcome A * world.

#[global] Instance M_ret : MRet M := fun A a w => (Ret a, w).

#[global] Instance M_bind : MBind M := fun A B f m w =>
  match m w with
  | (Ret a, w') => f a w'
  | (Raise e, w') => (Raise e, w')
  end.

Definition raise {A} (e : exn) : M A := fun w => (Raise e, w).

Definition is_Exception (e : exn) : bool :=
  match e with Exn _ _ => true | SystemExit _ => false end.

(** [str(e)] *)
Definition exn_text (e : exn) : str :=
  match e with
  | Exn _ msg => msg
  | SystemExit code => if (code <? 0)%Z then 45 :: of_N (Z.abs_N code)
                       else of_N (Z.to_N code)
  end.

(** [try: body  except Exception as e: handler(e)] *)
Definition try_except {A} (body : M A) (handler : exn -> M A) : M A :=
  fun w =>
    match body w with
    | (Raise e, w') => if is_Exception e then handler e w' else (Raise e, w')
    | r => r
    end.


Definition emit (ev : event) : M unit := fun w =>
  (Ret tt, World (all_papers_global w) (json_file w) (write_fault w)
                 (ticks w) (trace w ++ [ev])).

Definition logging (lv : level) (m : log_msg) : M unit := emit (Log lv m).

Definition get_archive : M archive := fun w => (Ret (all_papers_global w), w).

Definition set_archive (a : archive) : M unit := fun w =>
  (Ret tt, World a (json_file w) (write_fault w) (ticks w) (trace w)).


(** The exit status of a process that ends with outcome [r]. *)
Definition exit_status {A} (r : outcome A) : Z :=
  match r with
  | Ret _ => 0
  | Raise (SystemExit code) => code
  | Raise (Exn _ _) => 1
  end.

(** ** The program *)

Definition JSON_SAVE_PATH : str :=
  Eval vm_compute in lit "arxiv_cs_ro_papers_final.json".
Definition PAPERS_PER_PAGE : nat := 100.
Definition ARXIV : str := Eval vm_compute in lit "https://arxiv.org".
Definition NO_ABSTRACT : str := Eval vm_compute in lit "未获取到摘要".
Definition NO_INTRODUCTION : str := Eval vm_compute in lit "未获取到引言".
Definition SUMMARY_FAILED : str := Eval vm_compute in lit "大模型总结失败".
Definition SCORE_PREFIX : str := Eval vm_compute in lit "分数：".
Definition SCORE_SUFFIX : str := Eval vm_compute in lit "分".
Definition NBSP : str := [160].
Definition SPACE : str := [32].
Definition NEWLINE : str := [10].
Definition SLASH : str := [47].

(** The keys of a paper dictionary. *)
Definition K_CRAWL_DATETIME : str := Eval vm_compute in lit "crawl_datetime".
Definition K_TITLE : str := Eval vm_compute in lit "title".
Definition K_AUTHORS : str := Eval vm_compute in lit "authors".
Definition K_SUBJECTS : str := Eval vm_compute in lit "subjects".
Definition K_COMMENT : str := Eval vm_compute in lit "comment".
Definition K_PDF_LINK : str := Eval vm_compute in lit "pdf_link".
Definition K_CODE : str := Eval vm_compute in lit "code".
Definition K_ABS_LINK : str := Eval vm_compute in lit "arxiv_abs_link".
Definition K_HTML_LINK : str := Eval vm_compute in lit "arxiv_html_link".
Definition K_ABSTRACT : str := Eval vm_compute in lit "abstract".
Definition K_INTRODUCTION : str := Eval vm_compute in lit "introduction".
Definition K_LLM_SUMMARY : str := Eval vm_compute in lit "llm_summary".
Definition K_LLM_SCORE : str := Eval vm_compute in lit "llm_score".
Definition K_LLM_ERROR : str := Eval vm_compute in lit "llm_error".

(** The result dictionary of [call_llm_for_summary], which always has the
    three keys [summary], [score] and [error]. *)
Record llm_result : Type := LlmResult {
  summary : str;
  score : Z;
  error : str
}.

(** What one turn of the [while True] loop decides. *)
Inductive control : Type :=
| Break
| Continue (next_url : str).

Section Program.

Variable E : environment.

(** [datetime.now()] *)
Definition now : M N := fun w =>
  (Ret (clock E (ticks w)),
   World (all_papers_global w) (json_file w) (write_fault w)
         (S (ticks w)) (trace w)).

(** [with open(JSON_SAVE_PATH, "w") as f: json.dump(all_papers_global, f)] *)
Definition write_json : M unit := fun w =>
  match write_fault w with
  | Some (c, msg) => (Raise (Exn c msg), w)
  | None =>
      (Ret tt,
       World (all_papers_global w) (Holds (all_papers_global w)) None
             (ticks w) (trace w ++ [JsonDump (all_papers_global w)]))
  end.

(** [with open(JSON_SAVE_PATH, "r") as f: json.load(f)] *)
Definition read_json : M archive := fun w =>
  match json_file w with
  | Absent =>
      (Raise (Exn FileNotFoundError
                  (lit "[Errno 2] No such file or directory: '"
                   ++ JSON_SAVE_PATH ++ lit "'")), w)
  | Unreadable msg => (Raise (Exn OtherException msg), w)
  | Holds a => (Ret a, w)
  end.

(** [json_to_markdown(JSON_SAVE_PATH, MD_SAVE_PATH)], the renderer, by
    its interface: it reads the JSON file as it is now. *)
Definition json_to_markdown : M unit := fun w =>
  match renderer_fault E (json_file w) with
  | Some (c, msg) => (emit (Render (json_file w)) ;; raise (Exn c msg)) w
  | None => emit (Render (json_file w)) w
  end.


(** [get_arxiv_soup(url)] *)
Definition get_arxiv_soup (url : str) : M (option node) :=
  try_except
    (emit (HttpGet url) ;;
     match requests_get E url with
     | RequestError msg => raise (Exn OtherException msg)
     | Page soup => mret (Some soup)
     end)
    (fun e => logging LvError (RequestFailed url (exn_text e)) ;;
              mret None).

(** [tag.get_text(strip=False).strip().replace("\xa0", " ")] *)
Definition clean_text (p : node) : str :=
  replace (strip (get_text p)) NBSP SPACE.

(** [extract_abstract(soup)] *)
Definition extract_abstract (soup : node) : M str :=
  match find_class (lit "div") (lit "ltx_abstract") soup with
  | None => logging LvWarning AbstractMissing ;; mret NO_ABSTRACT
  | Some abstract_container =>
      match find_class (lit "p") (lit "ltx_p") abstract_container with
      | Some abstract_p => mret (clean_text abstract_p)
      | None => mret NO_ABSTRACT
      end
  end.

(** The first loop of [extract_introduction]: the text of the first
    [p.ltx_p] of every [div.ltx_para] of the section. *)
Definition intro_paragraphs (intro_section : node) : list str :=
  flat_map
    (fun para_div =>
       match find_class (lit "p") (lit "ltx_p") para_div with
       | Some para_p => [clean_text para_p]
       | None => []
       end)
    (find_all_class (lit "div") (lit "ltx_para") intro_section).

(** [for idx, li in enumerate(lis, idx)]: the element
    [li.find("div", class_="ltx_para")] is used without a test, and
    [None.find] raises. *)
Fixpoint intro_list_items (idx : N) (lis : list node) : outcome (list str) :=
  match lis with
  | [] => Ret []
  | li :: rest =>
      match find_class (lit "div") (lit "ltx_para") li with
      | None =>
          Raise (Exn AttributeError
                     (lit "'NoneType' object has no attribute 'find'"))
      | Some li_para =>
          let line :=
            match find_class (lit "p") (lit "ltx_p") li_para with
            | Some li_p => [of_N idx ++ lit ". " ++ clean_text li_p]
            | None => []
            end in
          match intro_list_items (idx + 1) rest with
          | Ret more => Ret (line ++ more)
          | Raise e => Raise e
          end
      end
  end.

(** The second loop: every [ul.ltx_itemize] of the section in turn. *)
Fixpoint intro_lists (uls : list node) : outcome (list str) :=
  match uls with
  | [] => Ret []
  | ul :: rest =>
      match intro_list_items 1 (find_all_class (lit "li") (lit "ltx_item") ul)
      with
      | Raise e => Raise e
      | Ret lines =>
          match intro_lists rest with
          | Ret more => Ret (lines ++ more)
          | Raise e => Raise e
          end
      end
  end.

(** The pagination and hidden-button elements [extract_introduction]
    removes from the section. *)
Definition intro_noise (x : node) : bool :=
  (named (lit "div") x || named (lit "button") x)
  && class_in [lit "ltx_pagination"; lit "sr-only button"] x.

(** [extract_introduction(soup)] *)
Definition extract_introduction (soup : node) : M str :=
  match find (fun x => named (lit "section") x
                       && attr_is (lit "id") (lit "S1") x) soup with
  | None => logging LvWarning IntroMissing ;; mret NO_INTRODUCTION
  | Some intro_section =>
      let intro_section := decompose_all intro_noise intro_section in
      let paragraphs := intro_paragraphs intro_section in
      match intro_lists (find_all_class (lit "ul") (lit "ltx_itemize")
                                        intro_section) with
      | Raise e => raise e
      | Ret items =>
          let contents := paragraphs ++ items in
          mret (match contents with
                | [] => NO_INTRODUCTION
                | _ => join (NEWLINE ++ NEWLINE) contents
                end)
      end
  end.

(** [url.startswith(("/", "http://", "https://"))] *)
Definition startswith_any (s : str) (ps : list str) : bool :=
  existsb (startswith s) ps.

(** [f"https://arxiv.org{href}" if href.startswith("/") else href] *)
Definition absolute (href : str) : str :=
  if startswith href SLASH then ARXIV ++ href else href.

(** The length of the match of [https?://\S+|www\.\S+] at the start of
    [s], if there is one. *)
Definition url_match (s : str) : option nat :=
  let run (p : str) :=
    let rest := drop (length p) s in
    let n := length (take_while (fun c => negb (isspace c)) rest) in
    if startswith s p && negb (Nat.eqb n 0)
    then Some (length p + n)%nat else None in
  match run (lit "https://") with
  | Some n => Some n
  | None =>
      match run (lit "http://") with
      | Some n => Some n
      | None => run (lit "www.")
      end
  end.

(** [URL_PATTERN.sub("", s)] *)
Fixpoint remove_urls (skip : nat) (s : str) : str :=
  match s with
  | [] => []
  | c :: r =>
      match skip with
      | S k => remove_urls k r
      | O =>
          match url_match s with
          | Some n => remove_urls (Nat.pred n) r
          | None => c :: remove_urls O r
          end
      end
  end.

(** [re.sub(r'[,; ]+$', '', s)] on a stripped string: the trailing run of
    commas, semicolons and spaces is cut. *)
Definition cut_trailing_separators (s : str) : str :=
  rev (drop_while (fun c => (c =? 44) || (c =? 59) || (c =? 32)) (rev s)).

(** [process_comment_and_code(comment_tag)] *)
Definition process_comment_and_code (comment_tag : option node)
  : str * str :=
  match comment_tag with
  | None => ([], [])
  | Some comment_tag =>
      let a_tags := find_all (fun x => named (lit "a") x
                                       && has_attr (lit "href") x)
                             comment_tag in
      let urls : gset str :=
        foldl (fun urls tag =>
                 match attr (lit "href") tag with
                 | Some href =>
                     let url := strip href in
                     if startswith_any url
                          [SLASH; lit "http://"; lit "https://"]
                     then urls ∪ {[ absolute url ]}
                     else urls
                 | None => urls
                 end) ∅ a_tags in
      let code :=
        if bool_decide (urls = ∅) then []
        else join (lit ", ") (set_order E urls) in
      let raw_text :=
        strip (replace (get_text_strip comment_tag) (lit "Comments:") [])
      in
      let clean_comment := strip (remove_urls O raw_text) in
      (cut_trailing_separators clean_comment, code)
  end.

(** [PDF_LINK_PATTERN.search(href)]: the letters p, d, f in a row, in
    either case. *)
Fixpoint has_pdf (s : str) : bool :=
  match s with
  | p :: ((d :: f :: _) as r) =>
      (((p =? 112) || (p =? 80)) && ((d =? 100) || (d =? 68))
       && ((f =? 102) || (f =? 70)))
      || has_pdf r
  | _ => false
  end.

(** The [for a_tag in all_a_tags] loop of [extract_pdf_link]. *)
Fixpoint first_pdf_link (a_tags : list node) : option str :=
  match a_tags with
  | [] => None
  | a_tag :: rest =>
      match attr (lit "href") a_tag with
      | None => first_pdf_link rest
      | Some href =>
          let href := strip href in
          if has_pdf href then
            if startswith href SLASH then Some (ARXIV ++ href)
            else if startswith_any href [lit "http://"; lit "https://"]
            then Some href
            else first_pdf_link rest
          else first_pdf_link rest
      end
  end.

(** [extract_pdf_link(dt_tag)] *)
Definition extract_pdf_link (dt_tag : node) : M str :=
  match find_all (fun x => named (lit "a") x && has_attr (lit "href") x)
                 dt_tag with
  | [] => logging LvWarning NoLinksInDt ;; mret []
  | all_a_tags =>
      match first_pdf_link all_a_tags with
      | Some link => mret link
      | None => logging LvWarning NoPdfLink ;; mret []
      end
  end.

(** [\d] *)
Definition is_digit (c : N) : bool :=
  match digit_value E c with Some _ => true | None => false end.

(** The match of [(\d+)分] at the start of [s]: the digits are taken
    greedily, and given back one at a time while the suffix does not
    follow.  The result is group 1. *)
Fixpoint match_digits (s : str) : option str :=
  match s with
  | [] => None
  | c :: r =>
      if is_digit c then
        match match_digits r with
        | Some g => Some (c :: g)
        | None => if startswith r SCORE_SUFFIX then Some [c] else None
        end
      else None
  end.

(** The match of [LLM_SCORE_PATTERN] at the start of [s]. *)
Definition match_score (s : str) : option str :=
  if startswith s SCORE_PREFIX
  then match_digits (drop (length SCORE_PREFIX) s)
  else None.

(** [LLM_SCORE_PATTERN.search(s)]: the match at the leftmost position
    that has one; the result is [group(1)]. *)
Fixpoint search_score (s : str) : option str :=
  match match_score s with
  | Some g => Some g
  | None =>
      match s with
      | [] => None
      | _ :: r => search_score r
      end
  end.

(** [int(digits)] for a run of decimal digits (the interpreter's optional
    limit on the length of such a run is not modelled). *)
Definition int_of_digits (ds : str) : Z :=
  foldl (fun acc c => (acc * 10 + default 0 (digit_value E c))%Z) 0%Z ds.

(** [int(m.group(1)) if m and 1 <= int(m.group(1)) <= 5 else 0] *)
Definition score_of (text : str) : Z :=
  match search_score text with
  | Some g =>
      let v := int_of_digits g in
      if ((1 <=? v) && (v <=? 5))%Z then v else 0%Z
  | None => 0%Z
  end.

(** [str(n)] for an integer. *)
Definition str_of_Z (z : Z) : str :=
  if (z <? 0)%Z then 45 :: of_N (Z.abs_N z) else of_N (Z.to_N z).

(** [f"标题：{title}\n摘要：{abstract}\n引言：{introduction}"] *)
Definition user_prompt_of (title abstract introduction : str) : str :=
  lit "标题：" ++ title ++ NEWLINE ++ lit "摘要：" ++ abstract
  ++ NEWLINE ++ lit "引言：" ++ introduction.

(** [call_llm_for_summary(title, abstract, introduction)] *)
Definition call_llm_for_summary (title abstract introduction : str)
  : M llm_result :=
  let user_prompt := user_prompt_of title abstract introduction in
  try_except
    (emit (LlmRequest user_prompt) ;;
     match llm_post E user_prompt with
     | ConnError msg => raise (Exn OtherException msg)
     | Reply status body =>
         match body with
         | ReadError msg => raise (Exn OtherException msg)
         | Body text =>
             if bool_decide (status ≠ 200%Z) then
               raise (Exn OtherException
                          (lit "API 状态码异常：" ++ str_of_Z status
                           ++ lit "，响应：" ++ text))
             else
               match completion_content E text with
               | inl msg => raise (Exn OtherException msg)
               | inr content =>
                   let summary := strip content in
                   mret (LlmResult summary (score_of summary) [])
               end
         end
     end)
    (fun e =>
       let error_msg := exn_text e in
       logging LvError (LlmFailed error_msg) ;;
       mret (LlmResult SUMMARY_FAILED 0 error_msg)).

(** The duplicate check of the crawl loop: some paper of some date has
    [paper.get("arxiv_html_link") == html_link]. *)
Definition is_duplicate (a : archive) (html_link : str) : bool :=
  existsb
    (fun '(_, papers) =>
       existsb (fun p : paper =>
                  bool_decide (p !! K_HTML_LINK = Some (VStr html_link)))
               papers)
    (map_to_list a).

(** [sum(len(papers) for papers in all_papers_global.values())] *)
Definition total_papers (a : archive) : nat :=
  foldr (fun '(_, papers) n => (length papers + n)%nat) O (map_to_list a).

(** [all_papers_global[current_date].append(paper_data)] *)
Definition append_paper (current_date : str) (paper_data : paper) : M unit :=
  a ← get_archive;
  match a !! current_date with
  | Some papers => set_archive (<[current_date := papers ++ [paper_data]]> a)
  | None => raise (Exn KeyError current_date)
  end.

(** The text of a metadata block with its label removed, or the default
    when the block is missing. *)
Definition meta_text (tag : option node) (label default_text : str) : str :=
  match tag with
  | Some t => strip (replace (get_text_strip t) label [])
  | None => default_text
  end.

(** The link of the [a] element of [dt] with the given title, made
    absolute; [None] when the element or its [href] is missing. *)
Definition titled_link (dt : node) (title : str) : option str :=
  match find (fun x => named (lit "a") x && attr_is (lit "title") title x)
             dt with
  | None => None
  | Some tag =>
      match attr (lit "href") tag with
      | None => None
      | Some href => Some (absolute (strip href))
      end
  end.

(** The body of the [for idx, (dt, dd) in enumerate(zip(...), 1)] loop. *)
Definition process_paper (current_date crawl_datetime : str)
           (current_page : Z) (total idx : nat) (dt dd : node) : M unit :=
  logging LvInfo (ItemStart current_page idx total) ;;
  match titled_link dt (lit "View HTML") with
  | None => logging LvWarning NoHtmlLink
  | Some html_link =>
      a ← get_archive;
      if is_duplicate a html_link
      then logging LvInfo (Duplicate html_link)
      else
        pdf_link ← extract_pdf_link dt;
        paper_soup ← get_arxiv_soup html_link;
        match paper_soup with
        | None => logging LvWarning (DetailFailed html_link)
        | Some paper_soup =>
            match find_class (lit "div") (lit "meta") dd with
            | None => logging LvWarning (NoMeta html_link)
            | Some meta_div =>
                let title :=
                  meta_text (find_class (lit "div") (lit "list-title")
                                        meta_div)
                            (lit "Title:") (lit "未知标题") in
                let authors :=
                  meta_text (find_class (lit "div") (lit "list-authors")
                                        meta_div)
                            (lit "Authors:") (lit "未知作者") in
                let subjects :=
                  meta_text (find_class (lit "div") (lit "list-subjects")
                                        meta_div)
                            (lit "Subjects:") (lit "未知学科") in
                let '(comment, code) :=
                  process_comment_and_code
                    (find_class (lit "div") (lit "list-comments") meta_div)
                in
                let abs_link :=
                  default [] (titled_link dt (lit "Abstract")) in
                abstract ← extract_abstract paper_soup;
                introduction ← extract_introduction paper_soup;
                llm_result ← call_llm_for_summary title abstract
                                                  introduction;
                let paper_data : paper :=
                  list_to_map
                    [(K_CRAWL_DATETIME, VStr crawl_datetime);
                     (K_TITLE, VStr title);
                     (K_AUTHORS, VStr authors);
                     (K_SUBJECTS, VStr subjects);
                     (K_COMMENT, VStr comment);
                     (K_PDF_LINK, VStr pdf_link);
                     (K_CODE, VStr code);
                     (K_ABS_LINK, VStr abs_link);
                     (K_HTML_LINK, VStr html_link);
                     (K_ABSTRACT, VStr abstract);
                     (K_INTRODUCTION, VStr introduction);
                     (K_LLM_SUMMARY, VStr (summary llm_result));
                     (K_LLM_SCORE, VInt (score llm_result));
                     (K_LLM_ERROR, VStr (error llm_result))] in
                append_paper current_date paper_data ;;
                logging LvInfo (ItemDone current_page idx (take 30 title))
            end
        end
  end.

(** The [for] loop over the zipped lists, [idx] counting from 1. *)
Fixpoint process_papers (current_date crawl_datetime : str)
         (current_page : Z) (total idx : nat) (items : list (node * node))
  : M unit :=
  match items with
  | [] => mret tt
  | (dt, dd) :: rest =>
      process_paper current_date crawl_datetime current_page total idx
                    dt dd ;;
      process_papers current_date crawl_datetime current_page total
                     (S idx) rest
  end.

(** The two parallel lists of a listing, cut to a common length. *)
Definition paired_lists (current_page : Z) (articles_dl : node)
  : M (list node * list node) :=
  let dt_list := find_all (named (lit "dt")) articles_dl in
  let dd_list := find_all (named (lit "dd")) articles_dl in
  if bool_decide (length dt_list ≠ length dd_list) then
    let min_len := Nat.min (length dt_list) (length dd_list) in
    logging LvWarning (Mismatch current_page min_len) ;;
    mret (take min_len dt_list, take min_len dd_list)
  else mret (dt_list, dd_list).

(** The criterion of the search for the next-page link:
    [lambda x: x and "next" in x.lower() and ">" in x] on the string of
    an [a] element. *)
Definition is_next_link (x : node) : bool :=
  named (lit "a") x &&
  match string_of x with
  | Some s => negb (Str.eqb s []) && contains (lower E s) (lit "next")
              && contains s (lit ">")
  | None => false
  end.

(** [if max_pages and current_page > max_pages] *)
Definition past_max_pages (max_pages : option Z) (current_page : Z) : bool :=
  match max_pages with
  | Some n => negb (n =? 0)%Z && (n <? current_page)%Z
  | None => false
  end.

(** Step 4 of a turn: the archive is written to the JSON file, and a
    failure of the write is logged. *)
Definition save_page (current_page : Z) : M unit :=
  try_except
    (write_json ;; logging LvInfo (PageSaved current_page))
    (fun e => logging LvError (PageSaveFailed current_page (exn_text e))).

(** Step 5 of a turn: the link to the next page. *)
Definition next_page (list_soup : node) : M control :=
  match find is_next_link list_soup with
  | None => logging LvInfo NoNextPage ;; mret Break
  | Some next_page_tag =>
      match attr (lit "href") next_page_tag with
      | None => logging LvInfo NoNextPage ;; mret Break
      | Some href => mret (Continue (absolute (strip href)))
      end
  end.

(** One turn of the [while True] loop. *)
Definition crawl_page (max_pages : option Z) (current_date initial_url : str)
           (current_page : Z) : M control :=
  if past_max_pages max_pages current_page then
    logging LvInfo (MaxPagesReached (default 0%Z max_pages)) ;; mret Break
  else
    logging LvInfo (PageStart current_page initial_url) ;;
    list_soup ← get_arxiv_soup initial_url;
    match list_soup with
    | None => logging LvError (ListFetchFailed current_page) ;; mret Break
    | Some list_soup =>
        match find (fun x => named (lit "dl") x
                             && attr_is (lit "id") (lit "articles") x)
                   list_soup with
        | None => logging LvError (NoArticles current_page) ;; mret Break
        | Some articles_dl =>
            '(dt_list, dd_list) ← paired_lists current_page articles_dl;
            t ← now;
            let crawl_datetime := strftime_datetime E t in
            process_papers current_date crawl_datetime current_page
                           (length dt_list) 1 (zip dt_list dd_list) ;;
            save_page current_page ;;
            next_page list_soup
        end
    end.

(** The [while True] loop; [None] when [fuel] turns do not reach a
    [break]. *)
Fixpoint crawl_loop (fuel : nat) (max_pages : option Z)
         (current_date initial_url : str) (current_page : Z) (w : world)
  : option (outcome unit * world) :=
  match fuel with
  | O => None
  | S fuel' =>
      match crawl_page max_pages current_date initial_url current_page w with
      | (Ret Break, w') => Some (Ret tt, w')
      | (Ret (Continue next_url), w') =>
          crawl_loop fuel' max_pages current_date next_url
                     (current_page + 1)%Z w'
      | (Raise e, w') => Some (Raise e, w')
      end
  end.

(** The load of the history at the start of
    [crawl_and_process_papers]. *)
Definition load_history : M unit :=
  try_except
    (a ← read_json;
     set_archive a ;;
     logging LvInfo (HistoryLoaded (size a)))
    (fun e =>
       match e with
       | Exn FileNotFoundError _ =>
           logging LvInfo NoHistory ;; set_archive ∅
       | _ =>
           logging LvWarning (HistoryLoadFailed (exn_text e)) ;;
           set_archive ∅
       end).

(** What [crawl_and_process_papers] does before its loop: the start page
    and today's date key, whose bucket is created when missing. *)
Definition crawl_setup : M (Z * str) :=
  load_history ;;
  a ← get_archive;
  let total := total_papers a in
  let current_page := (Z.of_nat (total / PAPERS_PER_PAGE) + 1)%Z in
  t ← now;
  let current_date := strftime_date E t in
  (if bool_decide (a !! current_date = None)
   then set_archive (<[current_date := []]> a)
   else mret tt) ;;
  mret (current_page, current_date).

(** [crawl_and_process_papers(initial_url, max_pages)] *)
Definition crawl_and_process_papers (fuel : nat) (initial_url : str)
           (max_pages : option Z) (w : world)
  : option (outcome archive * world) :=
  match crawl_setup w with
  | (Raise e, w1) => Some (Raise e, w1)
  | (Ret (current_page, current_date), w1) =>
      match crawl_loop fuel max_pages current_date initial_url
                       current_page w1 with
      | None => None
      | Some (Raise e, w2) => Some (Raise e, w2)
      | Some (Ret _, w2) => Some (Ret (all_papers_global w2), w2)
      end
  end.

End Program.


(** ** The helpers of the report *)

Definition UNKNOWN_AUTHOR : str := Eval vm_compute in lit "未知作者".
Definition COMMA : N := 44.

(** [s.split(sep)[0]]: the text before the first separator. *)
Definition before_first (sep : N) (s : str) : str :=
  take_while (fun c => negb (c =? sep)) s.

(** [get_first_author(authors_str)] *)
Definition get_first_author (authors_str : str) : str :=
  match authors_str with
  | [] => UNKNOWN_AUTHOR
  | _ =>
      let first_author := strip (before_first COMMA authors_str) in
      match first_author with
      | [] => UNKNOWN_AUTHOR
      | _ => first_author
      end
  end.

(** ** The table of the report

    What [json_to_markdown] computes between the read of the JSON file and
    the write of the Markdown file: one table row per paper, one section
    per date, and the content of the file. *)

Module Report.

(** [type(v).__name__] *)
Definition type_name (v : value) : str :=
  match v with
  | VNone => lit "NoneType"
  | VBool _ => lit "bool"
  | VInt _ => lit "int"
  | VStr _ => lit "str"
  end.

(** [bool(v)] *)
Definition truthy (v : value) : bool :=
  match v with
  | VNone => false
  | VBool b => b
  | VInt z => negb (z =? 0)%Z
  | VStr s => negb (Str.eqb s [])
  end.

(** [str(v)], as an f-string formats [v]. *)
Definition py_str (v : value) : str :=
  match v with
  | VNone => lit "None"
  | VBool true => lit "True"
  | VBool false => lit "False"
  | VInt z => str_of_Z z
  | VStr s => s
  end.

(** The [AttributeError] of a call of a string method on a value that is
    not a string. *)
Definition no_attribute (v : value) (method : str) : exn :=
  Exn AttributeError
      (lit "'" ++ type_name v ++ lit "' object has no attribute '"
       ++ method ++ lit "'").

(** The [TypeError] of [1 <= v] on a value that is not a number. *)
Definition not_comparable (v : value) : exn :=
  Exn OtherException
      (lit "'<=' not supported between instances of 'int' and '"
       ++ type_name v ++ lit "'").

(** [paper.get(key, default)] *)
Definition get (paper : paper) (key : str) (default_value : value) : value :=
  default default_value (paper !! key).

Definition PIPE : str := [124].
Definition ESCAPED_PIPE : str := [92; 124].
Definition BR : str := Eval vm_compute in lit "<br>".
Definition DASH : str := [45].
Definition STAR : N := 9733.
Definition HOLLOW_STAR : N := 9734.
Definition NO_SUMMARY : str := Eval vm_compute in lit "无".
Definition COMMENT_OPEN : str :=
  Eval vm_compute in lit "<details><summary>detail</summary>".
Definition SUMMARY_OPEN : str :=
  Eval vm_compute in lit "<details><summary>查看总结</summary>".
Definition DETAILS_CLOSE : str := Eval vm_compute in lit "</details>".

(** [v.replace("|", "\\|").replace("\n", break)] *)
Definition escaped (v : value) (break : str) : outcome str :=
  match v with
  | VStr s => Ret (replace (replace s PIPE ESCAPED_PIPE) NEWLINE break)
  | _ => Raise (no_attribute v (lit "replace"))
  end.

(** [s.split(sep)] for a separator of one character. *)
Fixpoint split_on (sep : N) (s : str) : list str :=
  match s with
  | [] => [[]]
  | c :: r =>
      if c =? sep then [] :: split_on sep r
      else match split_on sep r with
           | p :: ps => (c :: p) :: ps
           | [] => [[c]]
           end
  end.

(** The title cell. *)
Definition title (paper : paper) : outcome str :=
  escaped (get paper K_TITLE (VStr (lit "未知标题"))) SPACE.

(** The author cell:
    [get_first_author(paper.get("authors", "未知作者"))]. *)
Definition first_author (paper : paper) : outcome str :=
  let authors := get paper K_AUTHORS (VStr UNKNOWN_AUTHOR) in
  if truthy authors then
    match authors with
    | VStr s => Ret (get_first_author s)
    | _ => Raise (no_attribute authors (lit "split"))
    end
  else Ret UNKNOWN_AUTHOR.

(** The comment cell. *)
Definition comment_html (paper : paper) : outcome str :=
  match escaped (get paper K_COMMENT (VStr [])) BR with
  | Ret comment =>
      Ret (if Str.eqb comment [] then []
           else COMMENT_OPEN ++ comment ++ DETAILS_CLOSE)
  | Raise e => Raise e
  end.

(** The PDF cell. *)
Definition pdf_html (paper : paper) : str :=
  let pdf_link := get paper K_PDF_LINK (VStr []) in
  if truthy pdf_link then lit "[PDF](" ++ py_str pdf_link ++ lit ")"
  else DASH.

(** [[url.strip() for url in code.split(",") if url.strip()]] *)
Definition code_list (code : str) : list str :=
  List.filter (fun url => negb (Str.eqb url []))
              (map strip (split_on COMMA code)).

(** [f"[code{i+1}]({url})"] *)
Definition code_link (i : nat) (url : str) : str :=
  lit "[code" ++ of_N (N.of_nat (i + 1)) ++ lit "](" ++ url ++ lit ")".

(** The code cell. *)
Definition code_html (paper : paper) : outcome str :=
  let code := get paper K_CODE (VStr []) in
  if truthy code then
    match code with
    | VStr s => Ret (join BR (imap code_link (code_list s)))
    | _ => Raise (no_attribute code (lit "split"))
    end
  else Ret DASH.

(** [score_html] for a score that is a number. *)
Definition stars (score : Z) : str :=
  if ((1 <=? score) && (score <=? 5))%Z
  then replicate (Z.to_nat score) STAR
       ++ replicate (Z.to_nat (5 - score)) HOLLOW_STAR
  else DASH.

(** The score cell. *)
Definition score_html (paper : paper) : outcome str :=
  match get paper K_LLM_SCORE (VInt 0) with
  | VInt z => Ret (stars z)
  | VBool b => Ret (stars (if b then 1 else 0))
  | v => Raise (not_comparable v)
  end.

(** The summary cell. *)
Definition llm_html (paper : paper) : outcome str :=
  match escaped (get paper K_LLM_SUMMARY (VStr NO_SUMMARY)) BR with
  | Ret llm_summary =>
      Ret (if Str.eqb llm_summary [] then NO_SUMMARY
           else SUMMARY_OPEN ++ llm_summary ++ DETAILS_CLOSE)
  | Raise e => Raise e
  end.

(** The sequencing of computations that may raise. *)
Definition and_then {A B} (r : outcome A) (f : A -> outcome B) : outcome B :=
  match r with
  | Ret a => f a
  | Raise e => Raise e
  end.

(** One row of the table: the cells are computed in the order of the
    source, and the first exception ends the row. *)
Definition row (paper : paper) : outcome str :=
  and_then (title paper) (fun title =>
  and_then (first_author paper) (fun first_author =>
  and_then (comment_html paper) (fun comment_html =>
  let pdf_html := pdf_html paper in
  and_then (code_html paper) (fun code_html =>
  and_then (score_html paper) (fun score_html =>
  and_then (llm_html paper) (fun llm_html =>
  Ret (lit "| " ++ title ++ lit " | " ++ first_author ++ lit " | "
       ++ comment_html ++ lit " | " ++ pdf_html ++ lit " | " ++ code_html
       ++ lit " | " ++ score_html ++ lit " | " ++ llm_html
       ++ lit " |"))))))).

(** The rows of the papers of one date. *)
Fixpoint table_rows (papers : list paper) : outcome (list str) :=
  match papers with
  | [] => Ret []
  | paper :: rest =>
      and_then (row paper) (fun r =>
      and_then (table_rows rest) (fun rs => Ret (r :: rs)))
  end.

Definition md_table_header : str :=
  lit "| Title | Author | Comment | PDF | Code | LLM Summary |  |"
  ++ NEWLINE
  ++ lit "|----------|----------|---------|-----|------|--------|----------|".

Definition md_intro : str :=
  lit "> 说明：仅显示最近三天数据，当天论文默认展开，其他日期点击标题可展开/折叠"
  ++ NEWLINE
  ++ lit "> 相关性评分：基于LLM对机器人领域的相关性评定（1-5分，★越多相关性越高）"
  ++ NEWLINE ++ NEWLINE.

(** The section of one date: open for the current date, folded for the
    others. *)
Definition section (CURRENT_DATE date : str) (papers : list paper)
  : outcome str :=
  let date_display :=
    date ++ lit "（" ++ of_N (N.of_nat (length papers)) ++ lit "篇论文）" in
  and_then (table_rows papers) (fun rows =>
  Ret (if Str.eqb date CURRENT_DATE
       then lit "## " ++ date_display ++ NEWLINE ++ NEWLINE
            ++ md_table_header ++ NEWLINE ++ join NEWLINE rows ++ NEWLINE
       else lit "<details>" ++ NEWLINE ++ lit "<summary>## " ++ date_display
            ++ lit "</summary>" ++ NEWLINE ++ NEWLINE
            ++ (md_table_header ++ NEWLINE ++ join NEWLINE rows)
            ++ NEWLINE ++ NEWLINE ++ lit "</details>" ++ NEWLINE)).

(** [[date for date in recent_dates
      if date in date_papers and len(date_papers[date]) > 0]] *)
Definition valid_dates (recent_dates : list str) (date_papers : archive)
  : list str :=
  List.filter (fun date =>
                 match date_papers !! date with
                 | Some papers => negb (Nat.eqb (length papers) 0)
                 | None => false
                 end) recent_dates.

(** [date_papers[date]] *)
Definition bucket (date_papers : archive) (date : str) : list paper :=
  default [] (date_papers !! date).

Fixpoint date_sections (CURRENT_DATE : str) (date_papers : archive)
         (dates : list str) : outcome (list str) :=
  match dates with
  | [] => Ret []
  | date :: rest =>
      and_then (section CURRENT_DATE date (bucket date_papers date))
               (fun s =>
      and_then (date_sections CURRENT_DATE date_papers rest)
               (fun ss => Ret (s :: ss)))
  end.

(** The content of the Markdown file for the archive [date_papers] and the
    recent dates: [None] when no recent date has papers, and nothing is
    written. *)
Definition md_content (CURRENT_DATE : str) (recent_dates : list str)
           (date_papers : archive) : outcome (option str) :=
  let valid_dates := valid_dates recent_dates date_papers in
  match valid_dates with
  | [] => Ret None
  | _ =>
      let total_papers :=
        sum_list (map (fun date => length (bucket date_papers date))
                      valid_dates) in
      let md_title :=
        lit "# " ++ CURRENT_DATE ++ lit " arXiv Robot 领域论文汇总（共"
        ++ of_N (N.of_nat total_papers) ++ lit "篇）" in
      and_then (date_sections CURRENT_DATE date_papers valid_dates)
               (fun sections =>
      Ret (Some (md_title ++ NEWLINE ++ NEWLINE ++ md_intro
                 ++ join NEWLINE sections)))
  end.

End Report.

(** ** The entry point

    The [if __name__ == "__main__":] block.  Its own log records are kept
    in a journal, in which the events of the functions it calls appear in
    their place. *)

Module Main.

Definition MAX_CRAWL_PAGES : option Z := Some 1%Z.
Definition INITIAL_ARXIV_URL : str :=
  Eval vm_compute in lit "https://arxiv.org/list/cs.RO/recent?show=100".

(** One constructor per logging call of the block, with the values its
    message interpolates. *)
Inductive main_msg : Type :=
| KeyMissing
| Rule
| ProgramTitle
| ConfigHeader
| ConfigInitialUrl (url : str)
| ConfigMaxPages (max_pages : option Z)
| ConfigJsonPath
| ConfigMdPath
| ReportStart
| RuleAfterBlank
| AllDone
| DateCount (dates : nat)
| FinalCount (total : nat)
| JsonPathDone
| MdPathDone
| TaskFailed (e traceback : str)
| SavedOnFailure (total : nat)
| SaveOnFailureFailed (e : str).

Inductive main_event : Type :=
| Own (lv : level) (m : main_msg)
| Inner (ev : event).

Record main_world : Type := MainWorld {
  inner : world;
  journal : list main_event
}.

(** A logging call of the block. *)
Definition say (lv : level) (m : main_msg) (s : main_world) : main_world :=
  MainWorld (inner s) (journal s ++ [Own lv m]).

(** The world after a call that took it to [w']: the events the call
    added are entered in the journal. *)
Definition absorb (s : main_world) (w' : world) : main_world :=
  MainWorld w'
            (journal s
             ++ map Inner (drop (length (trace (inner s))) (trace w'))).

(** A call of a function of the program. *)
Definition call {A} (m : M A) (s : main_world) : outcome A * main_world :=
  let '(r, w') := m (inner s) in (r, absorb s w').

(** [not LLM_API_KEY or LLM_API_KEY.startswith("sk-xxxx")] *)
Definition key_missing (LLM_API_KEY : option str) : bool :=
  match LLM_API_KEY with
  | None => true
  | Some key => Str.eqb key [] || startswith key (lit "sk-xxxx")
  end.

(** Step 2: the banner and the configuration. *)
Definition announce (s : main_world) : main_world :=
  foldl (fun s m => say LvInfo m s) s
        [Rule; ProgramTitle; Rule; ConfigHeader;
         ConfigInitialUrl INITIAL_ARXIV_URL; ConfigMaxPages MAX_CRAWL_PAGES;
         ConfigJsonPath; ConfigMdPath; Rule].

(** Step 5: the summary of a task that completed. *)
Definition conclude (all_papers : archive) (s : main_world) : main_world :=
  let total_count := total_papers all_papers in
  foldl (fun s m => say LvInfo m s) s
        [RuleAfterBlank; AllDone; DateCount (size all_papers);
         FinalCount total_count; JsonPathDone; MdPathDone; Rule].

Section Block.

Variable E : environment.

(** [traceback.format_exc()] *)
Variable format_exc : exn -> str.

(** The body of the [try]: the crawl, the report and the summary. *)
Definition task (fuel : nat) (s : main_world)
  : option (outcome unit * main_world) :=
  match crawl_and_process_papers E fuel INITIAL_ARXIV_URL MAX_CRAWL_PAGES
                                 (inner s) with
  | None => None
  | Some (Raise e, w1) => Some (Raise e, absorb s w1)
  | Some (Ret all_papers, w1) =>
      let s1 := say LvInfo ReportStart (absorb s w1) in
      match call (json_to_markdown E) s1 with
      | (Raise e, s2) => Some (Raise e, s2)
      | (Ret _, s2) => Some (Ret tt, conclude all_papers s2)
      end
  end.

(** The [except Exception as e] clause: the archive in memory is saved,
    and the process exits with status 1. *)
Definition rescue (e : exn) (s : main_world) : outcome unit * main_world :=
  let s1 := say LvError (TaskFailed (exn_text e) (format_exc e)) s in
  if bool_decide (all_papers_global (inner s1) = ∅)
  then (Raise (SystemExit 1), s1)
  else
    match call write_json s1 with
    | (Ret _, s2) =>
        let total_count := total_papers (all_papers_global (inner s2)) in
        (Raise (SystemExit 1), say LvInfo (SavedOnFailure total_count) s2)
    | (Raise save_e, s2) =>
        if is_Exception save_e
        then (Raise (SystemExit 1),
              say LvError (SaveOnFailureFailed (exn_text save_e)) s2)
        else (Raise save_e, s2)
    end.

(** The block; [None] when [fuel] turns do not end the crawl. *)
Definition main (fuel : nat) (LLM_API_KEY : option str) (s : main_world)
  : option (outcome unit * main_world) :=
  if key_missing LLM_API_KEY
  then Some (Raise (SystemExit 1), say LvError KeyMissing s)
  else
    match task fuel (announce s) with
    | None => None
    | Some (Raise e, s1) =>
        if is_Exception e then Some (rescue e s1) else Some (Raise e, s1)
    | Some (Ret _, s1) => Some (Ret tt, s1)
    end.

End Block.

End Main.

(** ** Sample pages and collaborators *)

Module Sample.

Local Open Scope string_scope.

Definition el (name : string) (attrs : list (string * string))
           (contents : list node) : node :=
  Tag (lit name) (map (fun '(k, v) => (lit k, lit v)) attrs) contents.

Definition txt (s : string) : node := NavigableString (lit s).

(** Decimal digits: the ASCII ones only. *)
Definition ascii_digit (c : N) : option Z :=
  if ((48 <=? c) && (c <=? 57))%N then Some (Z.of_N (c - 48)) else None.

(** Lower case of the ASCII letters. *)
Definition ascii_lower (s : str) : str := map lower_ascii s.

(** A detail page with an abstract and an introduction of one paragraph. *)
Definition detail_page : node :=
  el "[document]" []
     [el "div" [("class", "ltx_abstract")]
         [el "p" [("class", "ltx_p")] [txt "An abstract."]];
      el "section" [("id", "S1")]
         [el "div" [("class", "ltx_para")]
             [el "p" [("class", "ltx_p")] [txt "An introduction."]]]].

(** A detail page whose abstract paragraph is empty. *)
Definition empty_abstract_page : node :=
  el "[document]" []
     [el "div" [("class", "ltx_abstract")]
         [el "p" [("class", "ltx_p")] []]].



(** An introduction whose list item has no paragraph container. *)
Definition bare_item_page : node :=
  el "[document]" []
     [el "section" [("id", "S1")]
         [el "ul" [("class", "ltx_itemize")]
             [el "li" [("class", "ltx_item")] [txt "x"]]]].

Definition dt_item (href : string) : node :=
  el "dt" []
     [el "a" [("title", "Abstract"); ("href", "/abs/1")] [txt "arXiv:1"];
      el "a" [("title", "View HTML"); ("href", href)] [txt "html"]].

Definition dd_item (title : string) : node :=
  el "dd" []
     [el "div" [("class", "meta")]
         [el "div" [("class", "list-title mathjax")]
             [el "span" [("class", "descriptor")] [txt "Title:"];
              txt title]]].

(** A listing of two papers, without a next-page link. *)
Definition listing_page : node :=
  el "[document]" []
     [el "dl" [("id", "articles")]
         [dt_item "/html/1"; dd_item "First";
          dt_item "/html/2"; dd_item "Second"]].

(** A listing with five link entries and four metadata entries. *)
Definition uneven_dl : node :=
  el "dl" [("id", "articles")]
     [dt_item "/html/1"; dd_item "One";
      dt_item "/html/2"; dd_item "Two";
      dt_item "/html/3"; dd_item "Three";
      dt_item "/html/4"; dd_item "Four";
      dt_item "/html/5"].

Definition uneven_page : node := el "[document]" [] [uneven_dl].

Definition LISTING_URL : str := Eval vm_compute in lit "https://arxiv.org/list/cs.RO/recent?show=100".
Definition UNEVEN_URL : str := Eval vm_compute in lit "https://arxiv.org/list/uneven".

(** The listing pages above, and the same detail page under every
    [https://arxiv.org/html/...] address. *)
Definition web (url : str) : response :=
  if Str.eqb url LISTING_URL then Page listing_page
  else if Str.eqb url UNEVEN_URL then Page uneven_page
  else if startswith url (lit "https://arxiv.org/html/") then Page detail_page
  else RequestError (lit "Invalid URL").


(** An LLM endpoint whose answer carries the marker of score 4. *)
Definition llm_up (prompt : str) : llm_reply :=
  Reply 200 (Body (lit "【相关性评分】分数：4分")).

Definition env (llm : str -> llm_reply) : environment :=
  {| requests_get := web;
     llm_post := llm;
     completion_content := inr;
     clock := fun n => N.of_nat n;
     strftime_date := fun _ => lit "2025-01-01";
     strftime_datetime := fun _ => lit "2025-01-01 00:00:00";
     digit_value := ascii_digit;
     lower := ascii_lower;
     set_order := elements;
     renderer_fault := fun _ => None |}.

Definition fresh : world :=
  {| all_papers_global := ∅; json_file := Absent; write_fault := None;
     ticks := O; trace := [] |}.

(** The world of a later run, which finds the archive [a] in the JSON
    file. *)
Definition reloaded (a : archive) : world :=
  {| all_papers_global := ∅; json_file := Holds a; write_fault := None;
     ticks := 7; trace := [] |}.

Definition TODAY : str := Eval vm_compute in lit "2025-01-01".
Definition NOW : str := Eval vm_compute in lit "2025-01-01 00:00:00".

(** The world of a first run after its setup: today's bucket is there,
    and empty. *)
Definition started : world :=
  {| all_papers_global := {[ TODAY := [] ]}; json_file := Absent;
     write_fault := None; ticks := 1; trace := [] |}.

End Sample.

(** ** More samples *)

Module Cases.



(** An archive of one hundred Entries of an earlier day. *)
Definition hundred : archive :=
  {[ lit "2024-12-31" := replicate 100 (∅ : paper) ]}.

(** An Entry as the crawl stores it, with a summary of score 4. *)
Definition summarized : llm_result :=
  LlmResult (lit "A summary.") 4 [].

Definition entry : paper :=
  list_to_map
    [(K_CRAWL_DATETIME, VStr Sample.NOW); (K_TITLE, VStr (lit "A | B"));
     (K_AUTHORS, VStr (lit "Ada, Bob")); (K_SUBJECTS, VStr (lit "Robotics"));
     (K_COMMENT, VStr []); (K_PDF_LINK, VStr []);
     (K_CODE, VStr []); (K_ABS_LINK, VStr (lit "https://arxiv.org/abs/1"));
     (K_HTML_LINK, VStr (lit "https://arxiv.org/html/1"));
     (K_ABSTRACT, VStr (lit "An abstract."));
     (K_INTRODUCTION, VStr (lit "An introduction."));
     (K_LLM_SUMMARY, VStr (summary summarized));
     (K_LLM_SCORE, VInt (score summarized));
     (K_LLM_ERROR, VStr (error summarized))].

End Cases.

(** ** Observations on a run *)

(** The events a computation added when it took [w] to [w']. *)
Definition events_since (w w' : world) : list event :=
  drop (length (trace w)) (trace w').



Definition is_item_start (ev : event) : bool :=
  match ev with Log _ (ItemStart _ _ _) => true | _ => false end.

Definition is_item_done (ev : event) : bool :=
  match ev with Log _ (ItemDone _ _ _) => true | _ => false end.

Definition is_llm_request (ev : event) : bool :=
  match ev with LlmRequest _ => true | _ => false end.

Definition is_http_get (ev : event) : bool :=
  match ev with HttpGet _ => true | _ => false end.


(** How many of the events satisfy [p]. *)
Definition count (p : event → bool) (evs : list event) : nat :=
  length (List.filter p evs).



(** The content of the summarizer's answer, when the call succeeds: the
    endpoint replied with status 200 and a body that holds a completion. *)
Definition llm_answer (E : environment) (prompt : str) : option str :=
  match llm_post E prompt with
  | Reply status (Body text) =>
      if bool_decide (status = 200%Z) then
        match completion_content E text with
        | inr content => Some content
        | inl _ => None
        end
      else None
  | _ => None
  end.



(** The paragraph of the abstract, when the page has the container and
    the container has a paragraph. *)
Definition abstract_paragraph (soup : node) : option node :=
  match find_class (lit "div") (lit "ltx_abstract") soup with
  | Some container => find_class (lit "p") (lit "ltx_p") container
  | None => None
  end.

(** The introduction section as [extract_introduction] reads it, the
    pagination and button elements removed. *)
Definition intro_section_of (soup : node) : option node :=
  match find (fun x => named (lit "section") x
                       && attr_is (lit "id") (lit "S1") x) soup with
  | Some sec => Some (decompose_all intro_noise sec)
  | None => None
  end.

(** The paragraph of a list item. *)
Definition item_paragraph (li : node) : option node :=
  match find_class (lit "div") (lit "ltx_para") li with
  | Some para => find_class (lit "p") (lit "ltx_p") para
  | None => None
  end.

(** The items of a list as lines numbered from [idx] on; an item without a
    paragraph takes a number and gives no line. *)
Fixpoint numbered_from (idx : N) (lis : list node) : list str :=
  match lis with
  | [] => []
  | li :: rest =>
      match item_paragraph li with
      | Some p => [of_N idx ++ lit ". " ++ clean_text p]
      | None => []
      end ++ numbered_from (idx + 1) rest
  end.

(** The numbered lines of every itemize list of a section, list after
    list. *)
Definition list_lines (sec : node) : list str :=
  flat_map (fun ul => numbered_from 1
                        (find_all_class (lit "li") (lit "ltx_item") ul))
           (find_all_class (lit "ul") (lit "ltx_itemize") sec).

(** Every item of every itemize list of the section has a paragraph
    container. *)
Definition items_have_containers (sec : node) : bool :=
  forallb
    (fun ul =>
       forallb (fun li => bool_decide
                            (is_Some (find_class (lit "div") (lit "ltx_para")
                                                 li)))
               (find_all_class (lit "li") (lit "ltx_item") ul))
    (find_all_class (lit "ul") (lit "ltx_itemize") sec).



(** The world [w] with the archive [a] and the events [evs] added. *)
Definition after (w : world) (a : archive) (evs : list event) : world :=
  World a (json_file w) (write_fault w) (ticks w) (trace w ++ evs).

(** The world [w] with the events [evs] added. *)
Definition extend (w : world) (evs : list event) : world :=
  after w (all_papers_global w) evs.

(** The events of the helpers of the item loop, the failure record of the
    summarizer apart: the requests and the warnings of the extractors. *)
Definition helper_event (ev : event) : bool :=
  match ev with
  | HttpGet _ => true
  | LlmRequest _ => true
  | Log _ (RequestFailed _ _) => true
  | Log _ NoLinksInDt => true
  | Log _ NoPdfLink => true
  | Log _ AbstractMissing => true
  | Log _ IntroMissing => true
  | _ => false
  end.

(** What the body of the item loop does with one item, from the archive
    [a]: the outcome, the archive it leaves and the events after the
    [ItemStart] record. *)
Inductive paper_fate (E : environment) (current_date : str) (page : Z)
          (idx : nat) (dt dd : node) (a : archive)
  : outcome unit → archive → list event → Prop :=
| fate_no_link :
    titled_link dt (lit "View HTML") = None →
    paper_fate E current_date page idx dt dd a
               (Ret tt) a [Log LvWarning NoHtmlLink]
| fate_duplicate link :
    titled_link dt (lit "View HTML") = Some link →
    is_duplicate a link = true →
    paper_fate E current_date page idx dt dd a
               (Ret tt) a [Log LvInfo (Duplicate link)]
| fate_fetch_failed link msg pre :
    titled_link dt (lit "View HTML") = Some link →
    is_duplicate a link = false →
    requests_get E link = RequestError msg →
    forallb helper_event pre = true →
    paper_fate E current_date page idx dt dd a
               (Ret tt) a (pre ++ [Log LvWarning (DetailFailed link)])
| fate_no_meta link soup pre :
    titled_link dt (lit "View HTML") = Some link →
    is_duplicate a link = false →
    requests_get E link = Page soup →
    find_class (lit "div") (lit "meta") dd = None →
    forallb helper_event pre = true →
    paper_fate E current_date page idx dt dd a
               (Ret tt) a (pre ++ [Log LvWarning (NoMeta link)])
| fate_extraction_raised link soup meta e msg pre :
    titled_link dt (lit "View HTML") = Some link →
    is_duplicate a link = false →
    requests_get E link = Page soup →
    find_class (lit "div") (lit "meta") dd = Some meta →
    (∀ w, (extract_introduction soup w).1 = Raise e) →
    e = Exn AttributeError msg →
    forallb helper_event pre = true →
    paper_fate E current_date page idx dt dd a (Raise e) a pre
| fate_appended link soup meta pre title res failure papers (entry : paper) :
    titled_link dt (lit "View HTML") = Some link →
    is_duplicate a link = false →
    requests_get E link = Page soup →
    find_class (lit "div") (lit "meta") dd = Some meta →
    forallb helper_event pre = true →
    match failure with
    | Some msg => res = LlmResult SUMMARY_FAILED 0 msg
    | None => error res = []
    end →
    a !! current_date = Some papers →
    entry !! K_HTML_LINK = Some (VStr link) →
    entry !! K_LLM_SUMMARY = Some (VStr (summary res)) →
    entry !! K_LLM_SCORE = Some (VInt (score res)) →
    entry !! K_LLM_ERROR = Some (VStr (error res)) →
    paper_fate E current_date page idx dt dd a
               (Ret tt) (<[current_date := papers ++ [entry]]> a)
               (pre
                ++ match failure with
                   | Some msg => [Log LvError (LlmFailed msg)]
                   | None => []
                   end
                ++ [Log LvInfo (ItemDone page idx title)])
| fate_no_bucket link soup meta pre failure :
    titled_link dt (lit "View HTML") = Some link →
    is_duplicate a link = false →
    requests_get E link = Page soup →
    find_class (lit "div") (lit "meta") dd = Some meta →
    a !! current_date = None →
    forallb helper_event pre = true →
    paper_fate E current_date page idx dt dd a
               (Raise (Exn KeyError current_date)) a
               (pre
                ++ match failure with
                   | Some msg => [Log LvError (LlmFailed msg)]
                   | None => []
                   end).

(** The identifier of an Entry is the string [u]. *)
Definition has_id (p : paper) (u : str) : Prop :=
  p !! K_HTML_LINK = Some (VStr u).


(** [grows date a news a']: the archive [a'] is [a] with the Entries
    [news] appended, one after the other, to the bucket of [date], each
    with an identifier that no Entry had when it was appended. *)
Inductive grows (date : str) : archive → list paper → archive → Prop :=
| grows_nil a : grows date a [] a
| grows_cons a papers p u news a' :
    a !! date = Some papers →
    has_id p u →
    is_duplicate a u = false →
    grows date (<[date := papers ++ [p]]> a) news a' →
    grows date a (p :: news) a'.

(** An item the loop body leaves alone: it has no detail link, or an Entry
    has its identifier, or its detail page cannot be fetched, or its
    metadata block is missing. *)
Definition settled (E : environment) (a : archive) (item : node * node)
  : Prop :=
  match titled_link item.1 (lit "View HTML") with
  | None => True
  | Some link =>
      is_duplicate a link = true
      ∨ (∃ msg, requests_get E link = RequestError msg)
      ∨ find_class (lit "div") (lit "meta") item.2 = None
  end.

(** The items of a listing, as the item loop receives them. *)
Definition listing_items (articles_dl : node) : list (node * node) :=
  let dt_list := find_all (named (lit "dt")) articles_dl in
  let dd_list := find_all (named (lit "dd")) articles_dl in
  let min_len := Nat.min (length dt_list) (length dd_list) in
  if bool_decide (length dt_list ≠ length dd_list)
  then zip (take min_len dt_list) (take min_len dd_list)
  else zip dt_list dd_list.

(** The listing page at [url] and its list of articles, when the page can
    be fetched and has the list. *)
Definition listing_of (E : environment) (url : str) : option (node * node) :=
  match requests_get E url with
  | Page list_soup =>
      match find (fun x => named (lit "dl") x
                           && attr_is (lit "id") (lit "articles") x)
                 list_soup with
      | Some articles_dl => Some (list_soup, articles_dl)
      | None => None
      end
  | RequestError _ => None
  end.

(** Where a turn on the page at [url] leads, when no page bound stops it. *)
Definition page_control (E : environment) (url : str) : control :=
  match listing_of E url with
  | None => Break
  | Some (list_soup, _) =>
      match find (is_next_link E) list_soup with
      | None => Break
      | Some next_page_tag =>
          match attr (lit "href") next_page_tag with
          | None => Break
          | Some href => Continue (absolute (strip href))
          end
      end
  end.

(** Every item of the listing at [url] is settled. *)
Definition page_settled (E : environment) (a : archive) (url : str) : Prop :=
  match listing_of E url with
  | Some (_, articles_dl) => Forall (settled E a) (listing_items articles_dl)
  | None => True
  end.


(** The archive a run starts from: what the JSON file holds, or the empty
    archive. *)
Definition loaded_archive (w : world) : archive :=
  match json_file w with
  | Holds a => a
  | _ => ∅
  end.

(** [moves date w w' news evs]: from [w] to [w'] the Entries [news] were
    appended to the bucket of [date], the events [evs] were added, of
    which one [ItemDone] record for every Entry, and the write fault of
    the JSON file is as it was. *)
Definition moves (date : str) (w w' : world) (news : list paper)
           (evs : list event) : Prop :=
  grows date (all_papers_global w) news (all_papers_global w')
  ∧ trace w' = trace w ++ evs
  ∧ count is_item_done evs = length news
  ∧ write_fault w' = write_fault w.

(** Today's date key, as a run that starts in [w] reads it. *)
Definition today_of (E : environment) (w : world) : str :=
  strftime_date E (clock E (ticks w)).

(** The archive [a] with the bucket of [date], created empty when it is
    missing. *)
Definition with_bucket (date : str) (a : archive) : archive :=
  if bool_decide (a !! date = None) then <[date := []]> a else a.

(** [s] neither starts nor ends with a white space character. *)
Definition trimmed (s : str) : Prop :=
  (∀ c, head s = Some c → isspace c = false)
  ∧ (∀ c, last s = Some c → isspace c = false).


(** The record that the load of the history logs, by what the JSON file
    is. *)
Definition history_record (w : world) : event :=
  match json_file w with
  | Holds a => Log LvInfo (HistoryLoaded (size a))
  | Absent => Log LvInfo NoHistory
  | Unreadable msg => Log LvWarning (HistoryLoadFailed msg)
  end.

(** The page a run starts from: one more than the number of full pages of
    the Entries it loaded. *)
Definition start_page (w : world) : Z :=
  (Z.of_nat (total_papers (loaded_archive w) / PAPERS_PER_PAGE) + 1)%Z.

Definition is_page_start (ev : event) : bool :=
  match ev with Log _ (PageStart _ _) => true | _ => false end.

(** The warnings of the field extractors. *)
Definition extractor_record (ev : event) : bool :=
  match ev with
  | Log LvWarning NoLinksInDt => true
  | Log LvWarning NoPdfLink => true
  | Log LvWarning AbstractMissing => true
  | Log LvWarning IntroMissing => true
  | _ => false
  end.

(** The fourteen keys of an Entry, in the order the loop body writes
    them. *)
Definition ENTRY_KEYS : list str :=
  [K_CRAWL_DATETIME; K_TITLE; K_AUTHORS; K_SUBJECTS; K_COMMENT; K_PDF_LINK;
   K_CODE; K_ABS_LINK; K_HTML_LINK; K_ABSTRACT; K_INTRODUCTION;
   K_LLM_SUMMARY; K_LLM_SCORE; K_LLM_ERROR].

(** The shape of an Entry: it has the fourteen keys and no other; the
    score is an integer from 0 to 5 and every other field is a string; and
    an Entry with an error text has the fixed summary and score 0. *)
Definition entry_ok (p : paper) : Prop :=
  dom p = (list_to_set ENTRY_KEYS : gset str)
  ∧ (∀ k, k ∈ ENTRY_KEYS → k ≠ K_LLM_SCORE → ∃ s, p !! k = Some (VStr s))
  ∧ ∃ n s e,
      p !! K_LLM_SCORE = Some (VInt n) ∧ (0 ≤ n ≤ 5)%Z
      ∧ p !! K_LLM_SUMMARY = Some (VStr s)
      ∧ p !! K_LLM_ERROR = Some (VStr e)
      ∧ (e ≠ [] → s = SUMMARY_FAILED ∧ n = 0%Z).

(** [harvest date w w' news evs]: from [w] to [w'] the events [evs] were
    added and the Entries [news] were appended to the bucket of [date];
    every one of them has the shape of an Entry; the LLM was asked once
    for each of them, and one record of completion was logged for each;
    and the pages requested are the listings that were started, one
    detail page for every Entry, and at most one for every other item. *)
Definition harvest (date : str) (w w' : world) (news : list paper)
           (evs : list event) : Prop :=
  trace w' = trace w ++ evs
  ∧ (∀ papers, all_papers_global w !! date = Some papers →
               all_papers_global w' !! date = Some (papers ++ news))
  ∧ Forall entry_ok news
  ∧ count is_llm_request evs = length news
  ∧ count is_item_done evs = length news
  ∧ (length news + count is_page_start evs ≤ count is_http_get evs)%nat
  ∧ (count is_http_get evs
     ≤ count is_page_start evs + count is_item_start evs)%nat.

(** ** Observations on the report *)

(** A computation that may raise returned. *)
Definition returns {A} (r : outcome A) : bool :=
  match r with Ret _ => true | Raise _ => false end.

(** The field [key] is missing or a string. *)
Definition str_or_missing (p : paper) (key : str) : bool :=
  match p !! key with
  | None | Some (VStr _) => true
  | Some _ => false
  end.

(** The field [key] is missing, a string, or a value that counts as
    false. *)
Definition str_or_falsy (p : paper) (key : str) : bool :=
  match p !! key with
  | None | Some (VStr _) => true
  | Some v => negb (Report.truthy v)
  end.

(** The field [key] is missing or a number. *)
Definition number_or_missing (p : paper) (key : str) : bool :=
  match p !! key with
  | None | Some (VInt _) | Some (VBool _) => true
  | Some _ => false
  end.

(** The fields of the paper have the types its row needs. *)
Definition renderable (p : paper) : bool :=
  str_or_missing p K_TITLE && str_or_falsy p K_AUTHORS
  && str_or_missing p K_COMMENT && str_or_falsy p K_CODE
  && number_or_missing p K_LLM_SCORE && str_or_missing p K_LLM_SUMMARY.



(** A link as the code field holds it: not empty, without white space
    around it, and without a comma. *)
Definition plain_link (u : str) : Prop :=
  u ≠ [] ∧ trimmed u ∧ (COMMA ∉ u).

(** ** Observations on a comment *)

(** The match of one alternative of [URL_PATTERN] at the start of [s]:
    the head [p] and then the longest run of characters that are not
    white space, which must not be empty. *)
Definition url_run (s p : str) : option nat :=
  let rest := drop (length p) s in
  let n := length (take_while (fun c => negb (isspace c)) rest) in
  if startswith s p && negb (Nat.eqb n 0)
  then Some (length p + n)%nat else None.

(** The heads of the alternatives of [URL_PATTERN]. *)
Definition URL_HEADS : list str :=
  [lit "https://"; lit "http://"; lit "www."].

(** Some place of the text matches [URL_PATTERN]. *)
Fixpoint has_url (s : str) : bool :=
  match s with
  | [] => false
  | _ :: r =>
      match url_match s with
      | Some _ => true
      | None => has_url r
      end
  end.

(** * Verification *)

(** ** Worlds and traces *)

Lemma events_since_app w w' evs :
  trace w' = trace w ++ evs → events_since w w' = evs.
Proof. unfold events_since. intros ->. by rewrite drop_app_length. Qed.

(** ** The interrupt handler *)

Section Interrupt.

Variable E : environment.


End Interrupt.


(** ** Loading the history *)

Section Load.

Variable E : environment.


End Load.

(** ** The score of a summary *)

Lemma startswith_spec (s p : str) :
  startswith s p = true ↔ ∃ r, s = p ++ r.
Proof.
  revert s. induction p as [|a p IH]; intros s; simpl.
  - destruct s; (split; [intros _; by eexists | done]).
  - destruct s as [|b s]; simpl.
    + split; [done | intros [r Hr]; discriminate].
    + rewrite andb_true_iff, N.eqb_eq, IH. split.
      * intros [-> [r ->]]. by exists r.
      * intros [r Hr]. injection Hr as -> ->. eauto.
Qed.

Lemma startswith_nil (s : str) : startswith s [] = true.
Proof. by destruct s. Qed.

Lemma startswith_app (p r : str) : startswith (p ++ r) p = true.
Proof. apply startswith_spec. eauto. Qed.

Section Score.

Variable E : environment.

(** [分] is not a decimal digit. *)
Hypothesis suffix_not_digit : digit_value E 20998 = None.










Lemma score_of_bounds text : (0 ≤ score_of E text ≤ 5)%Z.
Proof.
  unfold score_of. destruct (search_score E text); [|lia].
  destruct (_ && _)%Z eqn:Hb; [|lia].
  apply andb_true_iff in Hb as [?%Z.leb_le ?%Z.leb_le]. lia.
Qed.



End Score.


(** ** Field extraction *)

Lemma intro_list_items_ok (idx : N) (lis : list node) :
  forallb (fun li => bool_decide
                       (is_Some (find_class (lit "div") (lit "ltx_para") li)))
          lis = true →
  intro_list_items idx lis = Ret (numbered_from idx lis).
Proof.
  revert idx. induction lis as [|li rest IH]; intros idx; simpl; [done|].
  intros [Hli Hrest]%andb_true_iff.
  apply bool_decide_eq_true in Hli as [para Hpara].
  unfold item_paragraph. rewrite Hpara, (IH _ Hrest).
  by destruct (find_class _ _ para).
Qed.

Lemma intro_lists_ok (uls : list node) :
  forallb
    (fun ul =>
       forallb (fun li => bool_decide
                            (is_Some (find_class (lit "div") (lit "ltx_para")
                                                 li)))
               (find_all_class (lit "li") (lit "ltx_item") ul)) uls = true →
  intro_lists uls =
  Ret (flat_map (fun ul => numbered_from 1
                             (find_all_class (lit "li") (lit "ltx_item") ul))
                uls).
Proof.
  induction uls as [|ul rest IH]; simpl; [done|].
  intros [Hul Hrest]%andb_true_iff.
  by rewrite (intro_list_items_ok _ _ Hul), (IH Hrest).
Qed.



(** C7, as amended: abstract extraction always returns, and introduction
    extraction returns on every page whose list items have their paragraph
    container; the result is the fixed non-empty placeholder whenever the
    abstract container or its paragraph is missing, whenever the
    introduction section is missing, and whenever the section has no text
    block; otherwise it is the text found, which may be empty. *)
Theorem extraction_total_with_placeholder (soup : node) (w : world) :
  match intro_section_of soup with
  | Some sec => items_have_containers sec = true
  | None => True
  end →
  ∃ a i w1 w2,
    extract_abstract soup w = (Ret a, w1)
    ∧ extract_introduction soup w = (Ret i, w2)
    ∧ a = match abstract_paragraph soup with
          | Some p => clean_text p
          | None => NO_ABSTRACT
          end
    ∧ i = match intro_section_of soup with
          | Some sec =>
              match intro_paragraphs sec ++ list_lines sec with
              | [] => NO_INTRODUCTION
              | blocks => join (NEWLINE ++ NEWLINE) blocks
              end
          | None => NO_INTRODUCTION
          end
    ∧ NO_ABSTRACT ≠ [] ∧ NO_INTRODUCTION ≠ [].
Proof.
  intros Hitems.
  unfold extract_abstract, extract_introduction, abstract_paragraph,
    intro_section_of in *.
  destruct (find_class (lit "div") (lit "ltx_abstract") soup) as [c|];
    destruct (find _ soup) as [sec|];
    try rewrite (intro_lists_ok _ Hitems);
    try destruct (find_class (lit "p") (lit "ltx_p") c);
    eexists _, _, _, _; repeat split; try done;
    unfold list_lines; by destruct (intro_paragraphs _ ++ _).
Qed.

(** C7 on the sample detail page. *)
Lemma extraction_total_with_placeholder_witness :
  ∃ a i w1 w2,
    extract_abstract Sample.detail_page Sample.fresh = (Ret a, w1)
    ∧ extract_introduction Sample.detail_page Sample.fresh = (Ret i, w2)
    ∧ a = lit "An abstract." ∧ i = lit "An introduction.".
Proof.
  destruct (extraction_total_with_placeholder Sample.detail_page Sample.fresh)
    as (a & i & w1 & w2 & Ha & Hi & -> & -> & _).
  - vm_compute. reflexivity.
  - eexists _, _, w1, w2. split; [exact Ha|]. split; [exact Hi|].
    split; vm_compute; reflexivity.
Defined.

(** C7, as stated, fails: on a page whose abstract paragraph holds no
    text, abstract extraction returns the empty string. *)
Lemma extract_abstract_empty_paragraph :
  (extract_abstract Sample.empty_abstract_page Sample.fresh).1 = Ret [].
Proof. vm_compute. reflexivity. Qed.

(** A list item without a paragraph container makes introduction
    extraction raise [AttributeError]. *)
Lemma extract_introduction_bare_item_raises :
  (extract_introduction Sample.bare_item_page Sample.fresh).1 =
  Raise (Exn AttributeError (lit "'NoneType' object has no attribute 'find'")).
Proof. vm_compute. reflexivity. Qed.




(** ** One item of a listing *)

Lemma after_after w a evs a' evs' :
  after (after w a evs) a' evs' = after w a' (evs ++ evs').
Proof. unfold after. simpl. by rewrite app_assoc. Qed.

Lemma extend_extend w evs evs' :
  extend (extend w evs) evs' = extend w (evs ++ evs').
Proof. apply after_after. Qed.

Lemma extend_nil w : extend w [] = w.
Proof. destruct w. unfold extend, after. simpl. by rewrite app_nil_r. Qed.


(** How a bind runs once its first part is known. *)
Lemma bind_run {A B} (m : M A) (f : A → M B) w r w' :
  m w = (r, w') →
  (m ≫= f) w = match r with
               | Ret x => f x w'
               | Raise e => (Raise e, w')
               end.
Proof. unfold mbind, M_bind. by intros ->. Qed.

Lemma logging_run lv m w : logging lv m w = (Ret tt, extend w [Log lv m]).
Proof. reflexivity. Qed.

Lemma emit_run ev w : emit ev w = (Ret tt, extend w [ev]).
Proof. reflexivity. Qed.

Lemma mret_run {A} (x : A) w : (mret x : M A) w = (Ret x, w).
Proof. reflexivity. Qed.

Lemma extract_pdf_link_run dt w :
  ∃ link evs, extract_pdf_link dt w = (Ret link, extend w evs)
              ∧ forallb helper_event evs = true.
Proof.
  unfold extract_pdf_link.
  destruct (find_all _ dt) as [|a_tag rest].
  - exists [], [Log LvWarning NoLinksInDt]. done.
  - destruct (first_pdf_link _) as [link|].
    + exists link, []. by rewrite extend_nil.
    + exists [], [Log LvWarning NoPdfLink]. done.
Qed.

Lemma extract_abstract_run soup w :
  ∃ text evs, extract_abstract soup w = (Ret text, extend w evs)
              ∧ forallb helper_event evs = true.
Proof.
  unfold extract_abstract.
  destruct (find_class _ _ soup) as [c|].
  - destruct (find_class _ _ c) as [p|];
      eexists _, []; by rewrite extend_nil.
  - by exists NO_ABSTRACT, [Log LvWarning AbstractMissing].
Qed.

Lemma intro_list_items_raise idx lis e :
  intro_list_items idx lis = Raise e → ∃ msg, e = Exn AttributeError msg.
Proof.
  revert idx. induction lis as [|li rest IH]; intros idx; simpl; [done|].
  destruct (find_class _ _ li); [|intros [= <-]; eauto].
  destruct (intro_list_items _ rest) eqn:Hrest; [done|].
  intros [= <-]. eauto.
Qed.

Lemma intro_lists_raise uls e :
  intro_lists uls = Raise e → ∃ msg, e = Exn AttributeError msg.
Proof.
  induction uls as [|ul rest IH]; simpl; [done|].
  destruct (intro_list_items _ _) eqn:Hitems.
  - destruct (intro_lists rest); [done|]. intros [= <-]. eauto.
  - intros [= <-]. by eapply intro_list_items_raise.
Qed.

Lemma extract_introduction_run soup w :
  ∃ r evs, extract_introduction soup w = (r, extend w evs)
           ∧ forallb helper_event evs = true
           ∧ (∀ w0, (extract_introduction soup w0).1 = r)
           ∧ ∀ e, r = Raise e → ∃ msg, e = Exn AttributeError msg.
Proof.
  unfold extract_introduction.
  destruct (find _ soup) as [sec|].
  - destruct (intro_lists _) as [items|e] eqn:Hlists;
      eexists _, []; rewrite extend_nil; repeat split; try done.
    intros e' [= <-]. by eapply intro_lists_raise.
  - by exists (Ret NO_INTRODUCTION), [Log LvWarning IntroMissing].
Qed.

Section Item.

Variable E : environment.

Lemma get_arxiv_soup_run url w :
  get_arxiv_soup E url w =
  match requests_get E url with
  | Page soup => (Ret (Some soup), extend w [HttpGet url])
  | RequestError msg =>
      (Ret None, extend w [HttpGet url; Log LvError (RequestFailed url msg)])
  end.
Proof.
  unfold get_arxiv_soup, try_except, mbind, M_bind. simpl.
  destruct (requests_get E url); simpl; [|done].
  unfold extend, after. simpl. by rewrite <- app_assoc.
Qed.

Lemma call_llm_for_summary_run title abstract introduction w :
  ∃ res failure,
    call_llm_for_summary E title abstract introduction w
    = (Ret res,
       extend w (LlmRequest (user_prompt_of title abstract introduction)
                 :: match failure with
                    | Some msg => [Log LvError (LlmFailed msg)]
                    | None => []
                    end))
    ∧ match failure with
      | Some msg =>
          res = LlmResult SUMMARY_FAILED 0 msg
          ∧ llm_answer E (user_prompt_of title abstract introduction) = None
      | None =>
          ∃ content,
            llm_answer E (user_prompt_of title abstract introduction)
            = Some content
            ∧ res = LlmResult (strip content) (score_of E (strip content)) []
      end.
Proof.
  unfold call_llm_for_summary, llm_answer, try_except, mbind, M_bind,
    raise, logging, emit, mret, M_ret, extend, after; simpl.
  destruct (llm_post E _) as [msg | status [msg | text]]; simpl.
  - eexists _, (Some msg). simpl. by rewrite <- app_assoc.
  - eexists _, (Some msg). simpl. by rewrite <- app_assoc.
  - destruct (bool_decide (status = 200%Z)) eqn:Hst.
    + replace (bool_decide (status ≠ 200%Z)) with false
        by (apply bool_decide_eq_true in Hst; symmetry;
            by apply bool_decide_eq_false; intros ?).
      destruct (completion_content E text) as [msg | content]; simpl.
      * eexists _, (Some msg). simpl. by rewrite <- app_assoc.
      * eexists _, None. simpl. split; [done|]. by exists content.
    + replace (bool_decide (status ≠ 200%Z)) with true
        by (apply bool_decide_eq_false in Hst; symmetry;
            by apply bool_decide_eq_true).
      simpl. eexists _, (Some _). simpl. by rewrite <- app_assoc.
Qed.

Lemma get_archive_run w : get_archive w = (Ret (all_papers_global w), w).
Proof. reflexivity. Qed.

Lemma append_paper_run date entry w evs :
  append_paper date entry (extend w evs) =
  match all_papers_global w !! date with
  | Some papers =>
      (Ret tt, after w (<[date := papers ++ [entry]]> (all_papers_global w))
                     evs)
  | None => (Raise (Exn KeyError date), extend w evs)
  end.
Proof.
  unfold append_paper. erewrite bind_run by apply get_archive_run.
  simpl. by destruct (all_papers_global w !! date).
Qed.

(** What the loop body does with one item. *)
Lemma process_paper_run date dtm page total idx dt dd w :
  ∃ r a' evs,
    process_paper E date dtm page total idx dt dd w
    = (r, after w a' (Log LvInfo (ItemStart page idx total) :: evs))
    ∧ paper_fate E date page idx dt dd (all_papers_global w) r a' evs.
Proof.
  unfold process_paper.
  erewrite bind_run by apply logging_run.
  destruct (titled_link dt (lit "View HTML")) as [link|] eqn:Hlink.
  2:{ exists (Ret tt), (all_papers_global w), [Log LvWarning NoHtmlLink].
      rewrite logging_run, extend_extend.
      split; [reflexivity|]. by constructor. }
  erewrite bind_run by apply get_archive_run. simpl.
  destruct (is_duplicate (all_papers_global w) link) eqn:Hdup.
  { exists (Ret tt), (all_papers_global w), [Log LvInfo (Duplicate link)].
    rewrite logging_run, extend_extend.
    split; [reflexivity|]. by apply fate_duplicate. }
  destruct (extract_pdf_link_run dt
              (extend w [Log LvInfo (ItemStart page idx total)]))
    as (pdf_link & pdf_evs & Hpdf & Hpdf_evs).
  erewrite bind_run by exact Hpdf. rewrite extend_extend.
  match goal with
  | |- context [(_ ≫= _) ?w0] =>
      pose proof (get_arxiv_soup_run link w0) as Hfetch
  end.
  destruct (requests_get E link) as [msg|soup] eqn:Hget;
    erewrite bind_run by exact Hfetch; clear Hfetch;
    rewrite extend_extend.
  { exists (Ret tt), (all_papers_global w),
      ((pdf_evs ++ [HttpGet link; Log LvError (RequestFailed link msg)])
       ++ [Log LvWarning (DetailFailed link)]).
    rewrite logging_run, extend_extend.
    split; [by rewrite <- !app_assoc|].
    eapply fate_fetch_failed; eauto.
    by rewrite forallb_app, Hpdf_evs. }
  destruct (find_class (lit "div") (lit "meta") dd) as [meta|] eqn:Hmeta.
  2:{ exists (Ret tt), (all_papers_global w),
        ((pdf_evs ++ [HttpGet link]) ++ [Log LvWarning (NoMeta link)]).
      rewrite logging_run, extend_extend.
      split; [by rewrite <- !app_assoc|].
      eapply fate_no_meta; eauto.
      by rewrite forallb_app, Hpdf_evs. }
  destruct (process_comment_and_code E _) as [comment code].
  match goal with
  | |- context [(_ ≫= _) ?w0] =>
      destruct (extract_abstract_run soup w0)
        as (abstract & abs_evs & Habs & Habs_evs)
  end.
  erewrite bind_run by exact Habs. rewrite extend_extend.
  match goal with
  | |- context [(_ ≫= _) ?w0] =>
      destruct (extract_introduction_run soup w0)
        as (ri & intro_evs & Hintro & Hintro_evs & Hintro_all & Hintro_cls)
  end.
  erewrite bind_run by exact Hintro. rewrite extend_extend.
  destruct ri as [introduction|e].
  2:{ exists (Raise e), (all_papers_global w),
        (((pdf_evs ++ [HttpGet link]) ++ abs_evs) ++ intro_evs).
      split; [by rewrite <- !app_assoc|].
      destruct (Hintro_cls e eq_refl) as [msg ->].
      eapply fate_extraction_raised; eauto.
      by rewrite !forallb_app, Hpdf_evs, Habs_evs, Hintro_evs. }
  match goal with
  | |- context [call_llm_for_summary E ?t ?a ?i ≫= _] =>
      match goal with
      | |- context [(_ ≫= _) ?w0] =>
          destruct (call_llm_for_summary_run t a i w0)
            as (res & failure & Hllm & Hres);
          set (prompt := user_prompt_of t a i) in *;
          set (title := t) in *
      end
  end.
  erewrite bind_run by exact Hllm. rewrite extend_extend.
  set (pre := (((pdf_evs ++ [HttpGet link]) ++ abs_evs) ++ intro_evs)
              ++ [LlmRequest prompt]).
  set (fail_evs := match failure with
                   | Some msg => [Log LvError (LlmFailed msg)]
                   | None => []
                   end).
  assert (Hpre : forallb helper_event pre = true).
  { unfold pre.
    by rewrite !forallb_app, Hpdf_evs, Habs_evs, Hintro_evs. }
  match goal with
  | |- context [append_paper date ?en] =>
      set (entry := en);
      match goal with
      | |- context [(_ ≫= _) (extend w ?evs0)] =>
          pose proof (append_paper_run date entry w evs0) as Happend
      end
  end.
  destruct (all_papers_global w !! date) as [papers|] eqn:Hbucket;
    erewrite bind_run by exact Happend; clear Happend.
  - exists (Ret tt),
      (<[date := papers ++ [entry]]> (all_papers_global w)),
      (pre ++ fail_evs ++ [Log LvInfo (ItemDone page idx (take 30 title))]).
    unfold logging. rewrite emit_run. unfold extend.
    rewrite after_after. simpl.
    split.
    + unfold pre, fail_evs. by rewrite <- !app_assoc.
    + eapply (fate_appended E date page idx dt dd _ link soup meta pre
                            (take 30 title) res failure papers entry);
        eauto.
      destruct failure as [msg|]; [by destruct Hres|].
      by destruct Hres as (content & _ & ->).
  - exists (Raise (Exn KeyError date)), (all_papers_global w),
      (pre ++ fail_evs).
    split.
    + unfold pre, fail_evs, extend. by rewrite <- !app_assoc.
    + by eapply fate_no_bucket.
Qed.

End Item.

(** ** Archives *)

Lemma is_duplicate_spec (a : archive) (u : str) :
  is_duplicate a u = true
  ↔ ∃ d papers p, a !! d = Some papers ∧ p ∈ papers ∧ has_id p u.
Proof.
  unfold is_duplicate, has_id. rewrite existsb_exists. split.
  - intros ([d papers] & Hin & Hex).
    apply list_elem_of_In, elem_of_map_to_list in Hin.
    apply existsb_exists in Hex as (p & Hp & Hid).
    apply bool_decide_eq_true in Hid.
    exists d, papers, p. by rewrite list_elem_of_In.
  - intros (d & papers & p & Hd & Hp & Hid).
    exists (d, papers). split.
    + by apply list_elem_of_In, elem_of_map_to_list.
    + apply existsb_exists. exists p.
      split; [by apply list_elem_of_In | by apply bool_decide_eq_true].
Qed.


(** Where an Entry of an archive with one more Entry comes from. *)
Lemma lookup_appended (a : archive) date papers p d l (i : nat) q :
  a !! date = Some papers →
  <[date := papers ++ [p]]> a !! d = Some l → l !! i = Some q →
  (∃ l0, a !! d = Some l0 ∧ l0 !! i = Some q)
  ∨ (d = date ∧ i = length papers ∧ q = p).
Proof.
  intros Hdate Hd Hi. destruct (decide (d = date)) as [->|Hne].
  - rewrite lookup_insert_eq in Hd. injection Hd as <-.
    destruct (decide (i < length papers)%nat) as [Hlt|Hge].
    + left. exists papers. split; [done|]. by rewrite lookup_app_l in Hi.
    + right. rewrite lookup_app_r in Hi by lia.
      destruct (i - length papers)%nat as [|k] eqn:Hk; [|done].
      injection Hi as <-. split; [done|]. split; [lia|done].
  - rewrite lookup_insert_ne in Hd by done. left. eauto.
Qed.

Lemma is_duplicate_appended (a : archive) date papers p u v :
  a !! date = Some papers → has_id p u →
  is_duplicate (<[date := papers ++ [p]]> a) v = true
  ↔ is_duplicate a v = true ∨ v = u.
Proof.
  intros Hdate Hid. rewrite !is_duplicate_spec. split.
  - intros (d & l & q & Hd & Hq & Hv).
    apply list_elem_of_lookup in Hq as [i Hi].
    destruct (lookup_appended _ _ _ _ _ _ _ _ Hdate Hd Hi)
      as [(l0 & Hl0 & Hi0) | (-> & -> & ->)].
    + left. exists d, l0, q. split; [done|]. split; [|done].
      apply list_elem_of_lookup. eauto.
    + right. unfold has_id in *. congruence.
  - intros [(d & l & q & Hd & Hq & Hv) | ->].
    + destruct (decide (d = date)) as [->|Hne].
      * exists date, (papers ++ [p]), q. rewrite lookup_insert_eq.
        split; [done|]. split; [|done].
        apply elem_of_app. left. congruence.
      * exists d, l, q. by rewrite lookup_insert_ne.
    + exists date, (papers ++ [p]), p. rewrite lookup_insert_eq.
      split; [done|]. split; [|done]. apply elem_of_app. right.
      apply list_elem_of_here.
Qed.


Lemma total_papers_sum (a : archive) :
  total_papers a = sum_list_with (fun kv => length kv.2) (map_to_list a).
Proof.
  unfold total_papers. induction (map_to_list a) as [|[d l] rest IH];
    simpl; [done|]. by rewrite IH.
Qed.

Lemma total_papers_insert (a : archive) d l :
  a !! d = None → total_papers (<[d := l]> a) = (length l + total_papers a)%nat.
Proof.
  intros Hd. rewrite !total_papers_sum.
  by rewrite (map_to_list_insert a d l Hd).
Qed.

Lemma total_papers_appended (a : archive) date papers news :
  a !! date = Some papers →
  total_papers (<[date := papers ++ news]> a)
  = (total_papers a + length news)%nat.
Proof.
  intros Hdate.
  rewrite <- (insert_delete_id a date papers Hdate) at 2.
  rewrite <- (insert_delete_eq a date (papers ++ news)).
  rewrite !total_papers_insert by apply lookup_delete_eq.
  rewrite length_app. lia.
Qed.

(** What [grows] keeps and what it adds. *)
Lemma grows_lookup date a news a' :
  grows date a news a' →
  (∀ d, d ≠ date → a' !! d = a !! d)
  ∧ (news = [] → a' = a)
  ∧ (∀ papers, a !! date = Some papers → a' !! date = Some (papers ++ news))
  ∧ (news ≠ [] → is_Some (a !! date)).
Proof.
  induction 1 as [a | a papers p u news a' Hdate Hid Hfresh Hg IH].
  - repeat split; try done. intros papers ->. by rewrite app_nil_r.
  - destruct IH as (Hother & _ & Hsame & _). repeat split; try done.
    + intros d Hne. rewrite Hother by done. by rewrite lookup_insert_ne.
    + intros papers' Hp. rewrite Hp in Hdate. injection Hdate as ->.
      rewrite (Hsame (papers ++ [p])) by apply lookup_insert_eq.
      by rewrite <- app_assoc.
Qed.

Lemma grows_total date a news a' :
  grows date a news a' → total_papers a' = (total_papers a + length news)%nat.
Proof.
  induction 1 as [a | a papers p u news a' Hdate Hid Hfresh Hg IH];
    simpl; [lia|].
  rewrite IH, (total_papers_appended a date papers [p] Hdate). simpl. lia.
Qed.


Lemma grows_duplicate date a news a' u :
  grows date a news a' → is_duplicate a u = true → is_duplicate a' u = true.
Proof.
  induction 1 as [a | a papers p v news a' Hdate Hid Hfresh Hg IH];
    [done|].
  intros Hdup. apply IH. apply (is_duplicate_appended a date papers p v u);
    auto.
Qed.

Lemma grows_new_ids date a news a' p :
  grows date a news a' → p ∈ news →
  ∃ u, has_id p u ∧ is_duplicate a u = false ∧ is_duplicate a' u = true.
Proof.
  induction 1 as [a | a papers q u news a' Hdate Hid Hfresh Hg IH];
    [by intros ?%elem_of_nil|].
  intros [Heq | Hin]%elem_of_cons.
  - subst q. exists u. split; [done|]. split; [done|].
    eapply grows_duplicate; [done|].
    apply (is_duplicate_appended a date papers p u u); auto.
  - destruct (IH Hin) as (v & Hv & Hfresh' & Hdup). exists v.
    split; [done|]. split; [|done].
    apply not_true_iff_false. intros Hd. apply not_true_iff_false in Hfresh'.
    apply Hfresh'.
    apply (is_duplicate_appended a date papers q u v); auto.
Qed.

Lemma grows_app date a n1 a1 n2 a2 :
  grows date a n1 a1 → grows date a1 n2 a2 → grows date a (n1 ++ n2) a2.
Proof.
  induction 1 as [a | a papers p u news a' Hdate Hid Hfresh Hg IH];
    [done|].
  intros H2. simpl. eapply grows_cons; eauto.
Qed.

Lemma settled_grows E date a news a' item :
  grows date a news a' → settled E a item → settled E a' item.
Proof.
  intros Hg. unfold settled. destruct (titled_link _ _) as [link|]; [|done].
  intros [Hdup | Hrest]; [left | by right].
  by eapply grows_duplicate.
Qed.

(** ** The item loop *)

Lemma count_app p evs evs' : count p (evs ++ evs') = (count p evs + count p evs')%nat.
Proof. unfold count. by rewrite List.filter_app, length_app. Qed.

Lemma count_helpers (p : event → bool) evs :
  (∀ ev, helper_event ev = true → p ev = false) →
  forallb helper_event evs = true → count p evs = O.
Proof.
  intros Hp. induction evs as [|ev evs IH]; [done|].
  intros [Hev Hevs]%andb_true_iff. unfold count in *. simpl.
  rewrite (Hp ev Hev). by apply IH.
Qed.

Lemma helper_not_item_start ev : helper_event ev = true → is_item_start ev = false.
Proof. by destruct ev as [? []| | | |]. Qed.

Lemma helper_not_item_done ev : helper_event ev = true → is_item_done ev = false.
Proof. by destruct ev as [? []| | | |]. Qed.

Section Items.

Variable E : environment.

(** What one item adds to the archive and to the log. *)
Lemma paper_fate_summary date page idx dt dd a r a' evs :
  paper_fate E date page idx dt dd a r a' evs →
  ∃ news,
    grows date a news a'
    ∧ count is_item_done evs = length news
    ∧ count is_item_start evs = O
    ∧ (r = Ret tt → settled E a' (dt, dd))
    ∧ (∀ msg, r ≠ Raise (Exn IndexError msg)).
Proof.
  intros Hfate.
  destruct Hfate as [Hlink | link Hlink Hdup
    | link msg pre Hlink Hdup Hget Hpre
    | link soup pre Hlink Hdup Hget Hmeta Hpre
    | link soup meta e msg pre Hlink Hdup Hget Hmeta Hraise He Hpre
    | link soup meta pre title res failure papers entry Hlink Hdup Hget
        Hmeta Hpre Hres Hbucket Hid Hsum Hscore Herr
    | link soup meta pre failure Hlink Hdup Hget Hmeta Hbucket Hpre].
  - exists []. repeat split; try done; try constructor.
    intros _. unfold settled. simpl. by rewrite Hlink.
  - exists []. repeat split; try done; try constructor.
    intros _. unfold settled. simpl. rewrite Hlink. by left.
  - exists []. rewrite !count_app,
      (count_helpers _ _ helper_not_item_done Hpre),
      (count_helpers _ _ helper_not_item_start Hpre).
    repeat split; try done; try constructor.
    intros _. unfold settled. simpl. rewrite Hlink. right. left. eauto.
  - exists []. rewrite !count_app,
      (count_helpers _ _ helper_not_item_done Hpre),
      (count_helpers _ _ helper_not_item_start Hpre).
    repeat split; try done; try constructor.
    intros _. unfold settled. simpl. rewrite Hlink. by right; right.
  - exists []. rewrite
      (count_helpers _ _ helper_not_item_done Hpre),
      (count_helpers _ _ helper_not_item_start Hpre).
    repeat split; try done; try constructor.
    intros msg0. by rewrite He.
  - exists [entry]. rewrite !count_app,
      (count_helpers _ _ helper_not_item_done Hpre),
      (count_helpers _ _ helper_not_item_start Hpre).
    split; [by eapply grows_cons; eauto; constructor|].
    split; [by destruct failure|]. split; [by destruct failure|].
    split; [|done].
    intros _. unfold settled. simpl. rewrite Hlink. left.
    apply (is_duplicate_appended a date papers entry link link); auto.
  - exists []. rewrite !count_app,
      (count_helpers _ _ helper_not_item_done Hpre),
      (count_helpers _ _ helper_not_item_start Hpre).
    split; [constructor|]. by destruct failure.
Qed.

(** A settled item is passed over: nothing is appended. *)
Lemma paper_fate_settled date page idx dt dd a r a' evs :
  paper_fate E date page idx dt dd a r a' evs →
  settled E a (dt, dd) →
  r = Ret tt ∧ a' = a ∧ count is_item_done evs = O.
Proof.
  unfold settled. simpl.
  intros Hfate.
  destruct Hfate as [Hlink | link Hlink Hdup
    | link msg pre Hlink Hdup Hget Hpre
    | link soup pre Hlink Hdup Hget Hmeta Hpre
    | link soup meta e msg pre Hlink Hdup Hget Hmeta Hraise He Hpre
    | link soup meta pre title res failure papers entry Hlink Hdup Hget
        Hmeta Hpre Hres Hbucket Hid Hsum Hscore Herr
    | link soup meta pre failure Hlink Hdup Hget Hmeta Hbucket Hpre];
    rewrite Hlink; try done;
    try (intros _; rewrite count_app,
           (count_helpers _ _ helper_not_item_done Hpre); done);
    intros [Hd | [[msg' Hm] | Hm]]; congruence.
Qed.

(** The item loop: the archive grows by the Entries of the items that
    were harvested, one [ItemStart] record is logged for every item the
    loop came to, and one [ItemDone] record for every Entry. *)
Lemma process_papers_run date dtm page total idx items w :
  ∃ r a' evs news,
    process_papers E date dtm page total idx items w = (r, after w a' evs)
    ∧ grows date (all_papers_global w) news a'
    ∧ count is_item_done evs = length news
    ∧ (count is_item_start evs ≤ length items)%nat
    ∧ (r = Ret tt → count is_item_start evs = length items
                    ∧ Forall (settled E a') items)
    ∧ (∀ msg, r ≠ Raise (Exn IndexError msg))
    ∧ (Forall (settled E (all_papers_global w)) items →
       r = Ret tt ∧ a' = all_papers_global w).
Proof.
  revert idx w. induction items as [|[dt dd] rest IH]; intros idx w.
  - exists (Ret tt), (all_papers_global w), [], [].
    simpl. rewrite mret_run. fold (extend w []). rewrite extend_nil.
    repeat split; try done; constructor.
  - simpl.
    destruct (process_paper_run E date dtm page total idx dt dd w)
      as (r1 & a1 & evs1 & Hrun1 & Hfate).
    destruct (paper_fate_summary _ _ _ _ _ _ _ _ _ Hfate)
      as (news1 & Hg1 & Hdone1 & Hstart1 & Hsettled1 & Hidx1).
    erewrite bind_run by exact Hrun1.
    destruct r1 as [[]|e].
    + destruct (IH (S idx)
                   (after w a1 (Log LvInfo (ItemStart page idx total)
                                :: evs1)))
        as (r & a' & evs & news & Hrun & Hg & Hdone & Hstart & Hret & Hidx
            & Hskip).
      simpl in Hg, Hskip.
      exists r, a',
        ((Log LvInfo (ItemStart page idx total) :: evs1) ++ evs),
        (news1 ++ news).
      rewrite Hrun, after_after.
      split; [done|]. split; [by eapply grows_app|].
      rewrite !count_app, length_app.
      change (count is_item_done (Log LvInfo (ItemStart page idx total)
                                  :: evs1))
        with (count is_item_done evs1).
      change (count is_item_start (Log LvInfo (ItemStart page idx total)
                                   :: evs1))
        with (S (count is_item_start evs1)).
      rewrite Hdone1, Hdone, Hstart1. simpl.
      split; [done|]. split; [lia|]. split; [|split; [done|]].
      * intros Hr. destruct (Hret Hr) as [Hn Hall]. split; [lia|].
        constructor; [|done].
        eapply settled_grows; [exact Hg | by apply Hsettled1].
      * intros [Hitem Hrest]%Forall_cons.
        destruct (paper_fate_settled _ _ _ _ _ _ _ _ _ Hfate Hitem)
          as (_ & -> & _).
        by apply Hskip.
    + exists (Raise e), a1,
        (Log LvInfo (ItemStart page idx total) :: evs1), news1.
      split; [done|]. split; [done|].
      change (count is_item_done (Log LvInfo (ItemStart page idx total)
                                  :: evs1))
        with (count is_item_done evs1).
      change (count is_item_start (Log LvInfo (ItemStart page idx total)
                                   :: evs1))
        with (S (count is_item_start evs1)).
      rewrite Hdone1, Hstart1. simpl.
      split; [done|]. split; [lia|]. split; [done|]. split; [done|].
      intros [Hitem Hrest]%Forall_cons.
      by destruct (paper_fate_settled _ _ _ _ _ _ _ _ _ Hfate Hitem)
        as (? & _).
Qed.

End Items.

(** ** The pairing of a listing *)

Section Pairing.

Variable E : environment.


End Pairing.


(** ** What is stored for an item *)


Section Stored.

Variable E : environment.


(** C10: provided the HTTP library fetches [http://] and [https://]
    addresses only, an item without a detail link is passed over with a
    warning and nothing else (no request, no call of the summarizer, no
    Entry), and every Entry the loop body appends has as identifier the
    address of its detail page, which has one of the two schemes and so
    is not empty. *)
Theorem stored_identifier_is_absolute (date dtm : str) (page : Z)
        (total idx : nat) (dt dd : node) (w w' : world) (r : outcome unit) :
  (∀ u soup, requests_get E u = Page soup → is_http_url u = true) →
  process_paper E date dtm page total idx dt dd w = (r, w') →
  (titled_link dt (lit "View HTML") = None →
   r = Ret tt
   ∧ w' = extend w [Log LvInfo (ItemStart page idx total);
                    Log LvWarning NoHtmlLink])
  ∧ (all_papers_global w' = all_papers_global w
     ∨ ∃ papers entry link,
         all_papers_global w !! date = Some papers
         ∧ all_papers_global w'
           = <[date := papers ++ [entry]]> (all_papers_global w)
         ∧ titled_link dt (lit "View HTML") = Some link
         ∧ entry !! K_HTML_LINK = Some (VStr link)
         ∧ is_http_url link = true
         ∧ link ≠ []).
Proof.
  intros Hweb Hrun.
  destruct (process_paper_run E date dtm page total idx dt dd w)
    as (r' & a' & evs & Hrun' & Hfate).
  rewrite Hrun' in Hrun. injection Hrun as <- <-.
  destruct Hfate as [Hlink | link Hlink Hdup
    | link msg' pre Hlink Hdup Hget Hpre
    | link soup pre Hlink Hdup Hget Hmeta Hpre
    | link soup meta e msg' pre Hlink Hdup Hget Hmeta Hraise He Hpre
    | link soup meta pre title res failure papers entry Hlink Hdup Hget
        Hmeta Hpre Hres Hbucket Hid Hsum Hscore Herr
    | link soup meta pre failure Hlink Hdup Hget Hmeta Hbucket Hpre];
    (split; [by rewrite Hlink | try by left]).
  right. exists papers, entry, link.
  pose proof (Hweb _ _ Hget) as Habs.
  repeat split; try done. by intros ->.
Qed.

End Stored.

(** The sample web serves addresses with the [https] scheme only. *)
Lemma sample_web_absolute u soup :
  Sample.web u = Page soup → is_http_url u = true.
Proof.
  unfold Sample.web.
  destruct (Str.eqb u Sample.LISTING_URL) eqn:H1.
  { apply bool_decide_eq_true in H1 as ->. done. }
  destruct (Str.eqb u Sample.UNEVEN_URL) eqn:H2.
  { apply bool_decide_eq_true in H2 as ->. done. }
  destruct (startswith u _) eqn:H3; [|done].
  apply startswith_spec in H3 as [rest ->]. done.
Qed.



(** C10 on the sample listing. *)
Lemma stored_identifier_is_absolute_witness :
  let E := Sample.env Sample.llm_up in
  let run := process_paper E Sample.TODAY Sample.NOW 1 2 1
               (Sample.dt_item "/html/1") (Sample.dd_item "First")
               Sample.started in
  ∃ papers entry link,
    all_papers_global Sample.started !! Sample.TODAY = Some papers
    ∧ all_papers_global run.2
      = <[Sample.TODAY := papers ++ [entry]]>
          (all_papers_global Sample.started)
    ∧ entry !! K_HTML_LINK = Some (VStr link)
    ∧ link = lit "https://arxiv.org/html/1".
Proof.
  intros E run.
  pose proof (stored_identifier_is_absolute E Sample.TODAY Sample.NOW 1 2 1
              (Sample.dt_item "/html/1") (Sample.dd_item "First")
              Sample.started run.2 run.1 sample_web_absolute
              (surjective_pairing run)) as [_ H].
  destruct H as [Hsame | (papers & entry & link & Hp & Ha & Hl & Hid & _ & _)].
  - exfalso. apply (f_equal total_papers) in Hsame.
    vm_compute in Hsame. discriminate.
  - exists papers, entry, link. 
    split; [exact Hp|]. split; [exact Ha|]. split; [exact Hid|].
    vm_compute in Hl. by injection Hl.
Defined.

(** ** The page loop *)

Lemma moves_refl date w : moves date w w [] [].
Proof.
  unfold moves. rewrite app_nil_r. repeat split; try done. constructor.
Qed.

Lemma moves_trans date w w1 w2 n1 e1 n2 e2 :
  moves date w w1 n1 e1 → moves date w1 w2 n2 e2 →
  moves date w w2 (n1 ++ n2) (e1 ++ e2).
Proof.
  intros (Hg1 & Ht1 & Hc1 & Hf1) (Hg2 & Ht2 & Hc2 & Hf2).
  unfold moves. rewrite count_app, length_app, Hc1, Hc2, Ht2, Ht1, Hf2, Hf1.
  rewrite app_assoc. repeat split; try done. by eapply grows_app.
Qed.

Lemma moves_after date w a' news evs :
  grows date (all_papers_global w) news a' →
  count is_item_done evs = length news →
  moves date w (after w a' evs) news evs.
Proof. intros Hg Hc. by repeat split. Qed.

Lemma moves_extend date w evs :
  count is_item_done evs = O → moves date w (extend w evs) [] evs.
Proof. intros Hc. apply moves_after; [constructor | done]. Qed.




Lemma paired_lists_run page dl w :
  ∃ dts dds evs,
    paired_lists page dl w = (Ret (dts, dds), extend w evs)
    ∧ zip dts dds = listing_items dl
    ∧ count is_item_done evs = O.
Proof.
  unfold paired_lists, listing_items.
  destruct (bool_decide _).
  - eexists _, _, [_]. erewrite bind_run by apply logging_run.
    rewrite mret_run. done.
  - eexists _, _, []. by rewrite mret_run, extend_nil.
Qed.

Lemma save_page_run date page w :
  ∃ w' evs, save_page page w = (Ret tt, w') ∧ moves date w w' [] evs.
Proof.
  unfold save_page, try_except, write_json, mbind, M_bind, logging, emit.
  destruct w as [a jf wf tk tr]. simpl.
  destruct wf as [[c msg]|]; simpl.
  - exists (World a jf (Some (c, msg)) tk
                  (tr ++ [Log LvError (PageSaveFailed page msg)])),
      [Log LvError (PageSaveFailed page msg)].
    split; [done|]. unfold moves. simpl. repeat split; try done. constructor.
  - exists (World a (Holds a) None tk
                  ((tr ++ [JsonDump a]) ++ [Log LvInfo (PageSaved page)])),
      [JsonDump a; Log LvInfo (PageSaved page)].
    split; [done|]. unfold moves. simpl. rewrite <- app_assoc.
    repeat split; try done. constructor.
Qed.

Section Pages.

Variable E : environment.

Lemma now_run date w :
  ∃ t w', now E w = (Ret t, w') ∧ moves date w w' [] [].
Proof.
  eexists _, _. split; [reflexivity|]. unfold moves. simpl.
  rewrite app_nil_r. repeat split; try done. constructor.
Qed.

Lemma next_page_run date soup w :
  ∃ c w' evs,
    next_page E soup w = (Ret c, w')
    ∧ moves date w w' [] evs
    ∧ c = match find (is_next_link E) soup with
          | None => Break
          | Some next_page_tag =>
              match attr (lit "href") next_page_tag with
              | None => Break
              | Some href => Continue (absolute (strip href))
              end
          end.
Proof.
  unfold next_page.
  destruct (find (is_next_link E) soup) as [tag|].
  - destruct (attr _ tag) as [href|].
    + eexists _, _, []. rewrite mret_run. split; [done|].
      split; [apply moves_refl | done].
    + eexists _, _, _. erewrite bind_run by apply logging_run.
      rewrite mret_run. split; [done|]. split; [by apply moves_extend|done].
  - eexists _, _, _. erewrite bind_run by apply logging_run.
    rewrite mret_run. split; [done|]. split; [by apply moves_extend|done].
Qed.

Lemma moves_nil date w w' evs :
  moves date w w' [] evs → all_papers_global w' = all_papers_global w.
Proof. intros (Hg & _). by apply (grows_lookup _ _ _ _ Hg). Qed.

(** One turn of the loop. *)
Lemma crawl_page_run max date url page w :
  ∃ r w' news evs,
    crawl_page E max date url page w = (r, w')
    ∧ moves date w w' news evs
    ∧ (∀ c, r = Ret c →
         if past_max_pages max page then c = Break ∧ news = []
         else c = page_control E url
              ∧ page_settled E (all_papers_global w') url)
    ∧ (past_max_pages max page = true
       ∨ page_settled E (all_papers_global w) url →
       r = Ret (if past_max_pages max page then Break
                else page_control E url)
       ∧ all_papers_global w' = all_papers_global w).
Proof.
  unfold crawl_page, page_control, page_settled, listing_of.
  destruct (past_max_pages max page).
  { erewrite bind_run by apply logging_run. rewrite mret_run.
    eexists (Ret Break), _, [], _. split; [done|].
    split; [by apply moves_extend|]. split; [by intros c [= <-]|done]. }
  erewrite bind_run by apply logging_run.
  match goal with
  | |- context [(_ ≫= _) ?w0] =>
      pose proof (get_arxiv_soup_run E url w0) as Hfetch
  end.
  destruct (requests_get E url) as [msg|soup] eqn:Hget;
    erewrite bind_run by exact Hfetch; clear Hfetch; rewrite extend_extend.
  { erewrite bind_run by apply logging_run.
    rewrite mret_run, extend_extend.
    eexists (Ret Break), _, [], _. split; [done|].
    split; [by apply moves_extend|]. split; [by intros c [= <-]|done]. }
  destruct (find _ soup) as [dl|].
  2:{ erewrite bind_run by apply logging_run.
      rewrite mret_run, extend_extend.
      eexists (Ret Break), _, [], _. split; [done|].
      split; [by apply moves_extend|]. split; [by intros c [= <-]|done]. }
  match goal with
  | |- context [(_ ≫= _) ?w0] =>
      destruct (paired_lists_run page dl w0)
        as (dts & dds & evs1 & Hpair & Hzip & Hc1)
  end.
  erewrite bind_run by exact Hpair. rewrite extend_extend.
  match goal with
  | |- context [(_ ≫= _) ?w0] =>
      set (w1 := w0) in *;
      destruct (now_run date w0) as (t & w2 & Hnow & Hm2)
  end.
  assert (Hm1 : moves date w w1 []
                  (([Log LvInfo (PageStart page url)] ++ [HttpGet url])
                   ++ evs1)).
  { apply moves_extend. by rewrite count_app, Hc1. }
  erewrite bind_run by exact Hnow. rewrite Hzip.
  destruct (process_papers_run E date (strftime_datetime E t) page
              (length dts) 1 (listing_items dl) w2)
    as (r3 & a3 & evs3 & news3 & Hrun3 & Hg3 & Hd3 & _ & Hret3 & _ & Hskip3).
  erewrite bind_run by exact Hrun3.
  pose proof (moves_after date w2 a3 news3 evs3 Hg3 Hd3) as Hm3.
  assert (Hw2 : all_papers_global w2 = all_papers_global w).
  { rewrite (moves_nil _ _ _ _ Hm2). exact (moves_nil _ _ _ _ Hm1). }
  destruct r3 as [[]|e].
  - destruct (save_page_run date page (after w2 a3 evs3))
      as (w4 & evs4 & Hsave & Hm4).
    erewrite bind_run by exact Hsave.
    destruct (next_page_run date soup w4) as (c & w5 & evs5 & Hnext & Hm5 & Hc).
    pose proof (moves_nil _ _ _ _ Hm4) as Ha4.
    pose proof (moves_nil _ _ _ _ Hm5) as Ha5.
    simpl in Ha4.
    exists (Ret c), w5, (((([] ++ []) ++ news3) ++ []) ++ []).
    eexists. split; [exact Hnext|].
    split.
    { eapply moves_trans; [|exact Hm5]. eapply moves_trans; [|exact Hm4].
      eapply moves_trans; [|exact Hm3]. eapply moves_trans; [exact Hm1|].
      exact Hm2. }
    split.
    + intros c' [= <-]. split; [done|].
      rewrite Ha5, Ha4. by apply Hret3.
    + intros [?|Hsettled]; [done|]. rewrite <- Hw2 in Hsettled.
      destruct (Hskip3 Hsettled) as [_ ->].
      split; [by rewrite Hc|]. by rewrite Ha5, Ha4.
  - exists (Raise e), (after w2 a3 evs3), (([] ++ []) ++ news3).
    eexists. split; [done|].
    split.
    { eapply moves_trans; [|exact Hm3]. eapply moves_trans; [exact Hm1|].
      exact Hm2. }
    split; [done|].
    intros [?|Hsettled]; [done|]. rewrite <- Hw2 in Hsettled.
    by destruct (Hskip3 Hsettled) as [? _].
Qed.


(** The loop only appends to the bucket of the date. *)
Lemma crawl_loop_moves fuel max date url page w r w' :
  crawl_loop E fuel max date url page w = Some (r, w') →
  ∃ news evs, moves date w w' news evs.
Proof.
  revert url page w. induction fuel as [|fuel IH]; intros url page w; [done|].
  simpl.
  destruct (crawl_page_run max date url page w)
    as (r1 & w1 & news1 & evs1 & Hrun & Hm & _).
  rewrite Hrun. destruct r1 as [[|next]|e].
  - intros [= <- <-]. eauto.
  - intros (news & evs & Hm')%IH. eexists _, _. by eapply moves_trans.
  - intros [= <- <-]. eauto.
Qed.


(** With a page bound the loop ends. *)
Lemma crawl_loop_terminates (n : Z) date fuel url page w :
  n ≠ 0%Z → (Z.to_nat (n + 1 - page) < fuel)%nat →
  ∃ r w', crawl_loop E fuel (Some n) date url page w = Some (r, w').
Proof.
  intros Hn. revert url page w.
  induction fuel as [|fuel IH]; intros url page w Hfuel; [lia|].
  simpl.
  destruct (crawl_page_run (Some n) date url page w)
    as (r1 & w1 & news1 & evs1 & Hrun & _ & Hret & _).
  rewrite Hrun. destruct r1 as [[|next]|e]; [eauto| |eauto].
  specialize (Hret _ eq_refl).
  destruct (past_max_pages (Some n) page) eqn:Hmax; [by destruct Hret|].
  apply IH. unfold past_max_pages in Hmax.
  apply andb_false_iff in Hmax as [Hmax|Hmax].
  - apply negb_false_iff, Z.eqb_eq in Hmax. done.
  - apply Z.ltb_ge in Hmax. lia.
Qed.

End Pages.

(** ** The whole run *)

Lemma with_bucket_lookup (date : str) (a : archive) :
  with_bucket date a !! date = Some (default [] (a !! date))
  ∧ ∀ d, d ≠ date → with_bucket date a !! d = a !! d.
Proof.
  unfold with_bucket. destruct (bool_decide _) eqn:Hb.
  - apply bool_decide_eq_true in Hb. rewrite Hb, lookup_insert_eq.
    split; [done|]. intros d Hne. by rewrite lookup_insert_ne.
  - apply bool_decide_eq_false in Hb.
    by destruct (a !! date).
Qed.

Lemma with_bucket_total (date : str) (a : archive) :
  total_papers (with_bucket date a) = total_papers a.
Proof.
  unfold with_bucket. destruct (bool_decide _) eqn:Hb; [|done].
  apply bool_decide_eq_true in Hb. by rewrite total_papers_insert.
Qed.

Lemma with_bucket_duplicate (date : str) (a : archive) u :
  is_duplicate (with_bucket date a) u = is_duplicate a u.
Proof.
  unfold with_bucket. destruct (bool_decide _) eqn:Hb; [|done].
  apply bool_decide_eq_true in Hb.
  apply eq_true_iff_eq. rewrite !is_duplicate_spec. split.
  - intros (d & papers & p & Hd & Hp & Hid).
    destruct (decide (d = date)) as [->|Hne].
    + rewrite lookup_insert_eq in Hd. injection Hd as <-.
      by apply elem_of_nil in Hp.
    + rewrite lookup_insert_ne in Hd by done. eauto 6.
  - intros (d & papers & p & Hd & Hp & Hid).
    exists d, papers, p. split; [|done].
    rewrite lookup_insert_ne; [done|]. congruence.
Qed.


Section Run.

Variable E : environment.

(** What comes before the loop. *)
Lemma crawl_setup_run w :
  ∃ w1 evs,
    crawl_setup E w
    = (Ret ((Z.of_nat (total_papers (loaded_archive w) / PAPERS_PER_PAGE)
             + 1)%Z, today_of E w), w1)
    ∧ all_papers_global w1 = with_bucket (today_of E w) (loaded_archive w)
    ∧ trace w1 = trace w ++ evs
    ∧ count is_item_done evs = O
    ∧ write_fault w1 = write_fault w
    ∧ json_file w1 = json_file w.
Proof.
  destruct w as [a jf wf tk tr].
  unfold crawl_setup, load_history, try_except, read_json, set_archive,
    logging, emit, get_archive, now, mbind, M_bind, mret, M_ret,
    loaded_archive, with_bucket, today_of; simpl.
  destruct jf as [|msg|a0]; simpl;
    destruct (bool_decide _); simpl; eexists _, [_]; done.
Qed.

(** C2: with a page bound the run returns; and whenever a run returns,
    with a result or with an error, the Archive it leaves is the Archive
    it loaded with new Entries appended to today's bucket and nothing
    else changed: the buckets of the other dates are as they were loaded,
    today's bucket is the loaded one followed by the new Entries, the
    number of Entries is the loaded number plus the number of new ones,
    which is the number of items logged as done, and the identifier of
    every new Entry was not in the loaded Archive. *)
Theorem crawl_appends_to_today (url : str) (max_pages : option Z)
        (w : world) :
  (∀ n, max_pages = Some n → n ≠ 0%Z →
        ∃ fuel r w',
          crawl_and_process_papers E fuel url max_pages w = Some (r, w'))
  ∧ ∀ fuel r w',
      crawl_and_process_papers E fuel url max_pages w = Some (r, w') →
      ∃ news,
        (∀ d, d ≠ today_of E w →
              all_papers_global w' !! d = loaded_archive w !! d)
        ∧ all_papers_global w' !! today_of E w
          = Some (default [] (loaded_archive w !! today_of E w) ++ news)
        ∧ total_papers (all_papers_global w')
          = (total_papers (loaded_archive w) + length news)%nat
        ∧ count is_item_done (events_since w w') = length news
        ∧ (∀ p, p ∈ news →
                ∃ u, has_id p u ∧ is_duplicate (loaded_archive w) u = false)
        ∧ (∀ a, r = Ret a → a = all_papers_global w').
Proof.
  destruct (crawl_setup_run w)
    as (w1 & evs0 & Hsetup & Ha1 & Ht1 & Hc0 & Hf1 & _).
  split.
  - intros n -> Hn.
    set (page := (Z.of_nat (total_papers (loaded_archive w)
                            / PAPERS_PER_PAGE) + 1)%Z) in *.
    destruct (crawl_loop_terminates E n (today_of E w)
                (S (Z.to_nat (n + 1 - page))) url page w1 Hn)
      as (r & w' & Hloop); [lia|].
    exists (S (Z.to_nat (n + 1 - page))).
    unfold crawl_and_process_papers. rewrite Hsetup, Hloop.
    destruct r; eauto.
  - intros fuel r w' Hrun. unfold crawl_and_process_papers in Hrun.
    rewrite Hsetup in Hrun.
    destruct (crawl_loop E fuel max_pages _ url _ w1) as [[r2 w2]|] eqn:Hloop;
      [|done].
    destruct (crawl_loop_moves E _ _ _ _ _ _ _ _ Hloop)
      as (news & evs & Hg & Ht & Hc & Hf).
    assert (w' = w2 ∧ ∀ a, r = Ret a → a = all_papers_global w2)
      as [-> Hret].
    { destruct r2; injection Hrun as <- <-; split; try done.
      by intros a0 [= <-]. }
    rewrite Ha1 in Hg.
    destruct (grows_lookup _ _ _ _ Hg) as (Hother & _ & Hsame & _).
    destruct (with_bucket_lookup (today_of E w) (loaded_archive w))
      as (Hb1 & Hb2).
    exists news. split; [|split; [|split; [|split; [|split]]]].
    + intros d Hne. by rewrite Hother, Hb2.
    + by apply Hsame.
    + by rewrite (grows_total _ _ _ _ Hg), with_bucket_total.
    + rewrite (events_since_app w w2 (evs0 ++ evs)).
      * by rewrite count_app, Hc0, Hc.
      * by rewrite Ht, Ht1, app_assoc.
    + intros p Hp.
      destruct (grows_new_ids _ _ _ _ p Hg Hp) as (u & Hu & Hfresh & _).
      exists u. by rewrite with_bucket_duplicate in Hfresh.
    + done.
Qed.

End Run.

(** C2 on the sample listing: two Entries are appended to the empty
    Archive. *)
Lemma crawl_appends_to_today_witness :
  let E := Sample.env Sample.llm_up in
  ∃ r w' news,
    crawl_and_process_papers E 5 Sample.LISTING_URL (Some 1%Z) Sample.fresh
    = Some (r, w')
    ∧ all_papers_global w' !! Sample.TODAY = Some news
    ∧ length news = 2%nat
    ∧ total_papers (all_papers_global w') = 2%nat.
Proof.
  intros E.
  assert (Hreturns :
    match crawl_and_process_papers E 5 Sample.LISTING_URL (Some 1%Z)
            Sample.fresh with
    | Some _ => true
    | None => false
    end = true)
    by (vm_compute; reflexivity).
  destruct (crawl_and_process_papers E 5 Sample.LISTING_URL (Some 1%Z)
              Sample.fresh) as [[r w']|] eqn:Hrun; [|discriminate Hreturns].
  destruct (crawl_appends_to_today E Sample.LISTING_URL (Some 1%Z)
              Sample.fresh) as [_ Hpost].
  destruct (Hpost 5%nat r w' Hrun)
    as (news & _ & Htoday & Htotal & Hcount & _).
  assert (Hdone :
    (fun rw : outcome archive * world =>
       count is_item_done (events_since Sample.fresh rw.2))
    <$> crawl_and_process_papers E 5 Sample.LISTING_URL (Some 1%Z)
          Sample.fresh = Some 2%nat) by (vm_compute; reflexivity).
  rewrite Hrun in Hdone. injection Hdone as Hdone.
  exists r, w', news. split; [done|].
  split; [exact Htoday|]. split; [congruence|].
  rewrite Htotal. change (total_papers (loaded_archive Sample.fresh)) with O.
  simpl. congruence.
Defined.

(** ** Running twice *)

Section Twice.

Variable E : environment.


End Twice.




(** * Further properties *)

(** ** Strings *)

Lemma drop_while_head p s c :
  head (drop_while p s) = Some c → p c = false.
Proof.
  induction s as [|a s IH]; simpl; [done|].
  destruct (p a) eqn:Hp; [done|]. simpl. by intros [= <-].
Qed.

Lemma drop_while_suffix p s :
  ∃ pre, s = pre ++ drop_while p s ∧ forallb p pre = true.
Proof.
  induction s as [|a s (pre & Hs & Hpre)]; simpl.
  - by exists [].
  - destruct (p a) eqn:Hp.
    + exists (a :: pre). simpl. rewrite Hp, Hpre. by rewrite <- Hs.
    + by exists [].
Qed.

Lemma drop_while_elem p s c : c ∈ drop_while p s → c ∈ s.
Proof.
  destruct (drop_while_suffix p s) as (pre & Hs & _). intros Hc.
  rewrite Hs. apply elem_of_app. by right.
Qed.

Lemma take_while_elem p s c : c ∈ take_while p s → c ∈ s ∧ p c = true.
Proof.
  induction s as [|a s IH]; simpl; [by intros ?%elem_of_nil|].
  destruct (p a) eqn:Hp; [|by intros ?%elem_of_nil].
  intros [-> | Hc]%elem_of_cons.
  - split; [apply list_elem_of_here | done].
  - destruct (IH Hc). split; [by apply list_elem_of_further | done].
Qed.

Lemma rev_elem (s : str) c : c ∈ rev s ↔ c ∈ s.
Proof. rewrite !list_elem_of_In. symmetry. apply in_rev. Qed.

Lemma strip_elem s c : c ∈ strip s → c ∈ s.
Proof.
  unfold strip, rstrip, lstrip. intros Hc.
  apply (proj1 (rev_elem _ _)), drop_while_elem in Hc.
  apply (proj1 (rev_elem _ _)) in Hc.
  by apply drop_while_elem in Hc.
Qed.

(** The head of a list is the last element of its reversal. *)
Lemma last_rev (s : str) : last (rev s) = head s.
Proof.
  destruct s as [|a s]; [done|]. simpl. by rewrite last_snoc.
Qed.

Lemma head_rev (s : str) : head (rev s) = last s.
Proof. by rewrite <- last_rev, rev_involutive. Qed.

Lemma strip_trimmed s : trimmed (strip s).
Proof.
  unfold trimmed, strip, rstrip, lstrip. split.
  - intros c Hc. rewrite head_rev in Hc.
    destruct (drop_while_suffix isspace (rev (drop_while isspace s)))
      as (pre & Hs & Hpre).
    set (v := drop_while isspace (rev (drop_while isspace s))) in *.
    (* the stripped text is the reversal of [v], a prefix of the text
       without its leading white space *)
    assert (Hu : drop_while isspace s = rev v ++ rev pre).
    { rewrite <- rev_app_distr, <- Hs. by rewrite rev_involutive. }
    destruct (rev v) as [|a t] eqn:Hv.
    + apply (f_equal (@rev N)) in Hv. rewrite rev_involutive in Hv.
      by rewrite Hv in Hc.
    + assert (Hhead : head (drop_while isspace s) = Some a)
        by (by rewrite Hu).
      apply drop_while_head in Hhead.
      assert (last v = Some a).
      { rewrite <- head_rev. by rewrite Hv. }
      (* the last of [v] is the first of the stripped text *)
      assert (head (rev v) = Some c) by (by rewrite head_rev).
      rewrite Hv in H0. simpl in H0. by injection H0 as <-.
  - intros c Hc. rewrite last_rev in Hc. by apply drop_while_head in Hc.
Qed.

(** ** The first author *)

(** X1: [get_first_author] never returns the empty string: it returns the
    text before the first comma without its surrounding white space, or
    the fixed text [未知作者] when that text is empty; the result holds no
    comma and neither starts nor ends with white space. *)
Theorem first_author_well_formed (authors_str : str) :
  get_first_author authors_str ≠ []
  ∧ (COMMA ∉ get_first_author authors_str)
  ∧ trimmed (get_first_author authors_str)
  ∧ (strip (before_first COMMA authors_str) = [] →
     get_first_author authors_str = UNKNOWN_AUTHOR)
  ∧ (strip (before_first COMMA authors_str) ≠ [] →
     get_first_author authors_str = strip (before_first COMMA authors_str)).
Proof.
  assert (Hunknown : UNKNOWN_AUTHOR ≠ [] ∧ (COMMA ∉ UNKNOWN_AUTHOR)
                     ∧ trimmed UNKNOWN_AUTHOR).
  { split; [done|]. split.
    - intros H. apply list_elem_of_In in H. vm_compute in H.
      intuition discriminate.
    - split; intros c [= <-]; reflexivity. }
  unfold get_first_author.
  destruct authors_str as [|a s]; [by repeat split; try apply Hunknown|].
  destruct (strip (before_first COMMA (a :: s))) as [|b t] eqn:Hstrip.
  { repeat split; try apply Hunknown; done. }
  split; [done|]. split; [|split; [|done]].
  - intros Hc. rewrite <- Hstrip in Hc.
    apply strip_elem, take_while_elem in Hc as [_ Hc].
    by rewrite N.eqb_refl in Hc.
  - rewrite <- Hstrip. apply strip_trimmed.
Qed.

(** ** The PDF link *)

Lemma has_pdf_cons c s : has_pdf s = true → has_pdf (c :: s) = true.
Proof.
  destruct s as [|d [|f r]]; try done.
  intros H. change (has_pdf (c :: d :: f :: r))
    with ((((c =? 112) || (c =? 80)) && ((d =? 100) || (d =? 68))
           && ((f =? 102) || (f =? 70))) || has_pdf (d :: f :: r)).
  rewrite H. apply orb_true_r.
Qed.

Lemma has_pdf_app p s : has_pdf s = true → has_pdf (p ++ s) = true.
Proof.
  induction p as [|c p IH]; [done|]. intros H. simpl.
  by apply has_pdf_cons, IH.
Qed.

Lemma is_http_url_http r : is_http_url (lit "http://" ++ r) = true.
Proof.
  unfold is_http_url. rewrite map_app.
  change (map lower_ascii (lit "http://")) with (lit "http://").
  by rewrite startswith_app.
Qed.

Lemma is_http_url_https r : is_http_url (lit "https://" ++ r) = true.
Proof.
  unfold is_http_url. rewrite map_app.
  change (map lower_ascii (lit "https://")) with (lit "https://").
  rewrite (startswith_app (lit "https://")). apply orb_true_r.
Qed.

Lemma startswith_any_http s :
  startswith_any s [lit "http://"; lit "https://"] = true →
  is_http_url s = true.
Proof.
  unfold startswith_any. simpl. rewrite orb_false_r.
  intros [H | H]%orb_true_iff; apply startswith_spec in H as [r ->].
  - apply is_http_url_http.
  - apply is_http_url_https.
Qed.

Lemma is_http_url_arxiv href : is_http_url (ARXIV ++ href) = true.
Proof.
  change ARXIV with (lit "https://" ++ lit "arxiv.org").
  rewrite <- app_assoc. apply is_http_url_https.
Qed.

Lemma first_pdf_link_absolute a_tags link :
  first_pdf_link a_tags = Some link →
  is_http_url link = true ∧ has_pdf link = true.
Proof.
  revert link. induction a_tags as [|a_tag rest IH]; intros link; [done|].
  cbn [first_pdf_link].
  destruct (attr (lit "href") a_tag) as [href|]; [|by apply IH].
  destruct (has_pdf (strip href)) eqn:Hpdf; [|by apply IH].
  destruct (startswith (strip href) SLASH) eqn:Hslash.
  { intros Heq. assert (link = ARXIV ++ strip href) as -> by congruence.
    split; [apply is_http_url_arxiv|]. by apply has_pdf_app. }
  destruct (startswith_any (strip href) _) eqn:Hhttp; [|by apply IH].
  intros [= <-]. split; [|done]. by apply startswith_any_http.
Qed.

(** X2: [extract_pdf_link] always returns; its result is either the
    empty string, and then a warning is logged, or a link with the scheme
    [http://] or [https://] that holds the letters [pdf] in either case,
    and then nothing is logged. *)
Theorem pdf_link_empty_or_absolute (dt_tag : node) (w : world) :
  ∃ link,
    (link = []
     ∧ (extract_pdf_link dt_tag w
        = (Ret link, extend w [Log LvWarning NoLinksInDt])
        ∨ extract_pdf_link dt_tag w
          = (Ret link, extend w [Log LvWarning NoPdfLink])))
    ∨ (link ≠ [] ∧ is_http_url link = true ∧ has_pdf link = true
       ∧ extract_pdf_link dt_tag w = (Ret link, w)).
Proof.
  unfold extract_pdf_link.
  destruct (find_all _ dt_tag) as [|a_tag rest].
  { exists []. left. split; [done|]. by left. }
  destruct (first_pdf_link (a_tag :: rest)) as [link|] eqn:Hfirst.
  - destruct (first_pdf_link_absolute _ _ Hfirst) as [Hhttp Hpdf].
    exists link. right. split; [by intros ->|]. done.
  - exists []. left. split; [done|]. by right.
Qed.

(** ** Comments and code links *)

(** X3: without a comment block [process_comment_and_code] returns two
    empty strings; with one, the cleaned comment never ends with a comma,
    a semicolon or a space, and the code field is empty when the block has
    no link. *)
Theorem comment_has_no_trailing_separator (E : environment) :
  process_comment_and_code E None = ([], [])
  ∧ ∀ comment_tag,
      let result := process_comment_and_code E (Some comment_tag) in
      (∀ c, last result.1 = Some c → c ≠ 44 ∧ c ≠ 59 ∧ c ≠ 32)
      ∧ (find_all (fun x => named (lit "a") x && has_attr (lit "href") x)
                  comment_tag = [] → result.2 = []).
Proof.
  split; [done|]. intros comment_tag. simpl. split.
  - intros c Hc. unfold cut_trailing_separators in Hc.
    rewrite last_rev in Hc. apply drop_while_head in Hc.
    apply orb_false_iff in Hc as [Hc H32].
    apply orb_false_iff in Hc as [H44 H59].
    apply N.eqb_neq in H32, H44, H59. done.
  - intros ->. done.
Qed.

(** ** The summarizer *)


(** ** The turns of the loop, case by case *)

Lemma save_page_cases page w :
  save_page page w
  = match write_fault w with
    | None =>
        (Ret tt,
         World (all_papers_global w) (Holds (all_papers_global w)) None
               (ticks w)
               (trace w ++ [JsonDump (all_papers_global w);
                            Log LvInfo (PageSaved page)]))
    | Some (c, msg) =>
        (Ret tt, extend w [Log LvError (PageSaveFailed page msg)])
    end.
Proof.
  unfold save_page, try_except, write_json, mbind, M_bind, logging, emit.
  destruct w as [a jf wf tk tr]. simpl.
  destruct wf as [[c msg]|]; simpl; [done|]. by rewrite <- app_assoc.
Qed.

Lemma next_page_cases E soup w :
  ∃ c evs,
    next_page E soup w = (Ret c, extend w evs)
    ∧ (evs = [] ∨ evs = [Log LvInfo NoNextPage]).
Proof.
  unfold next_page.
  destruct (find (is_next_link E) soup) as [tag|].
  - destruct (attr _ tag) as [href|].
    + eexists _, []. rewrite mret_run, extend_nil. split; [done|]. by left.
    + eexists _, _. erewrite bind_run by apply logging_run.
      rewrite mret_run. split; [done|]. by right.
  - eexists _, _. erewrite bind_run by apply logging_run.
    rewrite mret_run. split; [done|]. by right.
Qed.

(** The four ways of a turn: the page bound is passed; the listing cannot
    be fetched; the listing has no list of articles; or the items are
    processed, and then, unless one of them raises, the archive is saved
    and the next link is looked up. *)
Lemma crawl_page_cases E max date url page w :
  (past_max_pages max page = true
   ∧ crawl_page E max date url page w
     = (Ret Break, extend w [Log LvInfo (MaxPagesReached (default 0%Z max))]))
  ∨ (past_max_pages max page = false
     ∧ ∃ msg,
         requests_get E url = RequestError msg
         ∧ crawl_page E max date url page w
           = (Ret Break,
              extend w [Log LvInfo (PageStart page url); HttpGet url;
                        Log LvError (RequestFailed url msg);
                        Log LvError (ListFetchFailed page)]))
  ∨ (past_max_pages max page = false
     ∧ ∃ soup,
         requests_get E url = Page soup ∧ listing_of E url = None
         ∧ crawl_page E max date url page w
           = (Ret Break,
              extend w [Log LvInfo (PageStart page url); HttpGet url;
                        Log LvError (NoArticles page)]))
  ∨ (past_max_pages max page = false
     ∧ ∃ soup dl dts dds mismatch,
         listing_of E url = Some (soup, dl)
         ∧ zip dts dds = listing_items dl
         ∧ (mismatch = []
            ∨ ∃ m, mismatch = [Log LvWarning (Mismatch page m)])
         ∧ let w2 := World (all_papers_global w) (json_file w)
                           (write_fault w) (S (ticks w))
                           (trace w ++ Log LvInfo (PageStart page url)
                                       :: HttpGet url :: mismatch) in
           let run := process_papers E date
                        (strftime_datetime E (clock E (ticks w))) page
                        (length dts) 1 (listing_items dl) w2 in
           crawl_page E max date url page w
           = match run.1 with
             | Raise e => (Raise e, run.2)
             | Ret _ => (save_page page ;; next_page E soup) run.2
             end).
Proof.
  unfold crawl_page, listing_of.
  destruct (past_max_pages max page).
  { left. split; [done|].
    erewrite bind_run by apply logging_run. by rewrite mret_run. }
  right. erewrite bind_run by apply logging_run.
  match goal with
  | |- context [(_ ≫= _) ?w0] =>
      pose proof (get_arxiv_soup_run E url w0) as Hfetch
  end.
  destruct (requests_get E url) as [msg|soup] eqn:Hget.
  { left. split; [done|]. exists msg. split; [done|].
    erewrite bind_run by exact Hfetch. rewrite extend_extend.
    erewrite bind_run by apply logging_run.
    by rewrite mret_run, extend_extend. }
  right. erewrite !(bind_run _ _ _ _ _ Hfetch). rewrite extend_extend.
  destruct (find _ soup) as [dl|].
  2:{ left. split; [done|]. exists soup. split; [done|]. split; [done|].
      erewrite bind_run by apply logging_run.
      by rewrite mret_run, extend_extend. }
  right. split; [done|].
  match goal with
  | |- context [(_ ≫= _) ?w0] =>
      assert (∃ dts dds mismatch,
                paired_lists page dl w0 = (Ret (dts, dds), extend w0 mismatch)
                ∧ zip dts dds = listing_items dl
                ∧ (mismatch = []
                   ∨ ∃ m, mismatch = [Log LvWarning (Mismatch page m)]))
        as (dts & dds & mismatch & Hpair & Hzip & Hmis)
  end.
  { unfold paired_lists, listing_items. destruct (bool_decide _).
    - eexists _, _, [_]. erewrite bind_run by apply logging_run.
      rewrite mret_run. split; [done|]. split; [done|]. right. eauto.
    - eexists _, _, []. rewrite mret_run, extend_nil.
      split; [done|]. split; [done|]. by left. }
  exists soup, dl, dts, dds, mismatch.
  split; [done|]. split; [done|]. split; [done|].
  erewrite bind_run by exact Hpair. rewrite extend_extend.
  rewrite Hzip. unfold mbind at 1, M_bind at 1. simpl.
  unfold mbind at 1, M_bind at 1.
  destruct (process_papers E date _ page (length dts) 1 (listing_items dl) _)
    as [[[]|e] w3]; done.
Qed.

(** ** What reaches the JSON file *)

(** The JSON file after a turn: untouched when the file cannot be
    written or the turn raises; after a turn that returns with a writable
    file, either the file holds the archive in memory, or the turn stopped
    before its items and changed neither. *)
Lemma crawl_page_file E max date url page w r w' :
  crawl_page E max date url page w = (r, w') →
  write_fault w' = write_fault w
  ∧ (write_fault w ≠ None ∨ (∃ e, r = Raise e) → json_file w' = json_file w)
  ∧ (write_fault w = None → (∃ c, r = Ret c) →
     json_file w' = Holds (all_papers_global w')
     ∨ (json_file w' = json_file w
        ∧ all_papers_global w' = all_papers_global w)).
Proof.
  intros Hturn.
  destruct (crawl_page_cases E max date url page w)
    as [(_ & H) | [(_ & msg & _ & H) | [(_ & soup & _ & _ & H)
       | (_ & soup & dl & dts & dds & mismatch & _ & _ & _ & H)]]].
  1-3: rewrite H in Hturn; injection Hturn as <- <-;
       (split; [done|]); (split; [done|]); intros _ _; by right.
  simpl in H.
  match type of H with
  | context [process_papers E date ?dtm page ?n 1 ?items ?w2] =>
      destruct (process_papers_run E date dtm page n 1 items w2)
        as (r3 & a3 & evs3 & news3 & Hrun3 & _)
  end.
  rewrite Hrun3 in H. simpl in H. rewrite H in Hturn. clear H Hrun3.
  destruct r3 as [[]|e].
  2:{ injection Hturn as <- <-. split; [done|]. split; [done|].
      by intros _ [c [=]]. }
  match type of Hturn with
  | (_ ≫= _) ?w0 = _ => set (w3 := w0) in Hturn
  end.
  pose proof (save_page_cases page w3) as Hsave.
  assert (Hf3 : write_fault w3 = write_fault w) by done.
  assert (Hj3 : json_file w3 = json_file w) by done.
  destruct (write_fault w3) as [[c msg]|] eqn:Hfault.
  - erewrite bind_run in Hturn by exact Hsave.
    destruct (next_page_cases E soup
                (extend w3 [Log LvError (PageSaveFailed page msg)]))
      as (c' & evs & Hnext & _).
    rewrite Hnext in Hturn. injection Hturn as <- <-.
    split; [done|]. split; [done|].
    intros Hnone. congruence.
  - erewrite bind_run in Hturn by exact Hsave. cbv beta iota in Hturn.
    match type of Hturn with
    | next_page E soup ?w4 = _ =>
        destruct (next_page_cases E soup w4) as (c' & evs & Hnext & _)
    end.
    rewrite Hnext in Hturn. injection Hturn as <- <-.
    split; [done|].
    split; [intros [Hsome | [e [=]]]; congruence|].
    intros _ _. by left.
Qed.

Lemma crawl_loop_file E fuel max date url page w r w' :
  crawl_loop E fuel max date url page w = Some (r, w') →
  write_fault w' = write_fault w
  ∧ (write_fault w ≠ None → json_file w' = json_file w)
  ∧ (write_fault w = None → r = Ret tt →
     json_file w' = Holds (all_papers_global w')
     ∨ (json_file w' = json_file w
        ∧ all_papers_global w' = all_papers_global w)).
Proof.
  revert url page w. induction fuel as [|fuel IH]; intros url page w; [done|].
  simpl. destruct (crawl_page E max date url page w) as [r1 w1] eqn:Hturn.
  destruct (crawl_page_file _ _ _ _ _ _ _ _ Hturn) as (Hf1 & Hsame1 & Hok1).
  destruct r1 as [[|next]|e].
  - intros [= <- <-]. split; [done|]. split; [by intros ?; apply Hsame1; left|].
    intros Hnone _. apply Hok1; eauto.
  - intros Hloop. destruct (IH _ _ _ Hloop) as (Hf & Hsame & Hok).
    split; [congruence|]. split.
    + intros Hfault. rewrite Hsame by congruence. apply Hsame1. by left.
    + intros Hnone Hret.
      destruct (Hok ltac:(congruence) Hret) as [Hfile | [Hfile Harch]];
        [by left|].
      destruct (Hok1 Hnone ltac:(eauto)) as [Hfile1 | [Hfile1 Harch1]].
      * left. congruence.
      * right. split; congruence.
  - intros [= <- <-]. split; [done|]. split; [by intros ?; apply Hsame1; left|].
    done.
Qed.



(** ** What a run can raise *)

Lemma paper_fate_raise E date page idx dt dd a r a' evs :
  paper_fate E date page idx dt dd a r a' evs →
  is_Some (a !! date) →
  ∀ e, r = Raise e → ∃ msg, e = Exn AttributeError msg.
Proof.
  intros Hfate [papers0 Hsome] e0 Hr.
  destruct Hfate as [Hlink | link Hlink Hdup
    | link msg pre Hlink Hdup Hget Hpre
    | link soup pre Hlink Hdup Hget Hmeta Hpre
    | link soup meta e msg pre Hlink Hdup Hget Hmeta Hraise He Hpre
    | link soup meta pre title res failure papers entry Hlink Hdup Hget
        Hmeta Hpre Hres Hbucket Hid Hsum Hscore Herr
    | link soup meta pre failure Hlink Hdup Hget Hmeta Hbucket Hpre];
    try discriminate Hr.
  - injection Hr as <-. eauto.
  - congruence.
Qed.

Lemma process_papers_raise E date dtm page total idx items w r w' :
  is_Some (all_papers_global w !! date) →
  process_papers E date dtm page total idx items w = (r, w') →
  ∀ e, r = Raise e → ∃ msg, e = Exn AttributeError msg.
Proof.
  revert idx w. induction items as [|[dt dd] rest IH]; intros idx w Hsome.
  - simpl. rewrite mret_run. by intros [= <- <-] e.
  - simpl.
    destruct (process_paper_run E date dtm page total idx dt dd w)
      as (r1 & a1 & evs1 & Hrun1 & Hfate).
    erewrite bind_run by exact Hrun1.
    destruct r1 as [[]|e1].
    + apply IH. simpl.
      destruct (paper_fate_summary _ _ _ _ _ _ _ _ _ _ Hfate)
        as (news1 & Hg1 & _).
      destruct Hsome as [papers Hsome].
      destruct (grows_lookup _ _ _ _ Hg1) as (_ & _ & Hat & _).
      rewrite (Hat _ Hsome). eauto.
    + intros [= <- <-] e [= <-].
      by eapply paper_fate_raise.
Qed.

Lemma crawl_page_raise E max date url page w r w' :
  is_Some (all_papers_global w !! date) →
  crawl_page E max date url page w = (r, w') →
  ∀ e, r = Raise e → ∃ msg, e = Exn AttributeError msg.
Proof.
  intros Hsome Hturn.
  destruct (crawl_page_cases E max date url page w)
    as [(_ & H) | [(_ & msg & _ & H) | [(_ & soup & _ & _ & H)
       | (_ & soup & dl & dts & dds & mismatch & _ & _ & _ & H)]]].
  1-3: rewrite H in Hturn; by injection Hturn as <- <-.
  simpl in H.
  match type of H with
  | context [process_papers E date ?dtm page ?n 1 ?items ?w2] =>
      destruct (process_papers E date dtm page n 1 items w2)
        as [r3 w3] eqn:Hrun3
  end.
  pose proof (λ H0, process_papers_raise _ _ _ _ _ _ _ _ _ _ H0 Hrun3) as Hr3.
  specialize (Hr3 Hsome).
  simpl in H. rewrite H in Hturn. clear H.
  destruct r3 as [[]|e3].
  2:{ injection Hturn as <- <-. intros e [= <-]. by apply Hr3. }
  pose proof (save_page_cases page w3) as Hsave.
  destruct (write_fault w3) as [[c msg]|].
  - erewrite bind_run in Hturn by exact Hsave.
    destruct (next_page_cases E soup
                (extend w3 [Log LvError (PageSaveFailed page msg)]))
      as (c' & evs & Hnext & _).
    rewrite Hnext in Hturn. by injection Hturn as <- <-.
  - erewrite bind_run in Hturn by exact Hsave. cbv beta iota in Hturn.
    match type of Hturn with
    | next_page E soup ?w4 = _ =>
        destruct (next_page_cases E soup w4) as (c' & evs & Hnext & _)
    end.
    rewrite Hnext in Hturn. by injection Hturn as <- <-.
Qed.

Lemma crawl_loop_raise E fuel max date url page w r w' :
  is_Some (all_papers_global w !! date) →
  crawl_loop E fuel max date url page w = Some (r, w') →
  ∀ e, r = Raise e → ∃ msg, e = Exn AttributeError msg.
Proof.
  revert url page w. induction fuel as [|fuel IH]; intros url page w Hsome;
    [done|].
  simpl.
  destruct (crawl_page_run E max date url page w)
    as (r1 & w1 & news1 & evs1 & Hrun & (Hg & _) & _).
  rewrite Hrun. pose proof (crawl_page_raise _ _ _ _ _ _ _ _ Hsome Hrun) as Hr.
  destruct r1 as [[|next]|e1].
  - by intros [= <- <-].
  - apply IH. destruct Hsome as [papers Hsome].
    destruct (grows_lookup _ _ _ _ Hg) as (_ & _ & Hat & _).
    rewrite (Hat _ Hsome). eauto.
  - intros [= <- <-] e [= <-]. by apply Hr.
Qed.



(** ** The Entries of one run *)

Lemma has_id_functional (p : paper) (u v : str) :
  has_id p u → has_id p v → u = v.
Proof. unfold has_id. congruence. Qed.

Lemma grows_distinct date a news a' :
  grows date a news a' →
  ∀ (i j : nat) p q u,
    news !! i = Some p → news !! j = Some q →
    has_id p u → has_id q u → i = j.
Proof.
  induction 1 as [a | a papers p0 u0 news a' Hbucket Hid Hdup Hg IH];
    intros i j p q u Hi Hj Hp Hq; [done|].
  assert (Hlater : ∀ (k : nat) q', news !! k = Some q' → ¬ has_id q' u0).
  { intros k q' Hk Hq'.
    destruct (grows_new_ids _ _ _ _ q' Hg) as (v & Hv & Hfresh & _).
    { by eapply list_elem_of_lookup_2. }
    rewrite (has_id_functional _ _ _ Hv Hq') in Hfresh.
    assert (is_duplicate (<[date:=papers ++ [p0]]> a) u0 = true)
      by (apply (is_duplicate_appended a date papers p0 u0 u0); auto).
    congruence. }
  destruct i as [|i], j as [|j]; simpl in Hi, Hj.
  - done.
  - injection Hi as <-. rewrite (has_id_functional _ _ _ Hp Hid) in Hq.
    by destruct (Hlater _ _ Hj).
  - injection Hj as <-. rewrite (has_id_functional _ _ _ Hq Hid) in Hp.
    by destruct (Hlater _ _ Hi).
  - f_equal. by eapply IH.
Qed.

(** X7: the Entries a run appends to today's bucket have pairwise
    distinct identifiers, whether the run returns or raises, and whatever
    the Archive it loaded: an item that the listings show twice is stored
    once. *)
Theorem new_entries_have_distinct_ids (E : environment) (fuel : nat)
        (url : str) (max_pages : option Z) (w : world)
        (r : outcome archive) (w' : world) :
  crawl_and_process_papers E fuel url max_pages w = Some (r, w') →
  ∃ news,
    all_papers_global w' !! today_of E w
    = Some (default [] (loaded_archive w !! today_of E w) ++ news)
    ∧ (∀ p, p ∈ news → ∃ u, has_id p u)
    ∧ ∀ (i j : nat) p q u,
        news !! i = Some p → news !! j = Some q →
        has_id p u → has_id q u → i = j.
Proof.
  intros Hrun. unfold crawl_and_process_papers in Hrun.
  destruct (crawl_setup_run E w) as (w1 & evs0 & Hsetup & Ha1 & _).
  rewrite Hsetup in Hrun.
  destruct (crawl_loop E fuel max_pages _ url _ w1) as [[r2 w2]|] eqn:Hloop;
    [|done].
  destruct (crawl_loop_moves E _ _ _ _ _ _ _ _ Hloop)
    as (news & evs & Hg & _).
  assert (w' = w2) as -> by (by destruct r2; injection Hrun as <- <-).
  exists news. rewrite Ha1 in Hg.
  destruct (grows_lookup _ _ _ _ Hg) as (_ & _ & Hat & _).
  destruct (with_bucket_lookup (today_of E w) (loaded_archive w))
    as [Htoday _].
  split; [by apply Hat|]. split.
  - intros p Hp. destruct (grows_new_ids _ _ _ _ p Hg Hp) as (u & Hu & _).
    eauto.
  - by eapply grows_distinct.
Qed.

(** X7 on the sample listing: the two Entries of the run have different
    identifiers. *)
Lemma new_entries_have_distinct_ids_witness :
  let E := Sample.env Sample.llm_up in
  ∃ r w' news,
    crawl_and_process_papers E 5 Sample.LISTING_URL (Some 1%Z) Sample.fresh
    = Some (r, w')
    ∧ all_papers_global w' !! Sample.TODAY = Some news
    ∧ ∀ (i j : nat) p q u,
        news !! i = Some p → news !! j = Some q →
        has_id p u → has_id q u → i = j.
Proof.
  intros E.
  assert (Hreturns :
    match crawl_and_process_papers E 5 Sample.LISTING_URL (Some 1%Z)
            Sample.fresh with
    | Some _ => true
    | None => false
    end = true)
    by (vm_compute; reflexivity).
  destruct (crawl_and_process_papers E 5 Sample.LISTING_URL (Some 1%Z)
              Sample.fresh) as [[r w']|] eqn:Hrun; [|discriminate Hreturns].
  destruct (new_entries_have_distinct_ids E 5 Sample.LISTING_URL (Some 1%Z)
              Sample.fresh r w' Hrun) as (news & Htoday & _ & Hdistinct).
  exists r, w', news. split; [reflexivity|]. split; [exact Htoday|].
  exact Hdistinct.
Defined.

(** ** The page bound and the start page *)

Lemma crawl_setup_exact E w :
  crawl_setup E w
  = (Ret (start_page w, today_of E w),
     World (with_bucket (today_of E w) (loaded_archive w)) (json_file w)
           (write_fault w) (S (ticks w)) (trace w ++ [history_record w])).
Proof.
  destruct w as [a jf wf tk tr].
  unfold crawl_setup, load_history, try_except, read_json, set_archive,
    logging, emit, get_archive, now, mbind, M_bind, mret, M_ret,
    loaded_archive, with_bucket, today_of, start_page, history_record; simpl.
  destruct jf as [|msg|a0]; simpl; by destruct (bool_decide _).
Qed.

(** X8: a page bound below the start page.  The run starts from page
    [total // 100 + 1], where [total] is the number of Entries it loaded;
    when the bound [n] is not [0] and is smaller than that page (so for
    [n = 1] as soon as 100 Entries are stored, and for every negative
    bound), the run stops at its first turn: it returns the loaded Archive
    with today's bucket, sends no request, writes no file, and logs two
    records, the one of the load and the one of the bound. *)
Theorem bound_below_start_fetches_nothing (E : environment) (fuel : nat)
        (url : str) (n : Z) (w : world) :
  n ≠ 0%Z →
  (n < start_page w)%Z →
  crawl_and_process_papers E (S fuel) url (Some n) w
  = Some (Ret (with_bucket (today_of E w) (loaded_archive w)),
          World (with_bucket (today_of E w) (loaded_archive w))
                (json_file w) (write_fault w) (S (ticks w))
                (trace w ++ [history_record w;
                             Log LvInfo (MaxPagesReached n)])).
Proof.
  intros Hn Hlt. unfold crawl_and_process_papers.
  rewrite crawl_setup_exact. simpl. unfold crawl_page.
  assert (past_max_pages (Some n) (start_page w) = true) as ->.
  { simpl. apply andb_true_iff. split.
    - apply negb_true_iff. by apply Z.eqb_neq.
    - by apply Z.ltb_lt. }
  erewrite bind_run by apply logging_run. rewrite mret_run.
  unfold extend, after. simpl. by rewrite <- app_assoc.
Qed.

(** X8 on an archive of one hundred Entries and the bound of one page:
    the run stops before its first request. *)
Lemma bound_below_start_fetches_nothing_witness :
  let E := Sample.env Sample.llm_up in
  let w := Sample.reloaded Cases.hundred in
  (1 < start_page w)%Z
  ∧ crawl_and_process_papers E 1 Sample.LISTING_URL (Some 1%Z) w
    = Some (Ret (with_bucket (today_of E w) (loaded_archive w)),
            World (with_bucket (today_of E w) (loaded_archive w))
                  (json_file w) (write_fault w) (S (ticks w))
                  (trace w ++ [history_record w;
                               Log LvInfo (MaxPagesReached 1)])).
Proof.
  intros E w.
  assert (Hstart : (1 < start_page w)%Z) by (vm_compute; reflexivity).
  split; [exact Hstart|].
  apply (bound_below_start_fetches_nothing E 0 Sample.LISTING_URL 1 w);
    [discriminate | exact Hstart].
Defined.

(** X9: a page bound of [0] is no bound: the run is the run without a
    bound, turn for turn. *)
Theorem zero_max_pages_is_no_bound (E : environment) (fuel : nat)
        (url : str) (w : world) :
  crawl_and_process_papers E fuel url (Some 0%Z) w
  = crawl_and_process_papers E fuel url None w.
Proof.
  unfold crawl_and_process_papers.
  destruct (crawl_setup E w) as [[[page date]|e] w1]; [|done].
  assert (Hloop : ∀ fuel url page w,
            crawl_loop E fuel (Some 0%Z) date url page w
            = crawl_loop E fuel None date url page w).
  { clear. intros fuel. induction fuel as [|fuel IH]; intros url page w;
      [done|].
    simpl. change (crawl_page E (Some 0%Z) date url page w)
             with (crawl_page E None date url page w).
    destruct (crawl_page E None date url page w) as [[[|next]|e] w'];
      auto. }
  by rewrite Hloop.
Qed.

(** ** What one item costs and what it stores *)

Lemma count_none (q p : event → bool) evs :
  (∀ ev, q ev = true → p ev = false) →
  forallb q evs = true → count p evs = O.
Proof.
  intros Hp. induction evs as [|ev evs IH]; [done|].
  intros [Hev Hevs]%andb_true_iff. unfold count in *. simpl.
  rewrite (Hp ev Hev). by apply IH.
Qed.

Lemma extractor_counts evs :
  forallb extractor_record evs = true →
  count is_http_get evs = O ∧ count is_llm_request evs = O
  ∧ count is_item_start evs = O ∧ count is_item_done evs = O
  ∧ count is_page_start evs = O.
Proof.
  intros Hevs.
  repeat split; apply (count_none extractor_record); try done;
    by intros [[] []| | | |].
Qed.

Lemma extract_pdf_link_records dt w :
  ∃ link evs, extract_pdf_link dt w = (Ret link, extend w evs)
              ∧ forallb extractor_record evs = true.
Proof.
  unfold extract_pdf_link.
  destruct (find_all _ dt) as [|a_tag rest].
  - exists [], [Log LvWarning NoLinksInDt]. done.
  - destruct (first_pdf_link _) as [link|].
    + exists link, []. by rewrite extend_nil.
    + exists [], [Log LvWarning NoPdfLink]. done.
Qed.

Lemma extract_abstract_records soup w :
  ∃ text evs, extract_abstract soup w = (Ret text, extend w evs)
              ∧ forallb extractor_record evs = true.
Proof.
  unfold extract_abstract.
  destruct (find_class _ _ soup) as [c|].
  - destruct (find_class _ _ c) as [p|];
      eexists _, []; by rewrite extend_nil.
  - by exists NO_ABSTRACT, [Log LvWarning AbstractMissing].
Qed.

Lemma extract_introduction_records soup w :
  ∃ r evs, extract_introduction soup w = (r, extend w evs)
           ∧ forallb extractor_record evs = true.
Proof.
  unfold extract_introduction.
  destruct (find _ soup) as [sec|].
  - destruct (intro_lists _) as [items|e];
      eexists _, []; by rewrite extend_nil.
  - by exists (Ret NO_INTRODUCTION), [Log LvWarning IntroMissing].
Qed.

Lemma entry_keys_ok (dtm title authors subjects comment pdf_link code
                     abs_link link abstract introduction : str)
      (res : llm_result) :
  (0 ≤ score res ≤ 5)%Z →
  (error res ≠ [] → summary res = SUMMARY_FAILED ∧ score res = 0%Z) →
  entry_ok
    (list_to_map
       [(K_CRAWL_DATETIME, VStr dtm); (K_TITLE, VStr title);
        (K_AUTHORS, VStr authors); (K_SUBJECTS, VStr subjects);
        (K_COMMENT, VStr comment); (K_PDF_LINK, VStr pdf_link);
        (K_CODE, VStr code); (K_ABS_LINK, VStr abs_link);
        (K_HTML_LINK, VStr link); (K_ABSTRACT, VStr abstract);
        (K_INTRODUCTION, VStr introduction);
        (K_LLM_SUMMARY, VStr (summary res)); (K_LLM_SCORE, VInt (score res));
        (K_LLM_ERROR, VStr (error res))]).
Proof.
  intros Hscore Herror. split; [|split].
  - by rewrite dom_list_to_map_L.
  - intros k Hk Hne. unfold ENTRY_KEYS in Hk.
    repeat (apply elem_of_cons in Hk as [-> | Hk]; [by eauto|]).
    by apply elem_of_nil in Hk.
  - exists (score res), (summary res), (error res). done.
Qed.

Ltac tally :=
  repeat split;
  first [ done | by (unfold count; simpl; lia) | by left | idtac ].

(** What the loop body does with one item, in numbers: at most one
    request for a page, and a request to the LLM only for an item that is
    stored; and the Entry it stores has the shape of [entry_ok]. *)
Lemma process_paper_detail E date dtm page total idx dt dd w :
  is_Some (all_papers_global w !! date) →
  ∃ r a' evs,
    process_paper E date dtm page total idx dt dd w = (r, after w a' evs)
    ∧ count is_item_start evs = 1%nat
    ∧ count is_page_start evs = O
    ∧ (count is_http_get evs ≤ 1)%nat
    ∧ ((a' = all_papers_global w
        ∧ count is_llm_request evs = O ∧ count is_item_done evs = O)
       ∨ (∃ papers entry,
            all_papers_global w !! date = Some papers
            ∧ a' = <[date := papers ++ [entry]]> (all_papers_global w)
            ∧ r = Ret tt
            ∧ entry_ok entry
            ∧ count is_http_get evs = 1%nat
            ∧ count is_llm_request evs = 1%nat
            ∧ count is_item_done evs = 1%nat)).
Proof.
  intros [papers Hbucket].
  unfold process_paper.
  erewrite bind_run by apply logging_run.
  destruct (titled_link dt (lit "View HTML")) as [link|] eqn:Hlink.
  2:{ exists (Ret tt), (all_papers_global w),
        [Log LvInfo (ItemStart page idx total); Log LvWarning NoHtmlLink].
      rewrite logging_run, extend_extend.
      split; [reflexivity|]. tally. }
  erewrite bind_run by apply get_archive_run. simpl.
  destruct (is_duplicate (all_papers_global w) link) eqn:Hdup.
  { exists (Ret tt), (all_papers_global w),
      [Log LvInfo (ItemStart page idx total); Log LvInfo (Duplicate link)].
    rewrite logging_run, extend_extend.
    split; [reflexivity|]. tally. }
  destruct (extract_pdf_link_records dt
              (extend w [Log LvInfo (ItemStart page idx total)]))
    as (pdf_link & pdf_evs & Hpdf & Hpdf_evs).
  destruct (extractor_counts _ Hpdf_evs) as (Hp1 & Hp2 & Hp3 & Hp4 & Hp5).
  erewrite bind_run by exact Hpdf. rewrite extend_extend.
  match goal with
  | |- context [(_ ≫= _) ?w0] =>
      pose proof (get_arxiv_soup_run E link w0) as Hfetch
  end.
  destruct (requests_get E link) as [msg|soup] eqn:Hget;
    erewrite bind_run by exact Hfetch; clear Hfetch;
    rewrite extend_extend.
  { eexists (Ret tt), (all_papers_global w), _.
    rewrite logging_run, extend_extend.
    split; [reflexivity|].
    rewrite !count_app, Hp1, Hp2, Hp3, Hp4, Hp5.
    tally. }
  destruct (find_class (lit "div") (lit "meta") dd) as [meta|] eqn:Hmeta.
  2:{ eexists (Ret tt), (all_papers_global w), _.
      rewrite logging_run, extend_extend.
      split; [reflexivity|].
      rewrite !count_app, Hp1, Hp2, Hp3, Hp4, Hp5.
      tally. }
  destruct (process_comment_and_code E _) as [comment code].
  match goal with
  | |- context [(_ ≫= _) ?w0] =>
      destruct (extract_abstract_records soup w0)
        as (abstract & abs_evs & Habs & Habs_evs)
  end.
  destruct (extractor_counts _ Habs_evs) as (Ha1 & Ha2 & Ha3 & Ha4 & Ha5).
  erewrite bind_run by exact Habs. rewrite extend_extend.
  match goal with
  | |- context [(_ ≫= _) ?w0] =>
      destruct (extract_introduction_records soup w0)
        as (ri & intro_evs & Hintro & Hintro_evs)
  end.
  destruct (extractor_counts _ Hintro_evs) as (Hi1 & Hi2 & Hi3 & Hi4 & Hi5).
  erewrite bind_run by exact Hintro. rewrite extend_extend.
  destruct ri as [introduction|e].
  2:{ eexists (Raise e), (all_papers_global w), _.
      split; [reflexivity|].
      rewrite !count_app, Hp1, Hp2, Hp3, Hp4, Hp5, Ha1, Ha2, Ha3, Ha4, Ha5,
        Hi1, Hi2, Hi3, Hi4, Hi5.
      tally. }
  match goal with
  | |- context [call_llm_for_summary E ?t ?a ?i ≫= _] =>
      match goal with
      | |- context [(_ ≫= _) ?w0] =>
          destruct (call_llm_for_summary_run E t a i w0)
            as (res & failure & Hllm & Hres);
          set (prompt := user_prompt_of t a i) in *;
          set (title := t) in *
      end
  end.
  erewrite bind_run by exact Hllm. rewrite extend_extend.
  match goal with
  | |- context [append_paper date ?en] =>
      set (entry := en);
      match goal with
      | |- context [(_ ≫= _) (extend w ?evs0)] =>
          pose proof (append_paper_run date entry w evs0) as Happend
      end
  end.
  rewrite Hbucket in Happend.
  erewrite bind_run by exact Happend; clear Happend.
  eexists (Ret tt), _, _.
  unfold logging. rewrite emit_run. unfold extend.
  rewrite after_after.
  split; [reflexivity|].
  assert (Hfail : ∀ p, (p = is_http_get ∨ p = is_llm_request
                        ∨ p = is_item_start ∨ p = is_item_done
                        ∨ p = is_page_start) →
            count p match failure with
                    | Some msg => [Log LvError (LlmFailed msg)]
                    | None => []
                    end = O).
  { intros p Hp. destruct failure;
      by destruct Hp as [-> | [-> | [-> | [-> | ->]]]]. }
  rewrite !count_app, Hp1, Hp2, Hp3, Hp4, Hp5, Ha1, Ha2, Ha3, Ha4, Ha5,
    Hi1, Hi2, Hi3, Hi4, Hi5.
  change (LlmRequest prompt :: ?l) with ([LlmRequest prompt] ++ l).
  rewrite !count_app, !Hfail by tauto.
  repeat split; try done.
  right. exists papers, entry.
  assert (Hentry : entry_ok entry).
  { apply entry_keys_ok.
    - destruct failure as [msg|].
      + destruct Hres as [-> _]. simpl. lia.
      + destruct Hres as (content & _ & ->). simpl. apply score_of_bounds.
    - destruct failure as [msg|].
      + by destruct Hres as [-> _].
      + by destruct Hres as (content & _ & ->). }
  done.
Qed.


Lemma harvest_trans date w w1 w2 n1 e1 n2 e2 :
  harvest date w w1 n1 e1 → harvest date w1 w2 n2 e2 →
  harvest date w w2 (n1 ++ n2) (e1 ++ e2).
Proof.
  intros (Ht1 & Hb1 & Hok1 & Hl1 & Hd1 & Hlo1 & Hhi1)
         (Ht2 & Hb2 & Hok2 & Hl2 & Hd2 & Hlo2 & Hhi2).
  unfold harvest. rewrite !count_app, length_app.
  split; [by rewrite Ht2, Ht1, app_assoc|].
  split.
  { intros papers Hp. rewrite app_assoc. by apply Hb2, Hb1. }
  split; [by apply Forall_app|]. lia.
Qed.

(** A step that stores nothing and asks the LLM nothing. *)
Lemma harvest_idle date w w' evs :
  trace w' = trace w ++ evs →
  all_papers_global w' = all_papers_global w →
  count is_llm_request evs = O → count is_item_done evs = O →
  (count is_page_start evs ≤ count is_http_get evs)%nat →
  (count is_http_get evs
   ≤ count is_page_start evs + count is_item_start evs)%nat →
  harvest date w w' [] evs.
Proof.
  intros Ht Ha Hl Hd Hlo Hhi. unfold harvest. simpl.
  split; [done|]. split.
  { intros papers Hp. by rewrite Ha, app_nil_r. }
  split; [constructor|]. done.
Qed.

Lemma harvest_bucket date w w' news evs :
  harvest date w w' news evs →
  is_Some (all_papers_global w !! date) →
  is_Some (all_papers_global w' !! date).
Proof. intros (_ & Hb & _) [papers Hp]. rewrite (Hb _ Hp). eauto. Qed.

Lemma process_papers_detail E date dtm page total idx items w :
  is_Some (all_papers_global w !! date) →
  ∃ r w' news evs,
    process_papers E date dtm page total idx items w = (r, w')
    ∧ harvest date w w' news evs
    ∧ count is_page_start evs = O
    ∧ json_file w' = json_file w ∧ write_fault w' = write_fault w.
Proof.
  revert idx w. induction items as [|[dt dd] rest IH]; intros idx w Hsome.
  - exists (Ret tt), w, [], []. simpl. rewrite mret_run.
    split; [done|]. split; [|done].
    apply harvest_idle; try done. by rewrite app_nil_r.
  - simpl.
    destruct (process_paper_detail E date dtm page total idx dt dd w Hsome)
      as (r1 & a1 & evs1 & Hrun1 & Hstart1 & Hpage1 & Hget1 & Hcase).
    erewrite bind_run by exact Hrun1.
    assert (Hh1 : ∃ news1,
              harvest date w (after w a1 evs1) news1 evs1).
    { destruct Hcase as [(-> & Hl & Hd)
        | (papers & entry & Hp & -> & _ & Hok & Hg & Hl & Hd)].
      - exists []. apply harvest_idle; try done; lia.
      - exists [entry]. unfold harvest. simpl.
        split; [done|]. split.
        { intros papers' Hp'. rewrite lookup_insert_eq. congruence. }
        split; [by constructor|]. lia. }
    destruct Hh1 as [news1 Hh1].
    destruct r1 as [[]|e].
    + destruct (IH (S idx) (after w a1 evs1))
        as (r & w' & news & evs & Hrun & Hh & Hpage & Hj & Hf).
      { by eapply harvest_bucket. }
      exists r, w', (news1 ++ news), (evs1 ++ evs).
      split; [done|]. split; [by eapply harvest_trans|].
      rewrite count_app. split; [lia|]. done.
    + exists (Raise e), (after w a1 evs1), news1, evs1. done.
Qed.

(** One turn of the loop, in numbers: a turn that the page bound does
    not stop starts one listing, and its first request is the one for the
    listing. *)
Lemma crawl_page_detail E max date url page w r w' :
  is_Some (all_papers_global w !! date) →
  crawl_page E max date url page w = (r, w') →
  ∃ news evs,
    harvest date w w' news evs
    ∧ count is_page_start evs
      = (if past_max_pages max page then O else 1%nat)
    ∧ (past_max_pages max page = false →
       ∃ rest, evs = Log LvInfo (PageStart page url) :: HttpGet url :: rest).
Proof.
  intros Hsome Hturn.
  destruct (crawl_page_cases E max date url page w)
    as [(Hpast & H) | [(Hpast & msg & _ & H) | [(Hpast & soup & _ & _ & H)
       | (Hpast & soup & dl & dts & dds & mismatch & _ & _ & Hmis & H)]]];
    rewrite Hpast.
  1-3: rewrite H in Hturn; injection Hturn as <- <-;
       eexists [], _; (split; [|split]);
       [ apply harvest_idle; try done; unfold count; simpl; lia
       | reflexivity
       | first [ done | by eexists ] ].
  simpl in H.
  match type of H with
  | context [process_papers E date ?dtm page ?n 1 ?items ?w0] =>
      set (w2 := w0) in *;
      destruct (process_papers_detail E date dtm page n 1 items w2 Hsome)
        as (r3 & w3 & news3 & evs3 & Hrun3 & Hh3 & Hpage3 & Hj3 & Hf3)
  end.
  set (head := Log LvInfo (PageStart page url) :: HttpGet url :: mismatch).
  assert (Hh2 : harvest date w w2 [] head).
  { apply harvest_idle; try done;
      destruct Hmis as [-> | [m ->]]; unfold count; simpl; lia. }
  assert (Hhead : count is_page_start head = 1%nat)
    by (by destruct Hmis as [-> | [m ->]]).
  rewrite Hrun3 in H. simpl in H. rewrite H in Hturn. clear H.
  pose proof (harvest_trans _ _ _ _ _ _ _ _ Hh2 Hh3) as Hh.
  destruct r3 as [[]|e3].
  2:{ injection Hturn as <- <-. exists ([] ++ news3), (head ++ evs3).
      split; [done|]. rewrite count_app, Hhead, Hpage3.
      split; [done|]. intros _. by eexists. }
  pose proof (save_page_cases page w3) as Hsave.
  destruct (write_fault w3) as [[c msg]|].
  - erewrite bind_run in Hturn by exact Hsave.
    destruct (next_page_cases E soup
                (extend w3 [Log LvError (PageSaveFailed page msg)]))
      as (c' & evs & Hnext & Hevs).
    rewrite Hnext, extend_extend in Hturn. injection Hturn as <- <-.
    eexists _, ((head ++ evs3) ++ _). split; [|split].
    + eapply harvest_trans; [exact Hh|].
      apply harvest_idle; try done;
        destruct Hevs as [-> | ->]; unfold count; simpl; lia.
    + rewrite !count_app, Hhead, Hpage3.
      by destruct Hevs as [-> | ->].
    + intros _. by eexists.
  - erewrite bind_run in Hturn by exact Hsave. cbv beta iota in Hturn.
    match type of Hturn with
    | next_page E soup ?w4 = _ =>
        destruct (next_page_cases E soup w4) as (c' & evs & Hnext & Hevs)
    end.
    rewrite Hnext in Hturn. injection Hturn as <- <-.
    eexists _, ((head ++ evs3)
                ++ [JsonDump (all_papers_global w3);
                    Log LvInfo (PageSaved page)] ++ evs).
    split; [|split].
    + eapply harvest_trans; [exact Hh|].
      apply harvest_idle; try done.
      * simpl. by rewrite <- app_assoc.
      * destruct Hevs as [-> | ->]; unfold count; simpl; lia.
      * destruct Hevs as [-> | ->]; unfold count; simpl; lia.
      * destruct Hevs as [-> | ->]; unfold count; simpl; lia.
      * destruct Hevs as [-> | ->]; unfold count; simpl; lia.
    + rewrite !count_app, Hhead, Hpage3.
      by destruct Hevs as [-> | ->].
    + intros _. by eexists.
Qed.

Lemma crawl_loop_detail E fuel max date url page w r w' :
  is_Some (all_papers_global w !! date) →
  crawl_loop E fuel max date url page w = Some (r, w') →
  ∃ news evs, harvest date w w' news evs.
Proof.
  revert url page w. induction fuel as [|fuel IH]; intros url page w Hsome;
    [done|].
  simpl. destruct (crawl_page E max date url page w) as [r1 w1] eqn:Hturn.
  destruct (crawl_page_detail _ _ _ _ _ _ _ _ Hsome Hturn)
    as (news1 & evs1 & Hh1 & _).
  destruct r1 as [[|next]|e].
  - intros [= <- <-]. eauto.
  - intros Hloop.
    destruct (IH _ _ _ (harvest_bucket _ _ _ _ _ Hh1 Hsome) Hloop)
      as (news & evs & Hh).
    eexists _, _. by eapply harvest_trans.
  - intros [= <- <-]. eauto.
Qed.

(** A run, in numbers: after the record of the load, a harvest from the
    loaded archive with today's bucket. *)
Lemma crawl_run_detail E fuel url max w r w' :
  crawl_and_process_papers E fuel url max w = Some (r, w') →
  ∃ news evs,
    events_since w w' = history_record w :: evs
    ∧ all_papers_global w' !! today_of E w
      = Some (default [] (loaded_archive w !! today_of E w) ++ news)
    ∧ Forall entry_ok news
    ∧ count is_llm_request evs = length news
    ∧ count is_item_done evs = length news
    ∧ (length news + count is_page_start evs ≤ count is_http_get evs)%nat
    ∧ (count is_http_get evs
       ≤ count is_page_start evs + count is_item_start evs)%nat.
Proof.
  intros Hrun. unfold crawl_and_process_papers in Hrun.
  rewrite crawl_setup_exact in Hrun.
  match type of Hrun with
  | context [crawl_loop E fuel max _ url _ ?w0] => set (w1 := w0) in *
  end.
  destruct (crawl_loop E fuel max _ url _ w1) as [[r2 w2]|] eqn:Hloop;
    [|done].
  assert (w' = w2) as -> by (by destruct r2; injection Hrun as <- <-).
  destruct (with_bucket_lookup (today_of E w) (loaded_archive w))
    as [Htoday _].
  assert (Hsome : is_Some (all_papers_global w1 !! today_of E w))
    by (subst w1; simpl; rewrite Htoday; eauto).
  destruct (crawl_loop_detail _ _ _ _ _ _ _ _ _ Hsome Hloop)
    as (news & evs & Ht & Hb & Hok & Hcounts).
  exists news, evs. split.
  { apply events_since_app. rewrite Ht. simpl. by rewrite <- app_assoc. }
  split; [by apply Hb|]. done.
Qed.

(** X10: every Entry a run appends to today's bucket has the fourteen
    keys of the paper dictionary and no other; its [llm_score] is an
    integer from 0 to 5 and each of its other fields is a string; and when
    its [llm_error] is not empty, its summary is the fixed text of a failed
    summary and its score is 0. *)
Theorem stored_entries_are_well_formed (E : environment) (fuel : nat)
        (url : str) (max_pages : option Z) (w : world)
        (r : outcome archive) (w' : world) :
  crawl_and_process_papers E fuel url max_pages w = Some (r, w') →
  ∃ news,
    all_papers_global w' !! today_of E w
    = Some (default [] (loaded_archive w !! today_of E w) ++ news)
    ∧ Forall entry_ok news.
Proof.
  intros Hrun.
  destruct (crawl_run_detail _ _ _ _ _ _ _ Hrun)
    as (news & evs & _ & Htoday & Hok & _).
  by exists news.
Qed.

(** X10 on the sample listing: the two Entries of the run have the shape
    of an Entry. *)
Lemma stored_entries_are_well_formed_witness :
  let E := Sample.env Sample.llm_up in
  ∃ r w' news,
    crawl_and_process_papers E 5 Sample.LISTING_URL (Some 1%Z) Sample.fresh
    = Some (r, w')
    ∧ all_papers_global w' !! Sample.TODAY = Some news
    ∧ Forall entry_ok news.
Proof.
  intros E.
  assert (Hreturns :
    match crawl_and_process_papers E 5 Sample.LISTING_URL (Some 1%Z)
            Sample.fresh with
    | Some _ => true
    | None => false
    end = true)
    by (vm_compute; reflexivity).
  destruct (crawl_and_process_papers E 5 Sample.LISTING_URL (Some 1%Z)
              Sample.fresh) as [[r w']|] eqn:Hrun; [|discriminate Hreturns].
  destruct (stored_entries_are_well_formed E 5 Sample.LISTING_URL (Some 1%Z)
              Sample.fresh r w' Hrun) as (news & Htoday & Hok).
  exists r, w', news. split; [reflexivity|]. split; [exact Htoday|].
  exact Hok.
Defined.

Lemma history_record_counts (p : event → bool) w evs :
  p = is_http_get ∨ p = is_llm_request ∨ p = is_item_start
  ∨ p = is_item_done ∨ p = is_page_start →
  count p (history_record w :: evs) = count p evs.
Proof.
  unfold history_record.
  intros [-> | [-> | [-> | [-> | ->]]]]; by destruct (json_file w).
Qed.

(** X11: what a run asks of the outside.  The LLM is asked exactly once
    for every Entry the run appends, and never for an item that is not
    stored; the pages requested are one for every listing the run starts,
    one detail page for every Entry, and at most one for every other item
    the loop comes to. *)
Theorem one_llm_request_per_entry (E : environment) (fuel : nat)
        (url : str) (max_pages : option Z) (w : world)
        (r : outcome archive) (w' : world) :
  crawl_and_process_papers E fuel url max_pages w = Some (r, w') →
  ∃ news,
    all_papers_global w' !! today_of E w
    = Some (default [] (loaded_archive w !! today_of E w) ++ news)
    ∧ count is_llm_request (events_since w w') = length news
    ∧ (length news + count is_page_start (events_since w w')
       ≤ count is_http_get (events_since w w'))%nat
    ∧ (count is_http_get (events_since w w')
       ≤ count is_page_start (events_since w w')
         + count is_item_start (events_since w w'))%nat.
Proof.
  intros Hrun.
  destruct (crawl_run_detail _ _ _ _ _ _ _ Hrun)
    as (news & evs & -> & Htoday & _ & Hllm & _ & Hlo & Hhi).
  exists news. rewrite !history_record_counts by tauto. done.
Qed.

(** X11 on the sample listing: two Entries, two requests to the LLM, and
    three pages, the listing and the two detail pages. *)
Lemma one_llm_request_per_entry_witness :
  let E := Sample.env Sample.llm_up in
  ∃ r w' news,
    crawl_and_process_papers E 5 Sample.LISTING_URL (Some 1%Z) Sample.fresh
    = Some (r, w')
    ∧ all_papers_global w' !! Sample.TODAY = Some news
    ∧ count is_llm_request (events_since Sample.fresh w') = length news
    ∧ count is_llm_request (events_since Sample.fresh w') = 2%nat
    ∧ count is_http_get (events_since Sample.fresh w') = 3%nat.
Proof.
  intros E.
  assert (Hcounts :
    (fun rw : outcome archive * world =>
       (count is_llm_request (events_since Sample.fresh rw.2),
        count is_http_get (events_since Sample.fresh rw.2)))
    <$> crawl_and_process_papers E 5 Sample.LISTING_URL (Some 1%Z)
          Sample.fresh = Some (2%nat, 3%nat)) by (vm_compute; reflexivity).
  destruct (crawl_and_process_papers E 5 Sample.LISTING_URL (Some 1%Z)
              Sample.fresh) as [[r w']|] eqn:Hrun; [|discriminate Hcounts].
  injection Hcounts as Hllm Hget.
  destruct (one_llm_request_per_entry E 5 Sample.LISTING_URL (Some 1%Z)
              Sample.fresh r w' Hrun) as (news & Htoday & Hnews & _).
  exists r, w', news. split; [reflexivity|]. split; [exact Htoday|].
  split; [exact Hnews|]. split; [exact Hllm | exact Hget].
Defined.

(** ** The listings a run starts *)

Lemma crawl_loop_starts E fuel (n : Z) date url page w r w' :
  n ≠ 0%Z →
  is_Some (all_papers_global w !! date) →
  crawl_loop E fuel (Some n) date url page w = Some (r, w') →
  ∃ evs, trace w' = trace w ++ evs
         ∧ (count is_page_start evs ≤ Z.to_nat (n + 1 - page))%nat.
Proof.
  intros Hn. revert url page w.
  induction fuel as [|fuel IH]; intros url page w Hsome; [done|].
  simpl. destruct (crawl_page E (Some n) date url page w) as [r1 w1] eqn:Hturn.
  destruct (crawl_page_detail _ _ _ _ _ _ _ _ Hsome Hturn)
    as (news1 & evs1 & Hh1 & Hstarts & _).
  assert (Hone : (count is_page_start evs1 ≤ Z.to_nat (n + 1 - page))%nat
                 ∧ (count is_page_start evs1
                    + Z.to_nat (n + 1 - (page + 1))
                    ≤ Z.to_nat (n + 1 - page))%nat).
  { rewrite Hstarts. simpl. apply Z.eqb_neq in Hn. rewrite Hn. simpl.
    destruct (n <? page)%Z eqn:Hlt; [lia|].
    apply Z.ltb_ge in Hlt. lia. }
  destruct Hone as [Hone Hmore].
  pose proof Hh1 as (Ht1 & _).
  destruct r1 as [[|next]|e].
  - intros [= <- <-]. eauto.
  - intros Hloop.
    destruct (IH _ _ _ (harvest_bucket _ _ _ _ _ Hh1 Hsome) Hloop)
      as (evs & Ht & Hle).
    exists (evs1 ++ evs). rewrite Ht, Ht1, app_assoc. split; [done|].
    rewrite count_app. lia.
  - intros [= <- <-]. eauto.
Qed.

(** X12: a page bound [n] other than [0] limits the listings of a run:
    the run starts at most [n + 1 - p] listings, where [p] is its start
    page, and so at most [n]. *)
Theorem page_bound_limits_listings (E : environment) (fuel : nat)
        (url : str) (n : Z) (w : world) (r : outcome archive) (w' : world) :
  n ≠ 0%Z →
  crawl_and_process_papers E fuel url (Some n) w = Some (r, w') →
  (count is_page_start (events_since w w')
   ≤ Z.to_nat (n + 1 - start_page w))%nat
  ∧ (count is_page_start (events_since w w') ≤ Z.to_nat n)%nat.
Proof.
  intros Hn Hrun. unfold crawl_and_process_papers in Hrun.
  rewrite crawl_setup_exact in Hrun.
  match type of Hrun with
  | context [crawl_loop E fuel _ _ url _ ?w0] => set (w1 := w0) in *
  end.
  destruct (crawl_loop E fuel _ _ url _ w1) as [[r2 w2]|] eqn:Hloop;
    [|done].
  assert (w' = w2) as -> by (by destruct r2; injection Hrun as <- <-).
  destruct (with_bucket_lookup (today_of E w) (loaded_archive w))
    as [Htoday _].
  assert (Hsome : is_Some (all_papers_global w1 !! today_of E w))
    by (subst w1; simpl; rewrite Htoday; eauto).
  destruct (crawl_loop_starts _ _ _ _ _ _ _ _ _ Hn Hsome Hloop)
    as (evs & Ht & Hle).
  rewrite (events_since_app w w2 (history_record w :: evs)).
  2:{ rewrite Ht. simpl. by rewrite <- app_assoc. }
  rewrite history_record_counts by tauto.
  split; [done|]. unfold start_page in *. lia.
Qed.

(** X12 on the sample listing with the bound of one page: one listing is
    started. *)
Lemma page_bound_limits_listings_witness :
  let E := Sample.env Sample.llm_up in
  ∃ r w',
    crawl_and_process_papers E 5 Sample.LISTING_URL (Some 1%Z) Sample.fresh
    = Some (r, w')
    ∧ (count is_page_start (events_since Sample.fresh w') ≤ 1)%nat.
Proof.
  intros E.
  assert (Hreturns :
    match crawl_and_process_papers E 5 Sample.LISTING_URL (Some 1%Z)
            Sample.fresh with
    | Some _ => true
    | None => false
    end = true)
    by (vm_compute; reflexivity).
  destruct (crawl_and_process_papers E 5 Sample.LISTING_URL (Some 1%Z)
              Sample.fresh) as [[r w']|] eqn:Hrun; [|discriminate Hreturns].
  destruct (page_bound_limits_listings E 5 Sample.LISTING_URL 1
              Sample.fresh r w' ltac:(discriminate) Hrun) as [_ Hle].
  exists r, w'. split; [reflexivity | exact Hle].
Defined.

(** X13: the start page is a number, not a place.  Whatever the page a
    run starts from, when the page bound does not stop it at once its
    first request is the one for the initial address: a run that resumes
    at page [p] reads the first listing again. *)
Theorem run_starts_from_initial_url (E : environment) (fuel : nat)
        (url : str) (max_pages : option Z) (w : world)
        (r : outcome archive) (w' : world) :
  past_max_pages max_pages (start_page w) = false →
  crawl_and_process_papers E fuel url max_pages w = Some (r, w') →
  ∃ rest,
    events_since w w'
    = history_record w
      :: Log LvInfo (PageStart (start_page w) url) :: HttpGet url :: rest.
Proof.
  intros Hpast Hrun. unfold crawl_and_process_papers in Hrun.
  rewrite crawl_setup_exact in Hrun.
  match type of Hrun with
  | context [crawl_loop E fuel _ _ url _ ?w0] => set (w1 := w0) in *
  end.
  destruct (crawl_loop E fuel _ _ url _ w1) as [[r2 w2]|] eqn:Hloop;
    [|done].
  assert (w' = w2) as -> by (by destruct r2; injection Hrun as <- <-).
  destruct (with_bucket_lookup (today_of E w) (loaded_archive w))
    as [Htoday _].
  assert (Hsome : is_Some (all_papers_global w1 !! today_of E w))
    by (subst w1; simpl; rewrite Htoday; eauto).
  destruct fuel as [|fuel]; [done|]. simpl in Hloop.
  destruct (crawl_page E max_pages _ url _ w1) as [r1 v1] eqn:Hturn.
  destruct (crawl_page_detail _ _ _ _ _ _ _ _ Hsome Hturn)
    as (news1 & evs1 & Hh1 & _ & Hfirst).
  destruct (Hfirst Hpast) as [rest1 ->].
  pose proof Hh1 as (Ht1 & _).
  assert (Htail : ∃ evs, trace w2 = trace v1 ++ evs).
  { destruct r1 as [[|next]|e].
    - injection Hloop as <- <-. exists []. by rewrite app_nil_r.
    - destruct (crawl_loop_detail _ _ _ _ _ _ _ _ _
                  (harvest_bucket _ _ _ _ _ Hh1 Hsome) Hloop)
        as (news & evs & Ht & _). eauto.
    - injection Hloop as <- <-. exists []. by rewrite app_nil_r. }
  destruct Htail as [evs Ht].
  exists (rest1 ++ evs). apply events_since_app.
  rewrite Ht, Ht1. simpl. by rewrite <- !app_assoc.
Qed.

(** X13 on an archive of one hundred Entries and no page bound: the run
    starts from page 2, and its first request is the initial listing. *)
Lemma run_starts_from_initial_url_witness :
  let E := Sample.env Sample.llm_up in
  let w := Sample.reloaded Cases.hundred in
  ∃ r w' rest,
    crawl_and_process_papers E 5 Sample.LISTING_URL None w = Some (r, w')
    ∧ events_since w w'
      = history_record w
        :: Log LvInfo (PageStart 2 Sample.LISTING_URL)
        :: HttpGet Sample.LISTING_URL :: rest.
Proof.
  intros E w.
  assert (Hreturns :
    match crawl_and_process_papers E 5 Sample.LISTING_URL None w with
    | Some _ => true
    | None => false
    end = true)
    by (vm_compute; reflexivity).
  destruct (crawl_and_process_papers E 5 Sample.LISTING_URL None w)
    as [[r w']|] eqn:Hrun; [|discriminate Hreturns].
  destruct (run_starts_from_initial_url E 5 Sample.LISTING_URL None w r w'
              eq_refl Hrun) as [rest Hevs].
  exists r, w', rest. split; [reflexivity | exact Hevs].
Defined.

(** ** The table of the report *)









Lemma literal_free (c : N) (s : str) :
  forallb (fun x => negb (x =? c)) s = true → c ∉ s.
Proof.
  intros Hs Hin. rewrite forallb_forall in Hs.
  apply list_elem_of_In in Hin. specialize (Hs _ Hin).
  by rewrite N.eqb_refl in Hs.
Qed.


Lemma returns_and_then {A B} (r : outcome A) (f : A → outcome B) (b : bool) :
  (∀ a, returns (f a) = b) →
  returns (Report.and_then r f) = returns r && b.
Proof. intros Hf. destruct r as [a|e]; simpl; [apply Hf | done]. Qed.

Lemma returns_escaped (p : paper) key default_text break :
  returns (Report.escaped (Report.get p key (VStr default_text)) break)
  = str_or_missing p key.
Proof.
  unfold Report.get, str_or_missing.
  by destruct (p !! key) as [[| | |]|].
Qed.

Lemma returns_title p : returns (Report.title p) = str_or_missing p K_TITLE.
Proof. apply returns_escaped. Qed.

Lemma returns_first_author p :
  returns (Report.first_author p) = str_or_falsy p K_AUTHORS.
Proof.
  unfold Report.first_author, Report.get, str_or_falsy.
  destruct (p !! K_AUTHORS) as [[|[]|z|s]|]; simpl; try done.
  - by destruct (z =? 0)%Z.
  - by destruct (Str.eqb s []).
Qed.

Lemma returns_comment_html p :
  returns (Report.comment_html p) = str_or_missing p K_COMMENT.
Proof.
  unfold Report.comment_html.
  rewrite <- (returns_escaped p K_COMMENT [] Report.BR).
  by destruct (Report.escaped _ _).
Qed.

Lemma returns_code_html p :
  returns (Report.code_html p) = str_or_falsy p K_CODE.
Proof.
  unfold Report.code_html, Report.get, str_or_falsy.
  destruct (p !! K_CODE) as [[|[]|z|s]|]; simpl; try done.
  - by destruct (z =? 0)%Z.
  - by destruct (Str.eqb s []).
Qed.

Lemma returns_score_html p :
  returns (Report.score_html p) = number_or_missing p K_LLM_SCORE.
Proof.
  unfold Report.score_html, Report.get, number_or_missing.
  by destruct (p !! K_LLM_SCORE) as [[| | |]|].
Qed.

Lemma returns_llm_html p :
  returns (Report.llm_html p) = str_or_missing p K_LLM_SUMMARY.
Proof.
  unfold Report.llm_html.
  rewrite <- (returns_escaped p K_LLM_SUMMARY Report.NO_SUMMARY Report.BR).
  by destruct (Report.escaped _ _).
Qed.

Lemma returns_row p : returns (Report.row p) = renderable p.
Proof.
  unfold Report.row, renderable.
  rewrite <- returns_title, <- returns_first_author, <- returns_comment_html,
    <- returns_code_html, <- returns_score_html, <- returns_llm_html.
  destruct (Report.title p); [|done].
  destruct (Report.first_author p); [|done].
  destruct (Report.comment_html p); [|done].
  destruct (Report.code_html p); [|done].
  destruct (Report.score_html p); [|done].
  by destruct (Report.llm_html p).
Qed.



(** ** The code links, from the crawl to the report *)

Lemma split_on_free (sep : N) s :
  (sep ∉ s) → Report.split_on sep s = [s].
Proof.
  induction s as [|c r IH]; [done|]. intros Hs. simpl.
  destruct (c =? sep) eqn:Hc.
  { apply N.eqb_eq in Hc as ->. destruct Hs. apply list_elem_of_here. }
  rewrite IH; [done|]. intros Hin. apply Hs. by apply list_elem_of_further.
Qed.

Lemma split_on_app (sep : N) p r :
  (sep ∉ p) →
  Report.split_on sep (p ++ sep :: r) = p :: Report.split_on sep r.
Proof.
  induction p as [|c p IH]; intros Hp; simpl.
  { by rewrite N.eqb_refl. }
  destruct (c =? sep) eqn:Hc.
  { apply N.eqb_eq in Hc as ->. destruct Hp. apply list_elem_of_here. }
  rewrite IH; [done|]. intros Hin. apply Hp. by apply list_elem_of_further.
Qed.

(** The parts of a joined list of links: the first as it is, the others
    after the space of the separator. *)
Lemma split_on_joined u rest :
  Forall plain_link (u :: rest) →
  Report.split_on COMMA (join (lit ", ") (u :: rest))
  = u :: map (cons 32) rest.
Proof.
  revert u. induction rest as [|v rest IH]; intros u Hall.
  - apply Forall_cons in Hall as [(_ & _ & Hu) _]. simpl.
    by apply split_on_free.
  - apply Forall_cons in Hall as [(_ & _ & Hu) Hrest].
    change (join (lit ", ") (u :: v :: rest))
      with (u ++ COMMA :: 32 :: join (lit ", ") (v :: rest)).
    rewrite split_on_app by done.
    cbn [Report.split_on]. change (32 =? COMMA) with false. cbv iota.
    by rewrite (IH v Hrest).
Qed.

Lemma drop_while_id (p : N → bool) s :
  (∀ c, head s = Some c → p c = false) → drop_while p s = s.
Proof. destruct s as [|c r]; [done|]. intros H. simpl. by rewrite H. Qed.

Lemma strip_id s : trimmed s → strip s = s.
Proof.
  intros [Hhead Hlast]. unfold strip, rstrip, lstrip.
  rewrite (drop_while_id isspace s Hhead).
  rewrite drop_while_id; [apply rev_involutive|].
  intros c Hc. apply Hlast. by rewrite <- head_rev.
Qed.

Lemma code_list_joined urls :
  Forall plain_link urls →
  Report.code_list (join (lit ", ") urls) = urls.
Proof.
  destruct urls as [|u rest]; [done|]. intros Hall.
  unfold Report.code_list. rewrite split_on_joined by done.
  apply Forall_cons in Hall as [(Hu & Htu & _) Hrest].
  cbn [map List.filter]. rewrite (strip_id u Htu).
  assert (Str.eqb u [] = false) as -> by (by apply bool_decide_eq_false).
  simpl. f_equal.
  induction Hrest as [|v rest (Hv & Htv & _) Hrest IH]; [done|].
  cbn [map List.filter].
  change (strip (32 :: v)) with (strip v). rewrite (strip_id v Htv).
  assert (Str.eqb v [] = false) as -> by (by apply bool_decide_eq_false).
  simpl. by f_equal.
Qed.

(** X16: the code links survive the way from the crawl to the report.
    The crawl stores the links of a comment joined by a comma and a space;
    when the links are not empty, have no white space around them and hold
    no comma, the renderer reads the same list back from the field, in the
    same order, and the code cell shows one numbered link for each. *)
Theorem code_links_round_trip (urls : list str) (paper : paper) :
  urls ≠ [] →
  Forall plain_link urls →
  paper !! K_CODE = Some (VStr (join (lit ", ") urls)) →
  Report.code_list (join (lit ", ") urls) = urls
  ∧ Report.code_html paper
    = Ret (join Report.BR (imap Report.code_link urls)).
Proof.
  intros Hne Hall Hcode.
  pose proof (code_list_joined urls Hall) as Hlist.
  split; [done|].
  unfold Report.code_html, Report.get. rewrite Hcode. simpl.
  assert (Str.eqb (join (lit ", ") urls) [] = false) as ->.
  { apply bool_decide_eq_false. intros Hnil.
    destruct urls as [|u rest]; [done|].
    apply Forall_cons in Hall as [(Hu & _) _].
    destruct rest; simpl in Hnil; [done|].
    by apply app_eq_nil in Hnil as [? _]. }
  simpl. by rewrite Hlist.
Qed.

(** X16 on two links. *)
Lemma code_links_round_trip_witness :
  let urls := [lit "https://github.com/a/b"; lit "https://example.org/c"] in
  let paper : paper := {[ K_CODE := VStr (join (lit ", ") urls) ]} in
  Report.code_list (join (lit ", ") urls) = urls
  ∧ Report.code_html paper
    = Ret (join Report.BR (imap Report.code_link urls)).
Proof.
  intros urls paper.
  apply (code_links_round_trip urls paper).
  - discriminate.
  - repeat constructor; try discriminate;
      try (intros c Hc; vm_compute in Hc; injection Hc as <-; reflexivity);
      by apply literal_free.
  - reflexivity.
Defined.

(** ** The content of the report *)

Lemma returns_table_rows (papers : list paper) :
  returns (Report.table_rows papers) = forallb renderable papers.
Proof.
  induction papers as [|p rest IH]; [done|].
  simpl. rewrite <- returns_row, <- IH.
  destruct (Report.row p); [|done]. simpl.
  by destruct (Report.table_rows rest).
Qed.

Lemma returns_section (current date : str) (papers : list paper) :
  returns (Report.section current date papers) = forallb renderable papers.
Proof.
  unfold Report.section. rewrite <- returns_table_rows.
  by destruct (Report.table_rows papers).
Qed.

Lemma returns_date_sections (current : str) (date_papers : archive)
      (dates : list str) :
  returns (Report.date_sections current date_papers dates)
  = forallb (fun date =>
               forallb renderable (Report.bucket date_papers date)) dates.
Proof.
  induction dates as [|date rest IH]; [done|].
  simpl. rewrite <- returns_section with (current := current) (date := date),
    <- IH.
  destruct (Report.section _ _ _); [|done]. simpl.
  by destruct (Report.date_sections _ _ rest).
Qed.

Lemma valid_dates_nil (recent_dates : list str) (date_papers : archive) :
  Report.valid_dates recent_dates date_papers = []
  ↔ ∀ date, date ∈ recent_dates → Report.bucket date_papers date = [].
Proof.
  unfold Report.valid_dates, Report.bucket.
  induction recent_dates as [|d rest IH]; simpl.
  { split; [by intros _ date ?%elem_of_nil | done]. }
  destruct (date_papers !! d) as [[|p papers]|] eqn:Hd; simpl.
  - rewrite IH. split.
    + intros H date [-> | Hin]%elem_of_cons; [by rewrite Hd | by apply H].
    + intros H date Hin. apply H. by apply list_elem_of_further.
  - split; [done|]. intros H.
    specialize (H d (list_elem_of_here _ _)). by rewrite Hd in H.
  - rewrite IH. split.
    + intros H date [-> | Hin]%elem_of_cons; [by rewrite Hd | by apply H].
    + intros H date Hin. apply H. by apply list_elem_of_further.
Qed.

(** X17: when the report is written.  The content is computed exactly
    when every paper of the dates it shows, the recent dates that have
    papers, can be rendered: a paper of an older date cannot break the
    report.  And there is nothing to write exactly when no recent date has
    a paper. *)
Theorem report_renders_iff_rows_render (CURRENT_DATE : str)
        (recent_dates : list str) (date_papers : archive) :
  returns (Report.md_content CURRENT_DATE recent_dates date_papers)
  = forallb (fun date =>
               forallb renderable (Report.bucket date_papers date))
            (Report.valid_dates recent_dates date_papers)
  ∧ (Report.md_content CURRENT_DATE recent_dates date_papers = Ret None
     ↔ ∀ date, date ∈ recent_dates →
               Report.bucket date_papers date = []).
Proof.
  rewrite <- valid_dates_nil. unfold Report.md_content.
  destruct (Report.valid_dates recent_dates date_papers) as [|d rest]
    eqn:Hvalid; [done|].
  rewrite <- (returns_date_sections CURRENT_DATE).
  destruct (Report.date_sections _ _ _); simpl; split; try done.
Qed.

(** ** The entry point *)

Lemma crawl_run_world E fuel url max w r w' :
  crawl_and_process_papers E fuel url max w = Some (r, w') →
  write_fault w' = write_fault w
  ∧ (write_fault w ≠ None → json_file w' = json_file w)
  ∧ all_papers_global w' ≠ ∅
  ∧ ∀ e, r = Raise e → is_Exception e = true.
Proof.
  intros Hrun.
  destruct (crawl_run_detail _ _ _ _ _ _ _ Hrun)
    as (news & evs & _ & Htoday & _).
  unfold crawl_and_process_papers in Hrun.
  rewrite crawl_setup_exact in Hrun.
  match type of Hrun with
  | context [crawl_loop E fuel max _ url _ ?w0] => set (w1 := w0) in *
  end.
  destruct (crawl_loop E fuel max _ url _ w1) as [[r2 w2]|] eqn:Hloop;
    [|done].
  destruct (crawl_loop_file _ _ _ _ _ _ _ _ _ Hloop) as (Hf & Hsame & _).
  assert (Hsome : is_Some (all_papers_global w1 !! today_of E w)).
  { destruct (with_bucket_lookup (today_of E w) (loaded_archive w))
      as [Hb _]. subst w1. simpl. rewrite Hb. eauto. }
  pose proof (λ e, crawl_loop_raise _ _ _ _ _ _ _ _ _ Hsome Hloop e) as Hr.
  assert (w' = w2) as -> by (by destruct r2; injection Hrun as <- <-).
  split; [done|]. split; [exact Hsame|]. split.
  - intros Hempty. by rewrite Hempty in Htoday.
  - intros e ->. destruct r2 as [[]|e2]; [done|]. injection Hrun as <-.
    by destruct (Hr e2 eq_refl) as [msg ->].
Qed.

Lemma json_to_markdown_cases E w :
  ∃ r, json_to_markdown E w = (r, extend w [Render (json_file w)])
       ∧ (r = Ret tt ∨ ∃ c msg, r = Raise (Exn c msg)).
Proof.
  unfold json_to_markdown.
  destruct (renderer_fault E (json_file w)) as [[c msg]|].
  - erewrite bind_run by apply emit_run. eexists. split; [done|]. eauto.
  - rewrite emit_run. eexists. split; [done|]. by left.
Qed.

(** What the [try] body leaves: the JSON file and the archive are those
    of the crawl. *)
Lemma task_cases E fuel s r s' :
  Main.task E fuel s = Some (r, s') →
  write_fault (Main.inner s') = write_fault (Main.inner s)
  ∧ (write_fault (Main.inner s) ≠ None →
     json_file (Main.inner s') = json_file (Main.inner s))
  ∧ all_papers_global (Main.inner s') ≠ ∅
  ∧ (r = Ret tt ∨ ∃ e, r = Raise e ∧ is_Exception e = true)
  ∧ ∃ r0 w1,
      crawl_and_process_papers E fuel Main.INITIAL_ARXIV_URL
                               Main.MAX_CRAWL_PAGES (Main.inner s)
      = Some (r0, w1)
      ∧ all_papers_global (Main.inner s') = all_papers_global w1
      ∧ json_file (Main.inner s') = json_file w1.
Proof.
  unfold Main.task.
  destruct (crawl_and_process_papers _ _ _ _ _) as [[r0 w1]|] eqn:Hrun;
    [|done].
  destruct (crawl_run_world _ _ _ _ _ _ _ Hrun) as (Hf & Hsame & Hne & Hexn).
  destruct r0 as [all_papers|e].
  - unfold Main.call.
    destruct (json_to_markdown_cases E
                (Main.inner (Main.say LvInfo Main.ReportStart
                                      (Main.absorb s w1))))
      as (r3 & -> & Hr3).
    destruct Hr3 as [-> | (c & msg & ->)]; intros [= <- <-]; simpl;
      repeat split; try done; eauto 10.
  - intros [= <- <-]. simpl. repeat split; try done; eauto 10.
Qed.

(** X18: the entry point always ends, and with status 0 or 1.  With the
    shipped bound of one page two turns of the loop are enough.  Without
    a usable API key it logs one error and exits with status 1 before it
    reads the JSON file or sends a request; otherwise it either completes
    and returns, or logs the failure and exits with status 1. *)
Theorem main_always_exits (E : environment) (format_exc : exn → str)
        (LLM_API_KEY : option str) (s : Main.main_world) :
  ∃ r s',
    Main.main E format_exc 2 LLM_API_KEY s = Some (r, s')
    ∧ (r = Ret tt ∨ r = Raise (SystemExit 1))
    ∧ (exit_status r = 0%Z ∨ exit_status r = 1%Z)
    ∧ (Main.key_missing LLM_API_KEY = true →
       r = Raise (SystemExit 1)
       ∧ s' = Main.say LvError Main.KeyMissing s).
Proof.
  unfold Main.main.
  destruct (Main.key_missing LLM_API_KEY).
  { eexists _, _. split; [done|]. split; [by right|]. split; [by right|].
    done. }
  assert (Hends : ∃ r1 s1, Main.task E 2 (Main.announce s) = Some (r1, s1)).
  { unfold Main.task, crawl_and_process_papers, Main.MAX_CRAWL_PAGES.
    rewrite crawl_setup_exact.
    match goal with
    | |- context [crawl_loop E 2 _ ?d ?u ?p ?w0] =>
        destruct (crawl_loop_terminates E 1 d 2 u p w0) as (r0 & w1 & ->);
          [done | unfold start_page; lia |]
    end.
    destruct r0 as [[]|e]; [|eauto].
    destruct (Main.call _ _) as [[[]|e] s2]; eauto. }
  destruct Hends as (r1 & s1 & Htask). rewrite Htask.
  destruct (task_cases _ _ _ _ _ Htask)
    as (_ & _ & _ & [-> | (e & -> & ->)] & _).
  { eexists _, _. split; [done|]. split; [by left|]. split; [by left|].
    done. }
  unfold Main.rescue.
  destruct (bool_decide _).
  { eexists _, _. split; [done|]. split; [by right|]. split; [by right|].
    done. }
  unfold Main.call, write_json. simpl.
  destruct (write_fault (Main.inner s1)) as [[c msg]|]; simpl;
    eexists _, _; (split; [done|]); (split; [by right|]);
    (split; [by right|]); done.
Qed.



(** ** The comment holds no address *)

Lemma url_match_unfold s :
  url_match s
  = match url_run s (lit "https://") with
    | Some n => Some n
    | None =>
        match url_run s (lit "http://") with
        | Some n => Some n
        | None => url_run s (lit "www.")
        end
    end.
Proof. reflexivity. Qed.

Lemma take_while_drop_while (p : N → bool) s :
  drop (length (take_while p s)) s = drop_while p s.
Proof.
  induction s as [|c r IH]; [done|]. simpl. by destruct (p c).
Qed.

Lemma url_run_spec s p n :
  url_run s p = Some n ↔
  ∃ x r, isspace x = false ∧ s = p ++ x :: r
         ∧ n = (length p
                + length (take_while (fun c => negb (isspace c)) (x :: r)))%nat.
Proof.
  unfold url_run. split.
  - destruct (startswith s p) eqn:Hp; [|done].
    apply startswith_spec in Hp as [r0 ->].
    rewrite drop_app_length. simpl.
    destruct r0 as [|x r]; [done|]. simpl.
    destruct (isspace x) eqn:Hx; [done|]. simpl.
    intros [= <-]. exists x, r. by rewrite Hx.
  - intros (x & r & Hx & -> & ->).
    rewrite startswith_app, drop_app_length. simpl. by rewrite Hx.
Qed.

(** A match starts with one of the heads and a character that is not
    white space. *)
Lemma url_match_spec s :
  is_Some (url_match s) ↔
  ∃ p x r, p ∈ URL_HEADS ∧ isspace x = false ∧ s = p ++ x :: r.
Proof.
  rewrite url_match_unfold. split.
  - intros [n Hn].
    destruct (url_run s (lit "https://")) as [n1|] eqn:H1.
    { apply url_run_spec in H1 as (x & r & Hx & -> & _).
      exists (lit "https://"), x, r. split; [|done].
      apply list_elem_of_In. simpl. tauto. }
    destruct (url_run s (lit "http://")) as [n2|] eqn:H2.
    { apply url_run_spec in H2 as (x & r & Hx & -> & _).
      exists (lit "http://"), x, r. split; [|done].
      apply list_elem_of_In. simpl. tauto. }
    apply url_run_spec in Hn as (x & r & Hx & -> & _).
    exists (lit "www."), x, r. split; [|done].
    apply list_elem_of_In. simpl. tauto.
  - intros (p & x & r & Hp & Hx & ->).
    assert (Hrun : is_Some (url_run (p ++ x :: r) p)).
    { eexists. apply url_run_spec. by exists x, r. }
    destruct Hrun as [n Hn].
    destruct (url_run (p ++ x :: r) (lit "https://")) eqn:H1; [eauto|].
    destruct (url_run (p ++ x :: r) (lit "http://")) eqn:H2; [eauto|].
    unfold URL_HEADS in Hp.
    apply elem_of_cons in Hp as [-> | Hp]; [congruence|].
    apply elem_of_cons in Hp as [-> | Hp]; [congruence|].
    apply list_elem_of_singleton in Hp as ->. eauto.
Qed.

(** After a match comes white space, or nothing. *)
Lemma url_match_rest s n :
  url_match s = Some n →
  (0 < n)%nat
  ∧ ∀ c, head (drop n s) = Some c → isspace c = true.
Proof.
  rewrite url_match_unfold.
  assert (Hrun : ∀ p, url_run s p = Some n →
            (0 < n)%nat ∧ ∀ c, head (drop n s) = Some c → isspace c = true).
  { intros p (x & r & Hx & -> & ->)%url_run_spec. split.
    - simpl. rewrite Hx. simpl. lia.
    - intros c. rewrite <- drop_drop, drop_app_length.
      rewrite take_while_drop_while. intros Hc%drop_while_head.
      by apply negb_false_iff in Hc. }
  destruct (url_run s (lit "https://")) eqn:H1; [intros [= <-]; eauto|].
  destruct (url_run s (lit "http://")) eqn:H2; [intros [= <-]; eauto|].
  apply Hrun.
Qed.

Lemma remove_urls_skip k s : remove_urls k s = remove_urls O (drop k s).
Proof.
  revert s. induction k as [|k IH]; intros s; [done|].
  destruct s as [|c r]; [done|]. simpl. apply IH.
Qed.

Lemma remove_urls_match s n :
  url_match s = Some n → remove_urls O s = remove_urls O (drop n s).
Proof.
  intros Hm. destruct (url_match_rest _ _ Hm) as [Hn _].
  destruct s as [|c r]; [done|].
  cbn [remove_urls]. rewrite Hm, remove_urls_skip.
  destruct n as [|n]; [lia|]. done.
Qed.

Lemma remove_urls_keep c r :
  url_match (c :: r) = None →
  remove_urls O (c :: r) = c :: remove_urls O r.
Proof. intros Hm. cbn [remove_urls]. by rewrite Hm. Qed.

Lemma url_match_space c r : isspace c = true → url_match (c :: r) = None.
Proof.
  intros Hc. destruct (url_match (c :: r)) as [n|] eqn:Hm; [|done].
  assert (Hs : is_Some (url_match (c :: r))) by eauto.
  apply url_match_spec in Hs as (p & x & r' & Hp & _ & Heq).
  apply list_elem_of_In in Hp. simpl in Hp.
  destruct Hp as [<- | [<- | [<- | []]]]; injection Heq as -> _; done.
Qed.

(** A prefix without white space of the text that is left is a prefix of
    the text. *)
Lemma remove_urls_prefix (len : nat) : ∀ s q,
  (length s ≤ len)%nat →
  forallb (fun c => negb (isspace c)) q = true →
  startswith (remove_urls O s) q = true → startswith s q = true.
Proof.
  induction len as [|len IH]; intros s q Hlen Hq Hstart.
  { destruct s; [done | simpl in Hlen; lia]. }
  destruct q as [|x q]; [apply startswith_nil|].
  apply andb_true_iff in Hq as [Hx Hq]. apply negb_true_iff in Hx.
  destruct s as [|c r]; [done|]. simpl in Hlen.
  destruct (url_match (c :: r)) as [n|] eqn:Hm.
  - rewrite (remove_urls_match _ _ Hm) in Hstart.
    destruct (url_match_rest _ _ Hm) as [Hn Hws].
    destruct (drop n (c :: r)) as [|ws t] eqn:Hdrop; [done|].
    specialize (Hws ws eq_refl).
    rewrite remove_urls_keep in Hstart by (by apply url_match_space).
    simpl in Hstart. apply andb_true_iff in Hstart as [Heq _].
    apply N.eqb_eq in Heq as ->. congruence.
  - rewrite remove_urls_keep in Hstart by done.
    simpl in Hstart |- *. apply andb_true_iff in Hstart as [-> Hrest].
    simpl. apply IH; [lia | done | done].
Qed.

Lemma heads_without_space p :
  p ∈ URL_HEADS → forallb (fun c => negb (isspace c)) p = true.
Proof.
  intros Hp. apply list_elem_of_In in Hp. simpl in Hp.
  by destruct Hp as [<- | [<- | [<- | []]]].
Qed.

Lemma remove_urls_no_match s :
  url_match s = None → url_match (remove_urls O s) = None.
Proof.
  intros Hm. destruct (url_match (remove_urls O s)) as [n|] eqn:Hm'; [|done].
  assert (Hs : is_Some (url_match (remove_urls O s))) by eauto.
  apply url_match_spec in Hs as (p & x & r & Hp & Hx & Heq).
  assert (Hstart : startswith s (p ++ [x]) = true).
  { apply (remove_urls_prefix (length s)); [done| |].
    - rewrite forallb_app, (heads_without_space p Hp). simpl.
      by rewrite Hx.
    - apply startswith_spec. exists r. by rewrite Heq, <- app_assoc. }
  apply startswith_spec in Hstart as [r' Hs].
  assert (is_Some (url_match s)) as [? ?]; [|congruence].
  apply url_match_spec. exists p, x, r'. rewrite Hs, <- app_assoc. done.
Qed.

Lemma remove_urls_clean (len : nat) : ∀ s,
  (length s ≤ len)%nat → has_url (remove_urls O s) = false.
Proof.
  induction len as [|len IH]; intros s Hlen.
  { destruct s; [done | simpl in Hlen; lia]. }
  destruct s as [|c r]; [done|]. simpl in Hlen.
  destruct (url_match (c :: r)) as [n|] eqn:Hm.
  - rewrite (remove_urls_match _ _ Hm).
    destruct (url_match_rest _ _ Hm) as [Hn _].
    apply IH. rewrite length_drop. simpl. lia.
  - pose proof (remove_urls_no_match _ Hm) as Hnone.
    rewrite remove_urls_keep in * by done.
    cbn [has_url]. rewrite Hnone. apply IH. lia.
Qed.

Lemma has_url_suffix a b : has_url (a ++ b) = false → has_url b = false.
Proof.
  induction a as [|c a IH]; [done|]. simpl.
  destruct (url_match (c :: a ++ b)); [done|]. apply IH.
Qed.

Lemma has_url_prefix a b : has_url (a ++ b) = false → has_url a = false.
Proof.
  induction a as [|c a IH]; [done|]. simpl.
  destruct (url_match (c :: a ++ b)) as [n|] eqn:Hm; [done|].
  intros Hrest. destruct (url_match (c :: a)) as [n|] eqn:Hm'; [|by apply IH].
  assert (Hs : is_Some (url_match (c :: a))) by eauto.
  apply url_match_spec in Hs as (p & x & r & Hp & Hx & Heq).
  assert (is_Some (url_match (c :: a ++ b))) as [? ?]; [|congruence].
  apply url_match_spec. exists p, x, (r ++ b).
  split; [done|]. split; [done|].
  change (c :: a ++ b) with ((c :: a) ++ b). rewrite Heq.
  by rewrite <- app_assoc.
Qed.

Lemma has_url_drop_while p s :
  has_url s = false → has_url (drop_while p s) = false.
Proof.
  destruct (drop_while_suffix p s) as (pre & Hs & _).
  intros H. rewrite Hs in H. by apply has_url_suffix in H.
Qed.

Lemma has_url_drop_while_end p s :
  has_url s = false → has_url (rev (drop_while p (rev s))) = false.
Proof.
  destruct (drop_while_suffix p (rev s)) as (pre & Hs & _).
  intros H. apply (f_equal (@rev N)) in Hs.
  rewrite rev_involutive, rev_app_distr in Hs.
  rewrite Hs in H. by apply has_url_prefix in H.
Qed.

Lemma has_url_strip s : has_url s = false → has_url (strip s) = false.
Proof.
  intros H. unfold strip, rstrip, lstrip.
  by apply has_url_drop_while_end, has_url_drop_while.
Qed.

(** X20: the cleaned comment holds no address: no place of it matches
    the pattern [https?://\S+|www\.\S+], whatever the comment block
    holds. *)
Theorem comment_holds_no_url (E : environment)
        (comment_tag : option node) :
  has_url (process_comment_and_code E comment_tag).1 = false.
Proof.
  destruct comment_tag as [tag|]; [|done]. simpl.
  unfold cut_trailing_separators.
  apply has_url_drop_while_end, has_url_strip.
  by eapply remove_urls_clean.
Qed.

(** ** The score, from the crawl to the report *)

(** X21: the score cell of a stored Entry.  The score of an Entry of the
    shape the crawl stores is shown as a dash when it is 0, the score of a
    failed or unmarked summary, and otherwise as five stars of which the
    first [score] are filled. *)
Theorem score_cell_of_stored_entry (paper : paper) :
  entry_ok paper →
  ∃ n cell,
    paper !! K_LLM_SCORE = Some (VInt n)
    ∧ Report.score_html paper = Ret cell
    ∧ (n = 0%Z → cell = Report.DASH)
    ∧ (n ≠ 0%Z →
       cell = replicate (Z.to_nat n) Report.STAR
              ++ replicate (5 - Z.to_nat n) Report.HOLLOW_STAR
       ∧ length cell = 5%nat).
Proof.
  intros (_ & _ & n & s & e & Hscore & Hrange & _).
  unfold Report.score_html, Report.get. rewrite Hscore. simpl.
  exists n, (Report.stars n). split; [done|]. split; [done|].
  unfold Report.stars. split.
  - by intros ->.
  - intros Hn.
    assert (((1 <=? n) && (n <=? 5))%Z = true) as ->.
    { apply andb_true_iff. split; apply Z.leb_le; lia. }
    replace (Z.to_nat (5 - n)) with (5 - Z.to_nat n)%nat by lia.
    split; [done|]. rewrite length_app, !length_replicate. lia.
Qed.

(** X21 on an Entry of score 4. *)
Lemma score_cell_of_stored_entry_witness :
  ∃ cell,
    Report.score_html Cases.entry = Ret cell
    ∧ cell = replicate 4 Report.STAR ++ replicate 1 Report.HOLLOW_STAR.
Proof.
  destruct (score_cell_of_stored_entry Cases.entry)
    as (n & cell & Hscore & Hcell & _ & Hstars).
  { apply entry_keys_ok; simpl; [lia | done]. }
  assert (n = 4%Z) as -> by (vm_compute in Hscore; congruence).
  destruct (Hstars ltac:(discriminate)) as [-> _].
  eexists. split; [exact Hcell | reflexivity].
Defined.
